(** * CrudOperations: session store, API client, auth gateway and route guard

    A shallow embedding of the JavaScript sources

      - [src/state/store.js]          (module [Store])
      - [src/services/apiService.js]  (module [apiService])
      - [src/services/authService.js] (module [authService])
      - [src/router/router.js]        (module [Router], with what the
        view functions of [src/views] do when [render] calls them)
      - [src/components/Sidebar.js]   (module [Sidebar])
      - the form handlers of [src/views/login.js], [register.js],
        [createStudent.js] and [studentsList.js] (module [Views])
      - [src/app.js]                  (module [App])

    The browser platform the code runs on (values, property access,
    [JSON], [localStorage], [window.location.hash], [fetch]) is modelled
    in the modules [JS], [JSON] and [Platform]; the mock REST backend
    the README starts with [json-server --watch db.json --port 3000] is
    modelled in [JsonServer]. *)

From Stdlib Require Import ZArith NArith Ascii String List Bool Lia.
From Stdlib Require Import DecimalString.
From Stdlib Require DecimalN DecimalFacts.
From stdpp Require Import gmap strings.

Import ListNotations.
Local Open Scope string_scope.
Local Open Scope Z_scope.
Set Warnings "-register-all".

(* ===================================================================== *)
(** ** JavaScript values *)
(* ===================================================================== *)

Module JS.

(** The values that travel through the modelled code: everything
    [JSON.parse] can build, plus [undefined] (the result of reading a
    property that is not there).  A number is kept as the exact decimal
    [m * 10^e]; the rounding of IEEE doubles is not modelled.  An object
    is the list of its own properties in enumeration order. *)
Inductive value : Type :=
| VUndefined
| VNull
| VBool (b : bool)
| VNum (m e : Z)
| VStr (s : string)
| VArr (elems : list value)
| VObj (props : list (string * value)).

(** Thrown values: the code only throws and rethrows [Error] objects. *)
Record error : Type := mkError {
  err_name : string;      (* 'Error', 'TypeError', 'SyntaxError' *)
  err_message : string
}.

Inductive result (A : Type) : Type :=
| Ok (a : A)
| Throw (e : error).
Arguments Ok {A} a.
Arguments Throw {A} e.

Definition TypeError (msg : string) : error := mkError "TypeError" msg.
Definition SyntaxError (msg : string) : error := mkError "SyntaxError" msg.
Definition Error (msg : string) : error := mkError "Error" msg.

Definition VInt (n : Z) : value := VNum n 0.

(** *** Strings as character lists *)

Definition chars (s : string) : list ascii := list_ascii_of_string s.
Definition str (cs : list ascii) : string := string_of_list_ascii cs.

Fixpoint join (sep : string) (l : list string) : string :=
  match l with
  | [] => ""
  | [s] => s
  | s :: rest => s ++ sep ++ join sep rest
  end.

Definition is_digit (c : ascii) : bool :=
  let n := nat_of_ascii c in (48 <=? n)%nat && (n <=? 57)%nat.

Definition digit_val (c : ascii) : Z := Z.of_nat (nat_of_ascii c) - 48.

(** Value of a run of decimal digits, most significant first. *)
Definition digits_val (cs : list ascii) : Z :=
  fold_left (fun acc c => acc * 10 + digit_val c) cs 0.

(** Decimal digits of a natural number, ["0"] for zero. *)
Definition digits_of (n : Z) : string :=
  NilZero.string_of_uint (N.to_uint (Z.to_N n)).

(** *** Number::toString (radix 10) *)

Fixpoint strip_trailing_zeros_rev (rev_digits : list ascii) (e : Z)
  : list ascii * Z :=
  match rev_digits with
  | "0"%char :: rest => strip_trailing_zeros_rev rest (e + 1)
  | _ => (rev_digits, e)
  end.

Definition zeros (n : Z) : string := str (repeat "0"%char (Z.to_nat n)).

(** [number_to_string m e] prints [m * 10^e] the way ECMAScript prints
    the number with those decimal digits: plain digits while the
    decimal point falls within 21 places, a leading ["0."] down to
    [1e-6], exponent notation otherwise. *)
Definition number_to_string (m e : Z) : string :=
  if m =? 0 then "0" else
  let sign := if m <? 0 then "-" else "" in
  let '(rd, e') := strip_trailing_zeros_rev (rev (chars (digits_of (Z.abs m)))) e in
  let ds := rev rd in
  let k := Z.of_nat (length ds) in
  let n := k + e' in
  sign ++
  (if (k <=? n) && (n <=? 21) then str ds ++ zeros (n - k)
   else if (0 <? n) && (n <=? 21) then
     str (firstn (Z.to_nat n) ds) ++ "." ++ str (skipn (Z.to_nat n) ds)
   else if (-6 <? n) && (n <=? 0) then "0." ++ zeros (- n) ++ str ds
   else
     let ex := (if n - 1 <? 0 then "-" else "+") ++ digits_of (Z.abs (n - 1)) in
     match ds with
     | [d] => str [d] ++ "e" ++ ex
     | d :: more => str [d] ++ "." ++ str more ++ "e" ++ ex
     | [] => "0"
     end).

(** *** ToBoolean *)

Definition truthy (v : value) : bool :=
  match v with
  | VUndefined | VNull => false
  | VBool b => b
  | VNum m _ => negb (m =? 0)
  | VStr s => negb (String.eqb s "")
  | VArr _ | VObj _ => true
  end.

(** [a || b] on values. *)
Definition or_else (a b : value) : value := if truthy a then a else b.

(** [v === 'lit'] against a string literal. *)
Definition strict_eq_str (v : value) (lit : string) : bool :=
  match v with
  | VStr s => String.eqb s lit
  | _ => false
  end.

(** [v !== null] *)
Definition not_null (v : value) : bool :=
  match v with
  | VNull => false
  | _ => true
  end.

(** *** Property keys and own properties *)

(** A canonical array index: decimal digits without a leading zero,
    below [2^32 - 1].  Such keys enumerate first, in ascending order. *)
Definition index_of_key (k : string) : option Z :=
  match chars k with
  | [] => None
  | c :: rest =>
      if forallb is_digit (c :: rest)
         && implb (Ascii.eqb c "0") (match rest with [] => true | _ => false end)
      then let n := digits_val (c :: rest) in
           if n <? 4294967295 then Some n else None
      else None
  end.

Fixpoint assoc (k : string) (o : list (string * value)) : option value :=
  match o with
  | [] => None
  | (k', v) :: rest => if String.eqb k k' then Some v else assoc k rest
  end.

Fixpoint replace_prop (k : string) (v : value) (o : list (string * value))
  : list (string * value) :=
  match o with
  | [] => []
  | (k', v') :: rest =>
      if String.eqb k k' then (k', v) :: rest
      else (k', v') :: replace_prop k v rest
  end.

(** Where a new key goes: an index key before the first larger index
    key or the first ordinary key, an ordinary key at the end. *)
Fixpoint insert_prop (k : string) (v : value) (o : list (string * value))
  : list (string * value) :=
  match o with
  | [] => [(k, v)]
  | (k', v') :: rest =>
      match index_of_key k, index_of_key k' with
      | Some i, Some j =>
          if i <? j then (k, v) :: o else (k', v') :: insert_prop k v rest
      | Some _, None => (k, v) :: o
      | None, _ => (k', v') :: insert_prop k v rest
      end
  end.

(** [o[k] = v] on an ordinary object: an existing key keeps its
    position, a new one is added. *)
Definition obj_set (k : string) (v : value) (o : list (string * value))
  : list (string * value) :=
  match assoc k o with
  | Some _ => replace_prop k v o
  | None => insert_prop k v o
  end.

Definition char_at (s : string) (i : Z) : value :=
  match nth_error (chars s) (Z.to_nat i) with
  | Some c => VStr (str [c])
  | None => VUndefined
  end.

(** [s.length], counted in bytes of the UTF-8 text; the sources only
    ask whether a length is positive. *)
Definition str_length (s : string) : Z := Z.of_nat (String.length s).

(** [v.k] and [v[k]].  Reading a property of [undefined] or [null]
    throws; a missing property reads as [undefined].  The names the
    sources read ([name], [role], [email], [length], [0]) are not
    defined on the built-in prototypes, so own properties decide. *)
Definition get_prop (v : value) (k : string) : result value :=
  match v with
  | VUndefined =>
      Throw (TypeError ("Cannot read properties of undefined (reading '" ++ k ++ "')"))
  | VNull =>
      Throw (TypeError ("Cannot read properties of null (reading '" ++ k ++ "')"))
  | VBool _ | VNum _ _ => Ok VUndefined
  | VStr s =>
      if String.eqb k "length" then Ok (VInt (str_length s))
      else match index_of_key k with
           | Some i => Ok (char_at s i)
           | None => Ok VUndefined
           end
  | VArr l =>
      if String.eqb k "length" then Ok (VInt (Z.of_nat (length l)))
      else match index_of_key k with
           | Some i => Ok (nth (Z.to_nat i) l VUndefined)
           | None => Ok VUndefined
           end
  | VObj o => Ok (default VUndefined (assoc k o))
  end.

Fixpoint indexed (i : Z) (l : list value) : list (string * value) :=
  match l with
  | [] => []
  | v :: rest => (digits_of i, v) :: indexed (i + 1) rest
  end.

(** The own enumerable properties an object spread [{...v}] copies. *)
Definition own_props (v : value) : list (string * value) :=
  match v with
  | VObj o => o
  | VArr l => indexed 0 l
  | VStr s => indexed 0 (map (fun c => VStr (str [c])) (chars s))
  | _ => []
  end.

(** [{...v}] *)
Definition spread (v : value) : list (string * value) :=
  fold_left (fun o kv => obj_set (fst kv) (snd kv) o) (own_props v) [].

(** *** ToString, as a template literal applies it *)

Fixpoint to_string (v : value) : string :=
  match v with
  | VUndefined => "undefined"
  | VNull => "null"
  | VBool true => "true"
  | VBool false => "false"
  | VNum m e => number_to_string m e
  | VStr s => s
  | VArr l =>
      join "," (map (fun x => match x with
                              | VUndefined | VNull => ""
                              | _ => to_string x
                              end) l)
  | VObj _ => "[object Object]"
  end.

(** ToString throws on an object that has no way to a primitive.
    Among the values [JSON.parse] builds, that is the object with an
    own property [toString]: the property hides
    [Object.prototype.toString], is no function, and [valueOf] gives
    the object back.  An array prints its elements, [null] and
    [undefined] as nothing. *)
Fixpoint printable (v : value) : bool :=
  match v with
  | VObj o => match assoc "toString" o with Some _ => false | None => true end
  | VArr l => forallb (fun x => match x with
                                | VUndefined | VNull => true
                                | _ => printable x
                                end) l
  | _ => true
  end.

(** [`${v}`]: the text [to_string] gives, or the [TypeError]. *)
Definition ToString (v : value) : result string :=
  if printable v then Ok (to_string v)
  else Throw (TypeError "Cannot convert object to primitive value").

(** *** [x > 0] *)

Definition is_space (c : ascii) : bool :=
  let n := nat_of_ascii c in
  ((9 <=? n)%nat && (n <=? 13)%nat) || (n =? 32)%nat.

Fixpoint span (p : ascii -> bool) (cs : list ascii) : list ascii * list ascii :=
  match cs with
  | c :: rest =>
      if p c then let '(a, b) := span p rest in (c :: a, b) else ([], cs)
  | [] => ([], [])
  end.

Fixpoint drop_while (p : ascii -> bool) (cs : list ascii) : list ascii :=
  match cs with
  | c :: rest => if p c then drop_while p rest else cs
  | [] => []
  end.

Definition trim (cs : list ascii) : list ascii :=
  rev (drop_while is_space (rev (drop_while is_space cs))).

Definition is_nil {A} (l : list A) : bool :=
  match l with [] => true | _ => false end.

Definition some_nonzero (cs : list ascii) : bool :=
  existsb (fun c => negb (Ascii.eqb c "0")) cs.

Definition is_hex_digit (c : ascii) : bool :=
  let n := nat_of_ascii c in
  is_digit c || ((65 <=? n)%nat && (n <=? 70)%nat)
             || ((97 <=? n)%nat && (n <=? 102)%nat).

Definition is_octal_digit (c : ascii) : bool :=
  let n := nat_of_ascii c in (48 <=? n)%nat && (n <=? 55)%nat.

Definition is_binary_digit (c : ascii) : bool :=
  Ascii.eqb c "0" || Ascii.eqb c "1".

(** An optional exponent part that ends the literal. *)
Definition exponent_ok (cs : list ascii) : bool :=
  match cs with
  | [] => true
  | c :: r =>
      if Ascii.eqb c "e" || Ascii.eqb c "E" then
        let r' := match r with
                  | "+"%char :: r'' | "-"%char :: r'' => r''
                  | _ => r
                  end in
        negb (is_nil r') && forallb is_digit r'
      else false
  end.

(** Is the text a StrUnsignedDecimalLiteral with a positive value? *)
Definition unsigned_decimal_positive (cs : list ascii) : bool :=
  if String.eqb (str cs) "Infinity" then true else
  let '(ip, r) := span is_digit cs in
  match r with
  | "."%char :: r1 =>
      let '(fp, r2) := span is_digit r1 in
      negb (is_nil ip && is_nil fp) && exponent_ok r2
      && (some_nonzero ip || some_nonzero fp)
  | _ => negb (is_nil ip) && exponent_ok r && some_nonzero ip
  end.

Definition radix_positive (p : ascii -> bool) (cs : list ascii) : bool :=
  negb (is_nil cs) && forallb p cs && some_nonzero cs.

(** [ToNumber(s) > 0] for a string: the text, trimmed, is a numeric
    literal of positive value.  Anything else is [NaN], zero or
    negative, and the comparison is false. *)
Definition str_gt_zero (s : string) : bool :=
  match trim (chars s) with
  | "-"%char :: _ => false
  | "+"%char :: r => unsigned_decimal_positive r
  | "0"%char :: "x"%char :: r | "0"%char :: "X"%char :: r =>
      radix_positive is_hex_digit r
  | "0"%char :: "o"%char :: r | "0"%char :: "O"%char :: r =>
      radix_positive is_octal_digit r
  | "0"%char :: "b"%char :: r | "0"%char :: "B"%char :: r =>
      radix_positive is_binary_digit r
  | cs => unsigned_decimal_positive cs
  end.

(** [v > 0].  An array compares through its [join]: with two or more
    elements the text holds a comma and is no number. *)
Fixpoint gt_zero (v : value) : bool :=
  match v with
  | VUndefined | VNull => false
  | VBool b => b
  | VNum m _ => 0 <? m
  | VStr s => str_gt_zero s
  | VArr [x] =>
      match x with
      | VBool _ | VObj _ => false
      | _ => gt_zero x
      end
  | VArr _ => false
  | VObj _ => false
  end.

(** [v > 0] as an expression: the operand is first brought to a
    primitive, which throws exactly where [ToString] does. *)
Definition greater_than_zero (v : value) : result bool :=
  if printable v then Ok (gt_zero v)
  else Throw (TypeError "Cannot convert object to primitive value").

End JS.

(* ===================================================================== *)
(** ** The platform's [JSON] object *)
(* ===================================================================== *)

Module JSON.
Import JS.

Definition is_ws (c : ascii) : bool :=
  let n := nat_of_ascii c in
  (n =? 9)%nat || (n =? 10)%nat || (n =? 13)%nat || (n =? 32)%nat.

Definition skip_ws (cs : list ascii) : list ascii := drop_while is_ws cs.

(** [take c cs]: the rest of [cs] after a leading [c]. *)
Definition take (c : ascii) (cs : list ascii) : option (list ascii) :=
  match cs with
  | x :: rest => if Ascii.eqb x c then Some rest else None
  | [] => None
  end.

(** [literal word cs]: the rest of [cs] after the characters of [word]. *)
Fixpoint literal (word cs : list ascii) : option (list ascii) :=
  match word with
  | [] => Some cs
  | c :: word' =>
      match take c cs with
      | Some rest => literal word' rest
      | None => None
      end
  end.

Definition either {A} (a b : option A) : option A :=
  match a with
  | Some x => Some x
  | None => b
  end.

(** *** Numbers: [-? int frac? exp?] *)

Definition exponent_digits (esign : Z) (cs : list ascii) : option (Z * list ascii) :=
  let '(ed, rest) := span is_digit cs in
  if is_nil ed then None else Some (esign * digits_val ed, rest).

Definition signed_exponent (cs : list ascii) : option (Z * list ascii) :=
  match take "+" cs, take "-" cs with
  | Some r, _ => exponent_digits 1 r
  | None, Some r => exponent_digits (-1) r
  | None, None => exponent_digits 1 cs
  end.

Definition parse_exponent (cs : list ascii) : option (Z * list ascii) :=
  match either (take "e" cs) (take "E" cs) with
  | None => Some (0, cs)
  | Some r => signed_exponent r
  end.

Definition parse_fraction (cs : list ascii) : option (list ascii * list ascii) :=
  match take "." cs with
  | None => Some ([], cs)
  | Some r =>
      let '(fp, r') := span is_digit r in
      if is_nil fp then None else Some (fp, r')
  end.

(** The digits after the optional minus sign: no leading zero before
    further digits. *)
Definition parse_unsigned (neg : bool) (cs : list ascii) : option (value * list ascii) :=
  let '(ip, r1) := span is_digit cs in
  match ip with
  | [] => None
  | d :: more =>
      if Ascii.eqb d "0" && negb (is_nil more) then None else
      match parse_fraction r1 with
      | None => None
      | Some (frac, r2) =>
          match parse_exponent r2 with
          | None => None
          | Some (ex, r3) =>
              let mant := digits_val (ip ++ frac) in
              Some (VNum (if neg then - mant else mant)
                         (ex - Z.of_nat (length frac)), r3)
          end
      end
  end.

Definition parse_number (cs : list ascii) : option (value * list ascii) :=
  match take "-" cs with
  | Some r => parse_unsigned true r
  | None => parse_unsigned false cs
  end.

(** *** Strings *)

Definition hex_val (c : ascii) : option Z :=
  let n := Z.of_nat (nat_of_ascii c) in
  if (48 <=? n) && (n <=? 57) then Some (n - 48)
  else if (65 <=? n) && (n <=? 70) then Some (n - 55)
  else if (97 <=? n) && (n <=? 102) then Some (n - 87)
  else None.

Definition hex4 (a b c d : ascii) : option Z :=
  match hex_val a, hex_val b, hex_val c, hex_val d with
  | Some x, Some y, Some z, Some w => Some (((x * 16 + y) * 16 + z) * 16 + w)
  | _, _, _, _ => None
  end.

Definition byte (n : Z) : ascii := ascii_of_nat (Z.to_nat n).

(** Strings are kept as UTF-8 bytes; an escaped code point is encoded. *)
Definition utf8_encode (cp : Z) : list ascii :=
  if cp <? 128 then [byte cp]
  else if cp <? 2048 then [byte (192 + cp / 64); byte (128 + cp mod 64)]
  else if cp <? 65536 then
    [byte (224 + cp / 4096); byte (128 + (cp / 64) mod 64); byte (128 + cp mod 64)]
  else
    [byte (240 + cp / 262144); byte (128 + (cp / 4096) mod 64);
     byte (128 + (cp / 64) mod 64); byte (128 + cp mod 64)].

Definition is_high_surrogate (u : Z) : bool := (55296 <=? u) && (u <=? 56319).
Definition is_low_surrogate (u : Z) : bool := (56320 <=? u) && (u <=? 57343).

Definition dquote : ascii := "034"%char.
Definition backslash : ascii := "\"%char.

(** The character a two-character escape stands for. *)
Definition simple_escape (e : ascii) : option ascii :=
  if Ascii.eqb e dquote then Some dquote
  else if Ascii.eqb e backslash then Some backslash
  else if Ascii.eqb e "/" then Some "/"%char
  else if Ascii.eqb e "b" then Some "008"%char
  else if Ascii.eqb e "f" then Some "012"%char
  else if Ascii.eqb e "n" then Some "010"%char
  else if Ascii.eqb e "r" then Some "013"%char
  else if Ascii.eqb e "t" then Some "009"%char
  else None.

(** The low surrogate that the escape [\uXXXX] at the head of the six
    characters spells, if it spells one. *)
Definition low_surrogate_escape (b u a' b' c' d' : ascii) : option Z :=
  if Ascii.eqb b backslash && Ascii.eqb u "u" then
    match hex4 a' b' c' d' with
    | Some lo => if is_low_surrogate lo then Some lo else None
    | None => None
    end
  else None.

(** The characters after an opening quote, up to the closing one. *)
Fixpoint parse_string_body (cs : list ascii) (acc : list ascii)
  : option (string * list ascii) :=
  match cs with
  | [] => None
  | c :: rest =>
      if Ascii.eqb c dquote then Some (str (rev acc), rest)
      else if Ascii.eqb c backslash then
        match rest with
        | [] => None
        | e :: rest0 =>
            match simple_escape e with
            | Some x => parse_string_body rest0 (x :: acc)
            | None =>
                if Ascii.eqb e "u" then
                  match rest0 with
                  | a :: b :: c' :: d :: rest1 =>
                      match hex4 a b c' d with
                      | None => None
                      | Some hi =>
                          match rest1 with
                          | b1 :: u1 :: a1 :: b2 :: c1 :: d1 :: rest2 =>
                              match low_surrogate_escape b1 u1 a1 b2 c1 d1 with
                              | Some lo =>
                                  if is_high_surrogate hi then
                                    parse_string_body rest2
                                      (rev (utf8_encode
                                              (65536 + (hi - 55296) * 1024 + (lo - 56320)))
                                       ++ acc)
                                  else parse_string_body rest1 (rev (utf8_encode hi) ++ acc)
                              | None => parse_string_body rest1 (rev (utf8_encode hi) ++ acc)
                              end
                          | _ => parse_string_body rest1 (rev (utf8_encode hi) ++ acc)
                          end
                      end
                  | _ => None
                  end
                else None
            end
        end
      else if (nat_of_ascii c <? 32)%nat then None
      else parse_string_body rest (c :: acc)
  end.

(** *** Values *)

Inductive parsed : Type :=
| Parsed (v : value) (rest : list ascii)
| Malformed
| Exhausted.

Definition of_option (o : option (value * list ascii)) : parsed :=
  match o with
  | Some (v, rest) => Parsed v rest
  | None => Malformed
  end.

Definition parse_keyword (cs : list ascii) : option (value * list ascii) :=
  match literal (chars "null") cs, literal (chars "true") cs, literal (chars "false") cs with
  | Some r, _, _ => Some (VNull, r)
  | None, Some r, _ => Some (VBool true, r)
  | None, None, Some r => Some (VBool false, r)
  | None, None, None => None
  end.

(** One value, after leading white space.  [fuel] bounds the nesting
    and the number of siblings; [parse_fuel] below is enough for any
    text ([parse_fuel_enough]). *)
Fixpoint parse_value (fuel : nat) (cs : list ascii) {struct fuel} : parsed :=
  match fuel with
  | O => Exhausted
  | S f =>
      let cs' := skip_ws cs in
      match take dquote cs', take "[" cs', take "{" cs' with
      | Some r, _, _ =>
          match parse_string_body r [] with
          | Some (s, r') => Parsed (VStr s) r'
          | None => Malformed
          end
      | None, Some r, _ =>
          match take "]" (skip_ws r) with
          | Some r' => Parsed (VArr []) r'
          | None => parse_elements f (skip_ws r) []
          end
      | None, None, Some r =>
          match take "}" (skip_ws r) with
          | Some r' => Parsed (VObj []) r'
          | None => parse_members f (skip_ws r) []
          end
      | None, None, None =>
          of_option (either (parse_keyword cs') (parse_number cs'))
      end
  end
with parse_elements (fuel : nat) (cs : list ascii) (acc : list value)
  {struct fuel} : parsed :=
  match fuel with
  | O => Exhausted
  | S f =>
      match parse_value f cs with
      | Parsed v r =>
          match take "," (skip_ws r), take "]" (skip_ws r) with
          | Some r', _ => parse_elements f r' (v :: acc)
          | None, Some r' => Parsed (VArr (rev (v :: acc))) r'
          | None, None => Malformed
          end
      | other => other
      end
  end
with parse_members (fuel : nat) (cs : list ascii) (acc : list (string * value))
  {struct fuel} : parsed :=
  match fuel with
  | O => Exhausted
  | S f =>
      match take dquote (skip_ws cs) with
      | Some r =>
          match parse_string_body r [] with
          | Some (k, r1) =>
              match take ":" (skip_ws r1) with
              | Some r2 =>
                  match parse_value f r2 with
                  | Parsed v r3 =>
                      match take "," (skip_ws r3), take "}" (skip_ws r3) with
                      | Some r4, _ => parse_members f r4 (obj_set k v acc)
                      | None, Some r4 => Parsed (VObj (obj_set k v acc)) r4
                      | None, None => Malformed
                      end
                  | other => other
                  end
              | None => Malformed
              end
          | None => Malformed
          end
      | None => Malformed
      end
  end.

(** What a parser leaves over is part of what it was given. *)
Definition leaves_no_more (run : list ascii -> parsed) : Prop :=
  forall cs v rest, run cs = Parsed v rest -> (length rest <= length cs)%nat.

Definition parse_fuel (cs : list ascii) : nat := S (2 * length cs).

(** [JSON.parse(text)]: one value, white space around it, nothing else;
    a [SyntaxError] otherwise. *)
Definition parse (text : string) : result value :=
  let cs := chars text in
  match parse_value (parse_fuel cs) cs with
  | Parsed v rest =>
      match skip_ws rest with
      | [] => Ok v
      | _ => Throw (SyntaxError "Unexpected non-whitespace character after JSON")
      end
  | Malformed | Exhausted => Throw (SyntaxError "Unexpected token in JSON")
  end.

(** *** [JSON.stringify] *)

Definition hex_digit (n : Z) : ascii :=
  nth (Z.to_nat n) (chars "0123456789abcdef") "0"%char.

Definition quote_char (c : ascii) : list ascii :=
  let n := Z.of_nat (nat_of_ascii c) in
  if n =? 8 then chars "\b"
  else if n =? 9 then chars "\t"
  else if n =? 10 then chars "\n"
  else if n =? 12 then chars "\f"
  else if n =? 13 then chars "\r"
  else if n =? 34 then [backslash; dquote]
  else if n =? 92 then chars "\\"
  else if n <? 32 then chars "\u00" ++ [hex_digit (n / 16); hex_digit (n mod 16)]
  else [c].

Definition quote (s : string) : string :=
  str (dquote :: flat_map quote_char (chars s) ++ [dquote]).

(** [JSON.stringify(v)] without indentation; [None] is the [undefined]
    it returns for [undefined].  An [undefined] property is left out,
    an [undefined] array element prints as [null]. *)
Fixpoint stringify (v : value) : option string :=
  match v with
  | VUndefined => None
  | VNull => Some "null"
  | VBool true => Some "true"
  | VBool false => Some "false"
  | VNum m e => Some (number_to_string m e)
  | VStr s => Some (quote s)
  | VArr l =>
      Some ("[" ++ join "," (map (fun x => default "null" (stringify x)) l) ++ "]")
  | VObj o =>
      Some ("{" ++ join ","
                   (flat_map (fun kv => match stringify (snd kv) with
                                        | Some t => [quote (fst kv) ++ ":" ++ t]
                                        | None => []
                                        end) o)
                ++ "}")
  end.

End JSON.

(* ===================================================================== *)
(** ** The browser around the code *)
(* ===================================================================== *)

Module Platform.
Import JS.

(** What [fetch] is called with. *)
Record request : Type := mkRequest {
  req_method : string;
  req_url : string;
  req_headers : list (string * string);
  req_body : option string
}.

(** What [fetch] resolves to. *)
Record response : Type := mkResponse {
  status : Z;
  statusText : string;
  body : string
}.

(** [response.ok]: a status from 200 to 299. *)
Definition ok (r : response) : bool := (200 <=? status r) && (status r <=? 299).

(** A [fetch] either resolves to a response, whatever its status, or
    rejects (server unreachable, connection lost). *)
Inductive fetch_outcome : Type :=
| Responds (r : response)
| Rejects (e : error).

(** The other end of the wire: any state type with a request handler. *)
Class Backend (B : Type) : Type :=
  handle : request -> B -> fetch_outcome * B.

(** The view functions the router imports. *)
Inductive view : Type :=
| LoginView
| RegisterView
| DashboardView
| StudentsListView
| PaymentsView
| CreateStudentView
| EditStudentView
| NotFoundView.

(** What [#app] shows: the markup a view returned, or a text that no
    view wrote. *)
Inductive shown : Type :=
| Markup (v : view)
| Text (s : string).
Coercion Markup : view >-> shown.

(** Everything the modelled code reads or writes. *)
Record world (B : Type) : Type := mkWorld {
  state_user : value;                (* Store.state.user *)
  localStorage : gmap string string; (* window.localStorage *)
  location_hash : string;            (* window.location.hash *)
  app : option shown;                (* what #app shows *)
  backend : B;                       (* the server behind API_URL *)
  sent : list request                (* every fetch issued, oldest first *)
}.
Arguments mkWorld {B}.
Arguments state_user {B}.
Arguments localStorage {B}.
Arguments location_hash {B}.
Arguments app {B}.
Arguments backend {B}.
Arguments sent {B}.

(** *** The fragment of the address *)

Definition is_tab_or_newline (c : ascii) : bool :=
  let n := nat_of_ascii c in (n =? 9)%nat || (n =? 10)%nat || (n =? 13)%nat.

(** The fragment percent-encode set: the controls, the bytes above
    [~], the space, the double quote, [<], [>] and the backtick. *)
Definition fragment_escaped (c : ascii) : bool :=
  let n := nat_of_ascii c in
  (n <=? 31)%nat || (127 <=? n)%nat
  || (n =? 32)%nat || (n =? 34)%nat || (n =? 60)%nat || (n =? 62)%nat || (n =? 96)%nat.

Definition upper_hex_digit (n : nat) : ascii :=
  nth n (chars "0123456789ABCDEF") "0"%char.

Definition percent_encode (c : ascii) : list ascii :=
  if fragment_escaped c
  then ["%"%char; upper_hex_digit (nat_of_ascii c / 16);
        upper_hex_digit (nat_of_ascii c mod 16)]
  else [c].

Definition drop_number_sign (cs : list ascii) : list ascii :=
  match cs with
  | "#"%char :: rest => rest
  | _ => cs
  end.

(** The URL parser in its fragment state: tabs and newlines are
    removed from the input, the rest is percent-encoded. *)
Definition fragment_of (given : string) : string :=
  str (flat_map percent_encode
         (List.filter (fun c => negb (is_tab_or_newline c))
                      (drop_number_sign (chars given)))).

Definition hash_of_fragment (fragment : string) : string :=
  if String.eqb fragment "" then "" else "#" ++ fragment.

Section Monad.
Context {B : Type}.

(** A computation runs in a world and returns or throws; what it
    wrote before a throw stays written. *)
Definition M (A : Type) : Type := world B -> result A * world B.

Definition ret {A} (a : A) : M A := fun w => (Ok a, w).

Definition throw {A} (e : error) : M A := fun w => (Throw e, w).

Definition bind {A C} (m : M A) (k : A -> M C) : M C :=
  fun w => match m w with
           | (Ok a, w') => k a w'
           | (Throw e, w') => (Throw e, w')
           end.

(** [try { m } catch (error) { h error }] *)
Definition try_catch {A} (m : M A) (h : error -> M A) : M A :=
  fun w => match m w with
           | (Ok a, w') => (Ok a, w')
           | (Throw e, w') => h e w'
           end.

Definition lift {A} (r : result A) : M A := fun w => (r, w).

Definition with_user (u : value) (w : world B) : world B :=
  mkWorld u (localStorage w) (location_hash w) (app w) (backend w) (sent w).

Definition with_storage (s : gmap string string) (w : world B) : world B :=
  mkWorld (state_user w) s (location_hash w) (app w) (backend w) (sent w).

Definition with_hash (h : string) (w : world B) : world B :=
  mkWorld (state_user w) (localStorage w) h (app w) (backend w) (sent w).

Definition with_app (v : shown) (w : world B) : world B :=
  mkWorld (state_user w) (localStorage w) (location_hash w) (Some v)
          (backend w) (sent w).

Definition with_exchange (r : request) (b : B) (w : world B) : world B :=
  mkWorld (state_user w) (localStorage w) (location_hash w) (app w)
          b (sent w ++ [r]).

(** The page loaded anew: memory starts over, [localStorage], the
    address and the server stay. *)
Definition reload (w : world B) : world B :=
  mkWorld VNull (localStorage w) (location_hash w) None (backend w) (sent w).

(** [localStorage.getItem(key)]: the stored string, or [null]. *)
Definition getItem (key : string) : M value :=
  fun w => (Ok match localStorage w !! key with
               | Some s => VStr s
               | None => VNull
               end, w).

(** [localStorage.setItem(key, v)] stores [String(v)]. *)
Definition setItem (key : string) (v : string) : M unit :=
  fun w => (Ok tt, with_storage (<[key := v]> (localStorage w)) w).

(** [localStorage.removeItem(key)] *)
Definition removeItem (key : string) : M unit :=
  fun w => (Ok tt, with_storage (delete key (localStorage w)) w).

(** Reading [window.location.hash]. *)
Definition get_hash : M string := fun w => (Ok (location_hash w), w).

(** Assigning [window.location.hash]: the text given, less one leading
    [#], goes through the URL parser and becomes the fragment of the
    address; the hash then reads as [#] and the fragment, or as the
    empty string when the fragment is empty. *)
Definition set_hash (h : string) : M unit :=
  fun w => (Ok tt, with_hash (hash_of_fragment (fragment_of h)) w).

(** [await fetch(url, options)]: one exchange with the backend. *)
Definition fetch `{Backend B} (r : request) : M response :=
  fun w => let '(out, b') := handle r (backend w) in
           match out with
           | Responds resp => (Ok resp, with_exchange r b' w)
           | Rejects e => (Throw e, with_exchange r b' w)
           end.

(** [await response.json()] *)
Definition json (r : response) : M value := lift (JSON.parse (body r)).

End Monad.

Arguments M B A : clear implicits.

Declare Scope js_scope.
Delimit Scope js_scope with js.
Notation "x <- m ;; k" := (bind m (fun x => k))
  (at level 20, m at level 99, k at level 200, only parsing) : js_scope.
Notation "m ;; k" := (bind m (fun _ => k))
  (at level 100, k at level 200, only parsing, right associativity) : js_scope.

End Platform.

(* ===================================================================== *)
(** ** store.js *)
(* ===================================================================== *)

Module Store.
Import JS Platform.
Local Open Scope js_scope.

Section Store.
Context {B : Type}.

(** The [students] and [payments] lists of [Store.state] play no part
    in sessions and are left out.  Arguments of [console.log] are
    evaluated (reading a property may throw), the output is not kept. *)

(** [getUser() { return this.state.user; }] *)
Definition getUser : M B value := fun w => (Ok (state_user w), w).

Definition assign_user (u : value) : M B unit := fun w => (Ok tt, with_user u w).

(** [init()] *)
Definition init : M B unit :=
  savedUser <- getItem "currentUser" ;;
  if truthy savedUser then
    parsed <- lift (JSON.parse (to_string savedUser)) ;;
    assign_user parsed ;;
    user <- getUser ;;
    _ <- lift (get_prop user "name") ;;
    ret tt
  else
    ret tt.

(** [setUser(user)]; [setItem] stores the text ["undefined"] when
    [JSON.stringify] returns [undefined]. *)
Definition setUser (user : value) : M B unit :=
  assign_user user ;;
  setItem "currentUser" (default "undefined" (JSON.stringify user)) ;;
  _ <- lift (get_prop user "name") ;;
  ret tt.

(** [clearUser()] *)
Definition clearUser : M B unit :=
  assign_user VNull ;;
  removeItem "currentUser" ;;
  ret tt.

End Store.
End Store.

(* ===================================================================== *)
(** ** apiService.js *)
(* ===================================================================== *)

Module apiService.
Import JS Platform.
Local Open Scope js_scope.

Definition API_URL : string := "http://localhost:3000".

Section Api.
Context {B : Type} `{Backend B}.

(** The message [`${verb}: ${response.status} ${response.statusText}`]. *)
Definition status_message (verb : string) (r : response) : string :=
  verb ++ ": " ++ to_string (VInt (status r)) ++ " " ++ statusText r.

Definition json_headers : list (string * string) :=
  [("Content-Type", "application/json")].

(** [async get(endpoint)] *)
Definition get (endpoint : string) : M B value :=
  try_catch
    (response <- fetch (mkRequest "GET" (API_URL ++ endpoint) [] None) ;;
     if negb (ok response) then
       throw (Error (status_message "Error fetching data" response))
     else
       json response)
    (fun error => throw error).

(** [async post(endpoint, data)]; a [body] of [undefined], which is
    what [JSON.stringify(undefined)] returns, sends no body. *)
Definition post (endpoint : string) (data : value) : M B value :=
  try_catch
    (response <- fetch (mkRequest "POST" (API_URL ++ endpoint) json_headers
                                  (JSON.stringify data)) ;;
     if negb (ok response) then
       throw (Error (status_message "Error posting data" response))
     else
       json response)
    (fun error => throw error).

(** [async put(endpoint, data)] *)
Definition put (endpoint : string) (data : value) : M B value :=
  try_catch
    (response <- fetch (mkRequest "PUT" (API_URL ++ endpoint) json_headers
                                  (JSON.stringify data)) ;;
     if negb (ok response) then
       throw (Error (status_message "Error updating data" response))
     else
       json response)
    (fun error => throw error).

(** [async delete(endpoint)] *)
Definition delete (endpoint : string) : M B value :=
  try_catch
    (response <- fetch (mkRequest "DELETE" (API_URL ++ endpoint) [] None) ;;
     if negb (ok response) then
       throw (Error (status_message "Error deleting data" response))
     else
       ret (VBool true))
    (fun error => throw error).

(** The resource helpers the views call. *)

(** [getStudents() { return this.get('/students'); }] *)
Definition getStudents : M B value := get "/students".

(** [createStudent(student) { return this.post('/students', student); }] *)
Definition createStudent (student : value) : M B value := post "/students" student.

End Api.
End apiService.

(* ===================================================================== *)
(** ** authService.js *)
(* ===================================================================== *)

Module authService.
Import JS Platform.
Local Open Scope js_scope.

(** The object both [login] and [register] resolve to:
    [{ success: true, user }] or [{ success: false, message }]. *)
Inductive auth_result : Type :=
| Success (user : value)
| Failure (message : string).

Section Auth.
Context {B : Type} `{Backend B}.

(** [async login(email, password)] *)
Definition login (email password : string) : M B auth_result :=
  try_catch
    (users <- apiService.get ("/users?email=" ++ email ++ "&password=" ++ password) ;;
     len <- lift (get_prop users "length") ;;
     found <- lift (greater_than_zero len) ;;
     if found then
       user <- lift (get_prop users "0") ;;
       Store.setUser user ;;
       _ <- lift (get_prop user "name") ;;
       role <- lift (get_prop user "role") ;;
       _ <- lift (ToString role) ;;
       ret (Success user)
     else
       ret (Failure "Credenciales inválidas"))
    (fun error =>
       ret (Failure "Error al iniciar sesión. Por favor intenta de nuevo.")).

(** [{ ...userData, role: userData.role || 'user' }] *)
Definition new_user_data (userData role : value) : value :=
  VObj (obj_set "role" (or_else role (VStr "user")) (spread userData)).

(** [async register(userData)] *)
Definition register (userData : value) : M B auth_result :=
  try_catch
    (email <- lift (get_prop userData "email") ;;
     address <- lift (ToString email) ;;
     existingUsers <- apiService.get ("/users?email=" ++ address) ;;
     len <- lift (get_prop existingUsers "length") ;;
     found <- lift (greater_than_zero len) ;;
     if found then
       ret (Failure "El email ya está registrado")
     else
       role <- lift (get_prop userData "role") ;;
       newUser <- apiService.post "/users" (new_user_data userData role) ;;
       Store.setUser newUser ;;
       _ <- lift (get_prop newUser "name") ;;
       ret (Success newUser))
    (fun error =>
       ret (Failure "Error al registrar usuario. Por favor intenta de nuevo.")).

(** [logout()] *)
Definition logout : M B unit :=
  Store.clearUser ;;
  set_hash "#/login".

(** [isAuthenticated() { return Store.getUser() !== null; }] *)
Definition isAuthenticated : M B bool :=
  user <- Store.getUser ;;
  ret (not_null user).

(** [isAdmin() { return user && user.role === 'admin'; }]: the value
    of the [&&], which is [user] itself when [user] is falsy. *)
Definition isAdmin : M B value :=
  user <- Store.getUser ;;
  if truthy user then
    role <- lift (get_prop user "role") ;;
    ret (VBool (strict_eq_str role "admin"))
  else
    ret user.

End Auth.
End authService.

(* ===================================================================== *)
(** ** Sidebar.js *)
(* ===================================================================== *)

Module Sidebar.
Import JS Platform.
Local Open Scope js_scope.

(** What the template of the sidebar is filled with: the address in
    the avatar's URL, the name, the role label, and the links of the
    menu in their order, each with its target and whether it carries
    the class [active]. *)
Record markup : Type := mkMarkup {
  avatar_of : string;
  shown_name : string;
  role_label : string;
  links : list (string * bool)
}.

(** [window.location.hash.slice(1) || '/dashboard'] *)
Definition currentPath_of (location_hash : string) : string :=
  match location_hash with
  | String _ (String c rest) => String c rest
  | _ => "/dashboard"
  end.

Section Sidebar.
Context {B : Type}.

(** [const isActive = (path) => currentPath === path ? 'active' : ''] *)
Definition isActive (currentPath path : string) : bool := String.eqb currentPath path.

(** [Sidebar()].  The template prints [user.email] and [user.name],
    which throws on a value that has no text, and compares
    [user.role]. *)
Definition Sidebar : M B markup :=
  user <- Store.getUser ;;
  location_hash <- get_hash ;;
  let currentPath := currentPath_of location_hash in
  email <- lift (get_prop user "email") ;;
  avatar <- lift (ToString email) ;;
  name <- lift (get_prop user "name") ;;
  shown <- lift (ToString name) ;;
  role <- lift (get_prop user "role") ;;
  let label := if strict_eq_str role "admin" then "Administrador" else "Usuario" in
  let create := if strict_eq_str role "admin"
                then [("#/students/create", isActive currentPath "/students/create")]
                else [] in
  ret (mkMarkup avatar shown label
         ([("#/dashboard", isActive currentPath "/dashboard");
           ("#/students", isActive currentPath "/students");
           ("#/payments", isActive currentPath "/payments")]
          ++ create
          ++ [("#/settings", isActive currentPath "/settings")])%list).

End Sidebar.
End Sidebar.

(* ===================================================================== *)
(** ** router.js *)
(* ===================================================================== *)

Module Router.
Import JS Platform.
Local Open Scope js_scope.

(** The [routes] table: the nine entries of the object literal. *)
Definition routes : gmap string view :=
  list_to_map
    [ ("/", LoginView);
      ("/login", LoginView);
      ("/register", RegisterView);
      ("/dashboard", DashboardView);
      ("/students", StudentsListView);
      ("/payments", PaymentsView);
      ("/students/create", CreateStudentView);
      ("/students/edit", EditStudentView);
      ("/not-found", NotFoundView) ].

(** [routes] is an ordinary object: [this.routes[path]] also finds
    what it inherits from [Object.prototype]. *)
Definition inherited : list string :=
  [ "constructor"; "hasOwnProperty"; "isPrototypeOf"; "propertyIsEnumerable";
    "toLocaleString"; "toString"; "valueOf"; "__proto__";
    "__defineGetter__"; "__defineSetter__"; "__lookupGetter__"; "__lookupSetter__" ].

Definition protectedRoutes : list string :=
  [ "/dashboard"; "/students"; "/payments"; "/students/create"; "/students/edit" ].

Definition adminRoutes : list string :=
  [ "/students/create"; "/students/edit" ].

(** [list.includes(path)] *)
Definition includes (l : list string) (path : string) : bool :=
  existsb (String.eqb path) l.

(** [s.slice(1)] *)
Definition slice1 (s : string) : string :=
  match s with
  | EmptyString => EmptyString
  | String _ rest => rest
  end.

(** [s.split('?')[0]]: the text before the first question mark. *)
Fixpoint before_query (s : string) : string :=
  match s with
  | EmptyString => EmptyString
  | String c rest => if Ascii.eqb c "?" then EmptyString else String c (before_query rest)
  end.

(** The [path] that [handleRoute] computes from [window.location.hash]. *)
Definition path_of_hash (location_hash : string) : string :=
  let hash := let h := slice1 location_hash in
              if negb (String.eqb h "") then h else "/" in
  before_query hash.

(** What [this.routes[path] || NotFoundView] is: a view, or an
    inherited member, each of which is truthy. *)
Inductive found : Type :=
| View (v : view)
| Member (name : string).

Definition view_for (path : string) : found :=
  match routes !! path with
  | Some v => View v
  | None => if includes inherited path then Member path else View NotFoundView
  end.

(** An inherited member called the way [render] calls a view, with no
    receiver and no argument: the text [innerHTML] gets from what it
    returns, or the [TypeError] of the call.  [Object()] returns an
    empty object, [toString] names the missing receiver,
    [isPrototypeOf] answers [false] to a missing argument, [__proto__]
    is an object and no function, and the other members need a
    receiver. *)
Definition call_member (name : string) : result string :=
  if String.eqb name "constructor" then Ok "[object Object]"
  else if String.eqb name "toString" then Ok "[object Undefined]"
  else if String.eqb name "isPrototypeOf" then Ok "false"
  else if String.eqb name "__proto__" then Throw (TypeError "view is not a function")
  else Throw (TypeError "Cannot convert undefined or null to object").

(** [views/editStudent.js] is not among the sources: what its view
    function does when it is called, before it returns its markup, is
    a parameter. *)
Class EditView (B : Type) : Type :=
  call_EditStudentView : M B unit.

Section Router.
Context {B : Type} `{Backend B} `{EditView B}.

(** [view()]: what calling a view function does before it returns its
    markup.  The four views with a menu draw the sidebar inside their
    template, the list of students after asking [isAdmin()]; the
    callbacks the views hand to [setTimeout] run after the call and
    are not part of it. *)
Definition call_view (v : view) : M B unit :=
  match v with
  | LoginView | RegisterView | NotFoundView => ret tt
  | DashboardView | PaymentsView | CreateStudentView =>
      _ <- Sidebar.Sidebar ;; ret tt
  | StudentsListView =>
      _ <- authService.isAdmin ;;
      _ <- Sidebar.Sidebar ;;
      ret tt
  | EditStudentView => call_EditStudentView
  end.

Definition show (s : shown) : M B unit := fun w => (Ok tt, with_app s w).

(** [render(view)]: [app.innerHTML = view()]. *)
Definition render (view : found) : M B unit :=
  match view with
  | View v => call_view v ;; show v
  | Member name => text <- lift (call_member name) ;; show (Text text)
  end.

(** [a && b()], evaluating [b()] only when [a] holds. *)
Definition and_also (a : bool) (b : M B bool) : M B bool :=
  if a then b else ret false.

Definition not_authenticated : M B bool :=
  a <- authService.isAuthenticated ;; ret (negb a).

Definition not_admin : M B bool :=
  a <- authService.isAdmin ;; ret (negb (truthy a)).

(** [handleRoute()] *)
Definition handleRoute : M B unit :=
  location_hash <- get_hash ;;
  let path := path_of_hash location_hash in
  unauthenticated <- and_also (includes protectedRoutes path) not_authenticated ;;
  if unauthenticated then
    set_hash "#/login"
  else
    forbidden <- and_also (includes adminRoutes path) not_admin ;;
    if forbidden then
      set_hash "#/not-found"
    else
      logged_in <- and_also (String.eqb path "/" || String.eqb path "/login")
                            authService.isAuthenticated ;;
      if logged_in then
        set_hash "#/dashboard"
      else
        let view := view_for path in
        render view.

(** [navigate(path)] *)
Definition navigate (path : string) : M B unit := set_hash ("#" ++ path).

End Router.
End Router.

(* ===================================================================== *)
(** ** The mock backend *)
(* ===================================================================== *)

(** The server is not part of the repository: the README runs
    [json-server --watch db.json --port 3000].  The model covers the two
    collection routes the auth service calls, [GET /<name>?<filters>]
    and [POST /<name>], as json-server answers them: a filter [k=v]
    keeps the records whose field [k], printed, is exactly [v]; a key
    given more than once keeps the records that have one of its
    values; a key that no record has as a field filters nothing.  The
    operators json-server reads out of a key ([_ne], [_like], [_gte],
    [_lte], a dotted path) and its own parameters ([q], [_sort],
    [_page] and the like) are not covered: the worlds below use keys
    that are plain field names. *)
Module JsonServer.
Import JS Platform.

Record db : Type := mkDb {
  collections : gmap string (list value);  (* db.json *)
  nanoids : list string                    (* ids the generator yields next *)
}.

(** *** Reading the URL *)

Fixpoint strip_prefix (p s : string) : option string :=
  match p, s with
  | EmptyString, _ => Some s
  | String a p', String b s' => if Ascii.eqb a b then strip_prefix p' s' else None
  | String _ _, EmptyString => None
  end.

(** Split at the first [sep]: the text before it and, if [sep] occurs,
    the text after it. *)
Fixpoint cut (sep : ascii) (cs : list ascii) : list ascii * option (list ascii) :=
  match cs with
  | [] => ([], None)
  | c :: rest =>
      if Ascii.eqb c sep then ([], Some rest)
      else let '(a, b) := cut sep rest in (c :: a, b)
  end.

Fixpoint split_on (fuel : nat) (sep : ascii) (cs : list ascii) : list (list ascii) :=
  match fuel with
  | O => [cs]
  | S f =>
      match cut sep cs with
      | (a, Some rest) => a :: split_on f sep rest
      | (a, None) => [a]
      end
  end.

(** Query-string decoding: [+] is a space, [%XX] a byte; a component
    with a malformed escape is taken as it stands. *)
Fixpoint percent_decode (cs : list ascii) : option (list ascii) :=
  match cs with
  | [] => Some []
  | "%"%char :: rest =>
      match rest with
      | a :: b :: rest' =>
          match JSON.hex_val a, JSON.hex_val b with
          | Some x, Some y =>
              option_map (cons (JSON.byte (x * 16 + y))) (percent_decode rest')
          | _, _ => None
          end
      | _ => None
      end
  | c :: rest => option_map (cons c) (percent_decode rest)
  end.

Definition decode (cs : list ascii) : list ascii :=
  let spaced := map (fun c => if Ascii.eqb c "+" then " "%char else c) cs in
  default spaced (percent_decode spaced).

Definition parse_pair (cs : list ascii) : string * string :=
  match cut "="%char cs with
  | (k, Some v) => (str (decode k), str (decode v))
  | (k, None) => (str (decode k), "")
  end.

Definition parse_query (cs : list ascii) : list (string * string) :=
  map parse_pair
      (List.filter (fun p => negb (is_nil p)) (split_on (length cs) "&"%char cs)).

(** *** Filtering a collection *)

Definition has_field (k : string) (record : value) : bool :=
  match record with
  | VObj o => match assoc k o with Some _ => true | None => false end
  | _ => false
  end.

(** [value === elementValue.toString()], false on a missing field. *)
Definition field_is (k v : string) (record : value) : bool :=
  match get_prop record k with
  | Ok VUndefined | Ok VNull | Throw _ => false
  | Ok x => String.eqb v (to_string x)
  end.

(** The keys of a query in the order of their first occurrence, and
    the values a key has in it. *)
Fixpoint query_keys (query : list (string * string)) : list string :=
  match query with
  | [] => []
  | (k, _) :: rest =>
      k :: List.filter (fun k' => negb (String.eqb k' k)) (query_keys rest)
  end.

Definition query_values (k : string) (query : list (string * string)) : list string :=
  map snd (List.filter (fun kv => String.eqb (fst kv) k) query).

(** [elementValue.toString()] can be called: the field is missing, or
    it has a text. *)
Definition field_has_text (k : string) (record : value) : bool :=
  match get_prop record k with
  | Ok x => printable x
  | Throw _ => true
  end.

(** A key filters once, with all its values: a record stays when one
    of them is its field.  A filter on a field that no record has is
    dropped.  A record whose field has no text makes the filter throw:
    there is no list then. *)
Definition apply_filter (coll : list value) (k : string) (values : list string)
    (chain : list value) : option (list value) :=
  if existsb (has_field k) coll
  then if forallb (field_has_text k) chain
       then Some (List.filter (fun record => existsb (fun v => field_is k v record) values)
                              chain)
       else None
  else Some chain.

Definition list_records (coll : list value) (query : list (string * string))
  : option (list value) :=
  fold_left (fun chain k =>
               match chain with
               | Some records => apply_filter coll k (query_values k query) records
               | None => None
               end)
            (query_keys query) (Some coll).

(** *** Creating a record *)

Definition integer_id (record : value) : option Z :=
  match get_prop record "id" with
  | Ok (VNum m 0) => Some m
  | _ => None
  end.

Fixpoint max_integer_id (coll : list value) : option Z :=
  match coll with
  | [] => Some 0
  | r :: rest =>
      match integer_id r, max_integer_id rest with
      | Some a, Some b => Some (Z.max a b)
      | _, _ => None
      end
  end.

(** The id of a new record: 1 in an empty collection, one more than
    the largest id while ids are integers, a generated text otherwise. *)
Definition createId (coll : list value) (ids : list string) : value * list string :=
  match coll, max_integer_id coll with
  | [], _ => (VInt 1, ids)
  | _, Some m => (VInt (m + 1), ids)
  | _, None => (VStr (hd "" ids), tl ids)
  end.

Definition same_id (a b : value) : bool := String.eqb (to_string a) (to_string b).

Definition not_found : response := mkResponse 404 "Not Found" "{}".

Definition server_error : response := mkResponse 500 "Internal Server Error" "{}".

Definition respond_json (code : Z) (text : string) (v : value) : response :=
  mkResponse code text (default "" (JSON.stringify v)).

Definition create (name : string) (coll : list value) (r : request) (d : db)
  : response * db :=
  match JSON.parse (default "" (req_body r)) with
  | Ok (VObj o) =>
      match assoc "id" o with
      | Some given =>
          if existsb (fun x => match get_prop x "id" with
                               | Ok i => same_id i given
                               | Throw _ => false
                               end) coll
          then (server_error, d)
          else (respond_json 201 "Created" (VObj o),
                mkDb (<[name := (coll ++ [VObj o])%list]> (collections d)) (nanoids d))
      | None =>
          let '(id, ids) := createId coll (nanoids d) in
          let record := VObj (obj_set "id" id o) in
          (respond_json 201 "Created" record,
           mkDb (<[name := (coll ++ [record])%list]> (collections d)) ids)
      end
  | _ => (mkResponse 400 "Bad Request" "{}", d)
  end.

(** *** The request handler *)

Definition serve (r : request) (d : db) : response * db :=
  match strip_prefix apiService.API_URL (req_url r) with
  | None => (not_found, d)
  | Some target =>
      let '(no_fragment, _) := cut "#"%char (chars target) in
      let '(route, query) := cut "?"%char no_fragment in
      match route with
      | "/"%char :: name =>
          match collections d !! str name with
          | Some coll =>
              if String.eqb (req_method r) "GET" then
                match list_records coll (parse_query (default [] query)) with
                | Some records => (respond_json 200 "OK" (VArr records), d)
                | None => (server_error, d)
                end
              else if String.eqb (req_method r) "POST" then
                create (str name) coll r d
              else (not_found, d)
          | None => (not_found, d)
          end
      | _ => (not_found, d)
      end
  end.

(** The server process: running on a database, or stopped, in which
    case every [fetch] rejects. *)
Inductive server : Type :=
| Running (d : db)
| Stopped.

#[export] Instance json_server : Backend server :=
  fun r s =>
    match s with
    | Running d => let '(resp, d') := serve r d in (Responds resp, Running d')
    | Stopped => (Rejects (TypeError "Failed to fetch"), Stopped)
    end.

(** A browser tab that has just loaded the page at [hash]. *)
Definition page (hash : string) (storage : gmap string string) (s : server)
  : world server :=
  mkWorld VNull storage hash None s [].

End JsonServer.

(* ===================================================================== *)
(** ** Vocabulary of the specification and test worlds *)
(* ===================================================================== *)

Module Scenario.
Import JS Platform JsonServer.

(** The two test users the project documentation lists. *)
Definition admin : value :=
  VObj [("id", VStr "1"); ("name", VStr "Admin");
        ("email", VStr "admin@crudops.com"); ("password", VStr "admin123");
        ("role", VStr "admin")].

Definition user : value :=
  VObj [("id", VStr "2"); ("name", VStr "User");
        ("email", VStr "user@crudops.com"); ("password", VStr "user123");
        ("role", VStr "user")].

Definition seeded : db := mkDb {[ "users" := [admin; user] ]} ["k3v9xq2"; "p7m1zt5"].

(** A database with an empty [users] collection and integer ids. *)
Definition empty_users : db := mkDb {[ "users" := [] ]} [].

(** In the test worlds the edit view is taken to do what its sibling,
    the view that creates students, does: it draws the sidebar. *)
#[export] Instance edit_view : Router.EditView server :=
  bind Sidebar.Sidebar (fun _ => ret tt).

(** A freshly loaded tab showing [hash], nobody signed in. *)
Definition tab (hash : string) (s : server) : world server := page hash ∅ s.

(** The same tab with [text] in the [currentUser] slot. *)
Definition tab_with_slot (text : string) : world server :=
  page "#/" {[ "currentUser" := text ]} Stopped.

(** A tab in which [principal] is signed in. *)
Definition signed_in (principal : value) (hash : string) : world server :=
  with_user principal (tab hash (Running seeded)).

(** Two sign-up forms whose addresses differ only in letter case. *)
Definition ana_form : value :=
  VObj [("name", VStr "Ana"); ("email", VStr "ana@test.com");
        ("password", VStr "secret1"); ("role", VStr "user")].

Definition ana_form_upper : value :=
  VObj [("name", VStr "Ana"); ("email", VStr "Ana@Test.com");
        ("password", VStr "secret2"); ("role", VStr "user")].

(** The records of the [users] collection of a server. *)
Definition users_of (s : server) : list value :=
  match s with
  | Running d => default [] (collections d !! "users")
  | Stopped => []
  end.

(** The records the backend creates from the two forms, in that order,
    in a collection that was empty. *)
Definition ana_record : value :=
  VObj [("name", VStr "Ana"); ("email", VStr "ana@test.com");
        ("password", VStr "secret1"); ("role", VStr "user"); ("id", VInt 1)].

Definition ana_record_upper : value :=
  VObj [("name", VStr "Ana"); ("email", VStr "Ana@Test.com");
        ("password", VStr "secret2"); ("role", VStr "user"); ("id", VInt 2)].

(** A server whose one user has a role that is no text: an object
    with a [toString] that is no function, as JSON can spell it. *)
Definition odd : value :=
  VObj [("id", VStr "3"); ("name", VStr "Odd"); ("email", VStr "odd@crudops.com");
        ("password", VStr "odd123"); ("role", VObj [("toString", VInt 1)])].

Definition odd_users : db := mkDb {[ "users" := [odd] ]} [].

(** A sign-up form without a [role] field. *)
Definition form_without_role : value :=
  VObj [("name", VStr "Juan"); ("email", VStr "juan@test.com");
        ("password", VStr "secure123")].

End Scenario.

Module Spec.
Import JS Platform.

(** ASCII lower case, for "differ only in letter case". *)
Definition lower_char (c : ascii) : ascii :=
  let n := nat_of_ascii c in
  if (65 <=? n)%nat && (n <=? 90)%nat then ascii_of_nat (n + 32) else c.

Definition lower (s : string) : string := str (map lower_char (chars s)).

Fixpoint is_prefix (p s : string) : bool :=
  match p, s with
  | EmptyString, _ => true
  | String a p', String b s' => Ascii.eqb a b && is_prefix p' s'
  | String _ _, EmptyString => false
  end.

(** [needle] occurs somewhere in [hay]: an error "carries" a path when
    its message contains it. *)
Fixpoint contains (needle hay : string) : bool :=
  is_prefix needle hay
  || match hay with
     | EmptyString => false
     | String _ rest => contains needle rest
     end.

(** The four operations of the API client. *)
Inductive operation : Type := Read | Create | Replace | Remove.

(** The requests a computation added to the log. *)
Definition issued {B} (before after : world B) : list request :=
  skipn (length (sent before)) (sent after).

Section Calls.
Context {B : Type} `{Backend B}.

Definition call (op : operation) (path : string) (data : value) : M B value :=
  match op with
  | Read => apiService.get path
  | Create => apiService.post path data
  | Replace => apiService.put path data
  | Remove => apiService.delete path
  end.

End Calls.

(** The one request each operation makes. *)
Definition request_of (op : operation) (path : string) (data : value) : request :=
  let url := apiService.API_URL ++ path in
  match op with
  | Read => mkRequest "GET" url [] None
  | Create => mkRequest "POST" url apiService.json_headers (JSON.stringify data)
  | Replace => mkRequest "PUT" url apiService.json_headers (JSON.stringify data)
  | Remove => mkRequest "DELETE" url [] None
  end.

(** What an operation resolves to on a success status. *)
Definition resolved (op : operation) (r : response) : result value :=
  match op with
  | Remove => Ok (VBool true)
  | _ => JSON.parse (body r)
  end.

(** The words each operation puts in front of a failed status. *)
Definition failure_words (op : operation) : string :=
  match op with
  | Read => "Error fetching data"
  | Create => "Error posting data"
  | Replace => "Error updating data"
  | Remove => "Error deleting data"
  end.

(** The credential lookup [login] makes and the duplicate check
    [register] makes. *)
Definition login_request (email password : string) : request :=
  mkRequest "GET"
            (apiService.API_URL ++ "/users?email=" ++ email ++ "&password=" ++ password)
            [] None.

Definition precheck_request (email : value) : request :=
  mkRequest "GET" (apiService.API_URL ++ "/users?email=" ++ to_string email) [] None.

(** [record] is a credential record for the pair: its address and its
    password are the two texts. *)
Definition matches (email password : string) (record : value) : bool :=
  match get_prop record "email", get_prop record "password" with
  | Ok (VStr e), Ok (VStr p) => String.eqb e email && String.eqb p password
  | _, _ => false
  end.

(** [userData.role], [undefined] when it cannot be read. *)
Definition role_of (userData : value) : value :=
  match get_prop userData "role" with
  | Ok r => r
  | Throw _ => VUndefined
  end.

End Spec.

(* ===================================================================== *)
(** ** The form handlers of the views *)
(* ===================================================================== *)

Module Views.
Import JS Platform.
Local Open Scope js_scope.

(** One step after another, the first throw ending the run. *)
Definition and_then {A C} (r : result A) (k : A -> result C) : result C :=
  match r with
  | Ok a => k a
  | Throw e => Throw e
  end.

(** [list.some(callback)] on the elements of an array: the callback is
    asked element by element until it answers [true]. *)
Fixpoint some_of (callback : value -> result bool) (l : list value) : result bool :=
  match l with
  | [] => Ok false
  | x :: rest =>
      and_then (callback x) (fun found => if found then Ok true else some_of callback rest)
  end.

(** [receiver.some(callback)]; only an array has the method. *)
Definition some (receiver : value) (callback : value -> result bool) : result bool :=
  match receiver with
  | VArr l => some_of callback l
  | VUndefined => Throw (TypeError "Cannot read properties of undefined (reading 'some')")
  | VNull => Throw (TypeError "Cannot read properties of null (reading 'some')")
  | _ => Throw (TypeError "some is not a function")
  end.

Section Views.
Context {B : Type} `{Backend B}.

(** [String.prototype.toLowerCase], as the platform has it. *)
Variable toLowerCase : string -> string.

(** [window.location.reload()] *)
Definition reload_page : M B unit := fun w => (Ok tt, reload w).

(** [handleLogin(e)] of the sign-in view, given the values of the
    inputs [email] and [password].  The result is the message of the
    [alert] it raises, if it raises one. *)
Definition handleLogin (email password : string) : M B (option string) :=
  result <- authService.login email password ;;
  match result with
  | authService.Success _ =>
      set_hash "#/dashboard" ;;
      reload_page ;;
      ret None
  | authService.Failure message => ret (Some message)
  end.

(** [handleRegister(e)] of the sign-up view, given the values of the
    inputs [name], [email], [password] and [role]. *)
Definition handleRegister (name email password role : string) : M B (option string) :=
  let userData := VObj [("name", VStr name); ("email", VStr email);
                        ("password", VStr password); ("role", VStr role)] in
  result <- authService.register userData ;;
  match result with
  | authService.Success _ =>
      set_hash "#/dashboard" ;;
      reload_page ;;
      ret None
  | authService.Failure message => ret (Some message)
  end.


(** [v.toLowerCase()] *)
Definition to_lower_case (v : value) : result string :=
  match v with
  | VStr s => Ok (toLowerCase s)
  | VUndefined =>
      Throw (TypeError "Cannot read properties of undefined (reading 'toLowerCase')")
  | VNull => Throw (TypeError "Cannot read properties of null (reading 'toLowerCase')")
  | _ => Throw (TypeError "toLowerCase is not a function")
  end.

(** [record => record.email.toLowerCase() === studentData.email.toLowerCase()] *)
Definition same_email (studentData record : value) : result bool :=
  and_then (get_prop record "email") (fun theirs =>
  and_then (to_lower_case theirs) (fun theirs_lower =>
  and_then (get_prop studentData "email") (fun typed =>
  and_then (to_lower_case typed) (fun typed_lower =>
  Ok (String.eqb theirs_lower typed_lower))))).

(** The object [handleCreateStudent] builds from the form;
    [formData] is [formData.get]. *)
Definition student_data (formData : string -> value) : value :=
  VObj [("name", formData "name"); ("email", formData "email");
        ("properties", formData "properties");
        ("counterparties", formData "counterparties");
        ("date", formData "date"); ("avatar", formData "avatar")].

(** [handleCreateStudent(e)] of the view that creates students.  Every
    path through it raises one [alert]; the result is its message. *)
Definition handleCreateStudent (formData : string -> value) : M B string :=
  let studentData := student_data formData in
  try_catch
    (existingStudents <- apiService.getStudents ;;
     emailExists <- lift (some existingStudents (same_email studentData)) ;;
     if emailExists then
       ret "Error: El correo electrónico ya está registrado. Por favor, usa otro email."
     else
       existingUsers <- apiService.get "/users" ;;
       emailExistsInUsers <- lift (some existingUsers (same_email studentData)) ;;
       if emailExistsInUsers then
         ret "Error: El correo electrónico pertenece a un usuario registrado. Por favor, usa otro email."
       else
         apiService.createStudent studentData ;;
         set_hash "#/students" ;;
         ret "Student created successfully!")
    (fun error => ret "Error creating student").

End Views.
End Views.

(* ===================================================================== *)
(** ** app.js *)
(* ===================================================================== *)

Module App.
Import JS Platform.
Local Open Scope js_scope.

Section App.
Context {B : Type} `{Backend B} `{Router.EditView B}.

(** The last statement of the script: when [Store.state.user] is
    truthy the sidebar is drawn and inserted in front of what [#app]
    holds.  The field [app] of the world records what [render] last
    assigned to [#app]; the insertion leaves that in place, and the
    next [render] replaces both.  The result tells whether the sidebar
    was inserted. *)
Definition sidebar_into_app : M B bool :=
  user <- Store.getUser ;;
  if truthy user then
    _ <- Sidebar.Sidebar ;;
    ret true
  else
    ret false.

(** The script of the page.  [Router.init()], its second statement,
    makes [handleRoute] the listener of [load] and [hashchange] and
    changes nothing else. *)
Definition main : M B bool :=
  Store.init ;;
  sidebar_into_app.

(** The page is opened or loaded anew: the script runs, and then the
    [load] event reaches [handleRoute], provided the script got as far
    as [Router.init()], that is, provided [Store.init()] returned.  An
    error in the last statement is reported and stops nothing else. *)
Definition open_page : M B unit :=
  fun w => match Store.init w with
           | (Throw e, w1) => (Throw e, w1)
           | (Ok _, w1) => Router.handleRoute (snd (sidebar_into_app w1))
           end.

End App.
End App.

(* ===================================================================== *)
(** ** Vocabulary of the further properties *)
(* ===================================================================== *)

Module Terms.
Import JS Platform.

(** [user && user.role === 'admin'], as a truth value. *)
Definition admin_user (user : value) : bool :=
  truthy user
  && match get_prop user "role" with
     | Ok role => strict_eq_str role "admin"
     | Throw _ => false
     end.

(** The line [login] logs after a match can be written for [user]:
    its role can be read and printed. *)
Definition loggable (user : value) : bool :=
  match get_prop user "role" with
  | Ok role => printable role
  | Throw _ => false
  end.

(** The sidebar can be drawn for [user]: its address and its name can
    be read and printed. *)
Definition drawable (user : value) : bool :=
  match get_prop user "email", get_prop user "name" with
  | Ok email, Ok name => printable email && printable name
  | _, _ => false
  end.

(** What the URL parser makes of a text inside a fragment. *)
Definition escaped (s : string) : string :=
  str (flat_map percent_encode
         (List.filter (fun c => negb (is_tab_or_newline c)) (chars s))).

(** The three places [handleRoute] redirects to. *)
Definition redirect_targets : list string := ["#/login"; "#/not-found"; "#/dashboard"].

(** Everything outside the session is as it was: the address, the
    rendered view, the server, the request log and every storage key
    other than ['currentUser']. *)
Definition same_but_session {B} (w w' : world B) : Prop :=
  location_hash w' = location_hash w
  /\ app w' = app w
  /\ backend w' = backend w
  /\ sent w' = sent w
  /\ forall key, key <> "currentUser" -> localStorage w' !! key = localStorage w !! key.

(** No two keys alike. *)
Fixpoint distinct (keys : list string) : bool :=
  match keys with
  | [] => true
  | k :: rest => negb (existsb (String.eqb k) rest) && distinct rest
  end.

(** Keys as a record has them: no two alike, none an array index. *)
Definition record_keys (keys : list string) : bool :=
  forallb (fun k => match index_of_key k with None => true | Some _ => false end) keys
  && distinct keys.

(** Values that [JSON] writes and reads back unchanged: [null],
    booleans, integers of at most 21 digits, strings, and arrays and
    records of such values, the records with keys as above. *)
Fixpoint plain (v : value) : bool :=
  match v with
  | VUndefined => false
  | VNull | VBool _ | VStr _ => true
  | VNum m e => (e =? 0) && (Z.abs m <? 10 ^ 21)
  | VArr l => forallb plain l
  | VObj o => forallb (fun kv => plain (snd kv)) o && record_keys (map fst o)
  end.

(** The fuel [JSON.parse_value] uses on the text of a value. *)
Fixpoint weight (v : value) : nat :=
  match v with
  | VArr l => S (fold_right (fun x n => S (weight x + n)) 0%nat l)
  | VObj o => S (fold_right (fun kv n => S (weight (snd kv) + n)) 0%nat o)
  | _ => 1%nat
  end.

(** The characters [JSON.stringify] writes for a value, for the
    elements of an array and for the members of an object. *)
Definition text (v : value) : list ascii := chars (default "null" (JSON.stringify v)).

Fixpoint elements_text (l : list value) : list ascii :=
  match l with
  | [] => []
  | [x] => text x
  | x :: rest => text x ++ ","%char :: elements_text rest
  end.

Definition member_text (kv : string * value) : list ascii :=
  chars (JSON.quote (fst kv)) ++ ":"%char :: text (snd kv).

Fixpoint members_text (o : list (string * value)) : list ascii :=
  match o with
  | [] => []
  | [kv] => member_text kv
  | kv :: rest => member_text kv ++ ","%char :: members_text rest
  end.

(** One more digit at the end of a decimal number. *)
Definition shift (acc : Z) (c : ascii) : Z := acc * 10 + digit_val c.

(** What may follow a value inside a JSON text. *)
Definition ends_value (rest : list ascii) : bool :=
  match rest with
  | [] => true
  | c :: _ => Ascii.eqb c "," || Ascii.eqb c "]" || Ascii.eqb c "}"
  end.

(** What [JSON.parse_members] does with one member. *)
Definition step (acc : list (string * value)) (kv : string * value) :=
  obj_set (fst kv) (snd kv) acc.

(** The fuel for the elements of an array and the members of an
    object. *)
Definition elements_weight (l : list value) : nat :=
  fold_right (fun x n => S (weight x + n)) 0%nat l.

Definition members_weight (o : list (string * value)) : nat :=
  fold_right (fun kv n => S (weight (snd kv) + n)) 0%nat o.

(** A record whose address is a text other than [typed], letter case
    set aside by [lower]. *)
Definition unlike (lower : string -> string) (typed : string) (record : value) : Prop :=
  exists theirs,
    get_prop record "email" = Ok (VStr theirs) /\ lower theirs <> lower typed.

(** The three requests [handleCreateStudent] can make, and its four
    alerts. *)
Definition students_lookup : request :=
  mkRequest "GET" (apiService.API_URL ++ "/students") [] None.

Definition users_lookup : request :=
  mkRequest "GET" (apiService.API_URL ++ "/users") [] None.

Definition student_creation (studentData : value) : request :=
  mkRequest "POST" (apiService.API_URL ++ "/students") apiService.json_headers
            (JSON.stringify studentData).

Definition student_taken : string :=
  "Error: El correo electrónico ya está registrado. Por favor, usa otro email.".

Definition user_taken : string :=
  "Error: El correo electrónico pertenece a un usuario registrado. Por favor, usa otro email.".

(** A server that also keeps students, and a form for a new student. *)
Definition maria : value :=
  VObj [("id", VStr "1"); ("name", VStr "Maria"); ("email", VStr "maria@test.com")].

Definition campus : JsonServer.db :=
  JsonServer.mkDb {[ "users" := [Scenario.admin; Scenario.user]; "students" := [maria] ]}
                  ["k3v9xq2"].

Definition student_form (name email : string) (field : string) : value :=
  if String.eqb field "name" then VStr name
  else if String.eqb field "email" then VStr email
  else if String.eqb field "date" then VStr "06 Dec, 2021"
  else if String.eqb field "avatar" then VStr "https://i.pravatar.cc/150"
  else VStr "-".

End Terms.

(* ===================================================================== *)
(** * Properties *)
(* ===================================================================== *)

Import JS Platform.

(** ** [JSON.parse] is total *)

Local Close Scope Z_scope.

Section JsonFacts.
Implicit Types (cs rest : list ascii).

Lemma take_length c cs rest : JSON.take c cs = Some rest -> length cs = S (length rest).
Proof.
  destruct cs as [| x cs']; cbn; [discriminate |].
  destruct (Ascii.eqb x c); [| discriminate]. intros [= ->]. reflexivity.
Qed.

Lemma literal_length word cs rest :
  JSON.literal word cs = Some rest -> length rest <= length cs.
Proof.
  revert cs. induction word as [| c word IH]; intros cs; cbn.
  - intros [= ->]. lia.
  - destruct (JSON.take c cs) as [r |] eqn:Htake; [| discriminate].
    intros Hlit. apply IH in Hlit. apply take_length in Htake. lia.
Qed.

Lemma drop_while_length p cs : length (drop_while p cs) <= length cs.
Proof.
  induction cs as [| c cs IH]; cbn; [lia |].
  destruct (p c); cbn; lia.
Qed.

Lemma skip_ws_length cs : length (JSON.skip_ws cs) <= length cs.
Proof. apply drop_while_length. Qed.

Lemma span_length p cs : length (snd (span p cs)) <= length cs.
Proof.
  induction cs as [| c cs IH]; cbn; [lia |].
  destruct (p c); [| cbn; lia].
  destruct (span p cs) as [a b]. cbn in *. lia.
Qed.

Lemma exponent_digits_length esign cs ex rest :
  JSON.exponent_digits esign cs = Some (ex, rest) -> length rest <= length cs.
Proof.
  unfold JSON.exponent_digits. pose proof (span_length is_digit cs) as Hspan.
  destruct (span is_digit cs) as [ed r]. destruct (is_nil ed); [discriminate |].
  intros [= <- <-]. exact Hspan.
Qed.

Lemma signed_exponent_length cs ex rest :
  JSON.signed_exponent cs = Some (ex, rest) -> length rest <= length cs.
Proof.
  unfold JSON.signed_exponent.
  destruct (JSON.take "+" cs) as [r |] eqn:Hplus;
    [| destruct (JSON.take "-" cs) as [r |] eqn:Hminus];
    intros Hdigits; apply exponent_digits_length in Hdigits;
    try apply take_length in Hplus; try apply take_length in Hminus; lia.
Qed.

Lemma parse_exponent_length cs ex rest :
  JSON.parse_exponent cs = Some (ex, rest) -> length rest <= length cs.
Proof.
  unfold JSON.parse_exponent, JSON.either.
  destruct (JSON.take "e" cs) as [r |] eqn:He;
    [| destruct (JSON.take "E" cs) as [r |] eqn:HE].
  - intros Hs. apply signed_exponent_length in Hs. apply take_length in He. lia.
  - intros Hs. apply signed_exponent_length in Hs. apply take_length in HE. lia.
  - intros [= <- <-]. lia.
Qed.

Lemma parse_fraction_length cs frac rest :
  JSON.parse_fraction cs = Some (frac, rest) -> length rest <= length cs.
Proof.
  unfold JSON.parse_fraction.
  destruct (JSON.take "." cs) as [r |] eqn:Hdot.
  - apply take_length in Hdot. pose proof (span_length is_digit r) as Hspan.
    destruct (span is_digit r) as [fp r']. destruct (is_nil fp); [discriminate |].
    intros [= <- <-]. cbn in Hspan. lia.
  - intros [= <- <-]. lia.
Qed.

Lemma parse_unsigned_length neg cs v rest :
  JSON.parse_unsigned neg cs = Some (v, rest) -> length rest <= length cs.
Proof.
  unfold JSON.parse_unsigned. pose proof (span_length is_digit cs) as Hspan.
  destruct (span is_digit cs) as [ip r1]. cbn in Hspan.
  destruct ip as [| d more]; [discriminate |].
  destruct (Ascii.eqb d "0" && negb (is_nil more)); [discriminate |].
  destruct (JSON.parse_fraction r1) as [[frac r2] |] eqn:Hfrac; [| discriminate].
  destruct (JSON.parse_exponent r2) as [[ex r3] |] eqn:Hexp; [| discriminate].
  apply parse_fraction_length in Hfrac. apply parse_exponent_length in Hexp.
  intros [= <- <-]. lia.
Qed.

Lemma parse_number_length cs v rest :
  JSON.parse_number cs = Some (v, rest) -> length rest <= length cs.
Proof.
  unfold JSON.parse_number.
  destruct (JSON.take "-" cs) as [r |] eqn:Hminus; intros Hu;
    apply parse_unsigned_length in Hu; [apply take_length in Hminus; lia | exact Hu].
Qed.

Lemma parse_keyword_length cs v rest :
  JSON.parse_keyword cs = Some (v, rest) -> length rest <= length cs.
Proof.
  unfold JSON.parse_keyword.
  destruct (JSON.literal (chars "null") cs) as [r |] eqn:Hnull;
    [| destruct (JSON.literal (chars "true") cs) as [r |] eqn:Htrue;
       [| destruct (JSON.literal (chars "false") cs) as [r |] eqn:Hfalse]];
    try discriminate; intros [= <- <-]; eapply literal_length; eassumption.
Qed.


Lemma parse_string_body_length n : forall cs acc s rest,
  length cs <= n ->
  JSON.parse_string_body cs acc = Some (s, rest) ->
  length rest < length cs.
Proof.
  induction n as [| n IH]; intros cs acc s rest Hn.
  - destruct cs; [discriminate | cbn in Hn; lia].
  - destruct cs as [| c cs0]; [discriminate |]. cbn in Hn. cbn [JSON.parse_string_body].
    destruct (Ascii.eqb c JSON.dquote); [intros [= <- <-]; cbn; lia |].
    destruct (Ascii.eqb c JSON.backslash).
    + destruct cs0 as [| e cs1]; [discriminate |].
      destruct (JSON.simple_escape e).
      { intros Hrec. apply IH in Hrec; cbn in *; lia. }
      destruct (Ascii.eqb e "u"); [| discriminate].
      destruct cs1 as [| a [| b [| c' [| d cs2]]]]; try discriminate.
      destruct (JSON.hex4 a b c' d) as [hi |]; [| discriminate].
      assert (Hplain : forall acc', JSON.parse_string_body cs2 acc' = Some (s, rest) ->
                length rest < length (c :: e :: a :: b :: c' :: d :: cs2)).
      { intros acc' Hrec. apply IH in Hrec; cbn in *; lia. }
      destruct cs2 as [| b1 [| u1 [| a1 [| b2 [| c1 [| d1 cs3]]]]]]; try apply Hplain.
      destruct (JSON.low_surrogate_escape b1 u1 a1 b2 c1 d1); [| apply Hplain].
      destruct (JSON.is_high_surrogate hi); [| apply Hplain].
      intros Hrec. apply IH in Hrec; cbn in *; lia.
    + destruct (nat_of_ascii c <? 32)%nat; [discriminate |].
      intros Hrec. apply IH in Hrec; cbn in *; lia.
Qed.


Lemma string_body_length cs s rest :
  JSON.parse_string_body cs [] = Some (s, rest) -> length rest < length cs.
Proof. apply (parse_string_body_length (length cs)). lia. Qed.

Lemma of_option_length o cs v rest :
  (forall v' rest', o = Some (v', rest') -> length rest' <= length cs) ->
  JSON.of_option o = JSON.Parsed v rest -> length rest <= length cs.
Proof.
  intros Ho. destruct o as [[v' rest'] |]; cbn; [| discriminate].
  intros [= <- <-]. apply (Ho v' rest'). reflexivity.
Qed.

Lemma scalar_length cs v rest :
  JSON.either (JSON.parse_keyword cs) (JSON.parse_number cs) = Some (v, rest) ->
  length rest <= length cs.
Proof.
  unfold JSON.either.
  destruct (JSON.parse_keyword cs) as [[v' rest'] |] eqn:Hk.
  - intros [= <- <-]. eapply parse_keyword_length; eassumption.
  - apply parse_number_length.
Qed.

Lemma parse_lengths fuel :
  JSON.leaves_no_more (JSON.parse_value fuel)
  /\ (forall acc, JSON.leaves_no_more (fun cs => JSON.parse_elements fuel cs acc))
  /\ (forall acc, JSON.leaves_no_more (fun cs => JSON.parse_members fuel cs acc)).
Proof.
  unfold JSON.leaves_no_more.
  induction fuel as [| f (IHv & IHe & IHm)]; [repeat split; discriminate |].
  split; [| split].
  - intros cs v rest. cbn [JSON.parse_value]. cbv zeta.
    pose proof (skip_ws_length cs) as Hws.
    destruct (JSON.take JSON.dquote (JSON.skip_ws cs)) as [r |] eqn:Hq.
    { apply take_length in Hq.
      destruct (JSON.parse_string_body r []) as [[s r'] |] eqn:Hs; [| discriminate].
      apply string_body_length in Hs. intros [= <- <-]. lia. }
    destruct (JSON.take "[" (JSON.skip_ws cs)) as [r |] eqn:Hb.
    { apply take_length in Hb. pose proof (skip_ws_length r) as Hws'.
      destruct (JSON.take "]" (JSON.skip_ws r)) as [r' |] eqn:Hc.
      - apply take_length in Hc. intros [= <- <-]. lia.
      - intros Hrec. apply IHe in Hrec. lia. }
    destruct (JSON.take "{" (JSON.skip_ws cs)) as [r |] eqn:Ho.
    { apply take_length in Ho. pose proof (skip_ws_length r) as Hws'.
      destruct (JSON.take "}" (JSON.skip_ws r)) as [r' |] eqn:Hc.
      - apply take_length in Hc. intros [= <- <-]. lia.
      - intros Hrec. apply IHm in Hrec. lia. }
    intros Hscalar. apply of_option_length with (cs := JSON.skip_ws cs) in Hscalar;
      [lia | intros v' rest'; apply scalar_length].
  - intros acc cs v rest. cbn [JSON.parse_elements].
    destruct (JSON.parse_value f cs) as [v1 r | |] eqn:Hv; try discriminate.
    apply IHv in Hv. pose proof (skip_ws_length r) as Hws.
    destruct (JSON.take "," (JSON.skip_ws r)) as [r' |] eqn:Hcomma.
    { apply take_length in Hcomma. intros Hrec. apply IHe in Hrec. lia. }
    destruct (JSON.take "]" (JSON.skip_ws r)) as [r' |] eqn:Hclose; [| discriminate].
    apply take_length in Hclose. intros [= <- <-]. lia.
  - intros acc cs v rest. cbn [JSON.parse_members].
    pose proof (skip_ws_length cs) as Hws.
    destruct (JSON.take JSON.dquote (JSON.skip_ws cs)) as [r |] eqn:Hq; [| discriminate].
    apply take_length in Hq.
    destruct (JSON.parse_string_body r []) as [[k r1] |] eqn:Hk; [| discriminate].
    apply string_body_length in Hk. pose proof (skip_ws_length r1) as Hws1.
    destruct (JSON.take ":" (JSON.skip_ws r1)) as [r2 |] eqn:Hcolon; [| discriminate].
    apply take_length in Hcolon.
    destruct (JSON.parse_value f r2) as [v1 r3 | |] eqn:Hv; try discriminate.
    apply IHv in Hv. pose proof (skip_ws_length r3) as Hws3.
    destruct (JSON.take "," (JSON.skip_ws r3)) as [r4 |] eqn:Hcomma.
    { apply take_length in Hcomma. intros Hrec. apply IHm in Hrec. lia. }
    destruct (JSON.take "}" (JSON.skip_ws r3)) as [r4 |] eqn:Hclose; [| discriminate].
    apply take_length in Hclose. intros [= <- <-]. lia.
Qed.

Lemma parse_value_length fuel cs v rest :
  JSON.parse_value fuel cs = JSON.Parsed v rest -> length rest <= length cs.
Proof. apply (proj1 (parse_lengths fuel)). Qed.

Lemma of_option_not_exhausted o : JSON.of_option o <> JSON.Exhausted.
Proof. destruct o as [[v rest] |]; discriminate. Qed.

(** Fuel above twice the length of the text is never used up. *)
Lemma parse_fuel_suffices fuel :
  (forall cs, 2 * length cs < fuel -> JSON.parse_value fuel cs <> JSON.Exhausted)
  /\ (forall cs acc, 2 * length cs + 1 < fuel ->
        JSON.parse_elements fuel cs acc <> JSON.Exhausted)
  /\ (forall cs acc, 2 * length cs + 1 < fuel ->
        JSON.parse_members fuel cs acc <> JSON.Exhausted).
Proof.
  induction fuel as [| f (IHv & IHe & IHm)]; [repeat split; intros; lia |].
  split; [| split].
  - intros cs Hfuel. cbn [JSON.parse_value]. cbv zeta.
    pose proof (skip_ws_length cs) as Hws.
    destruct (JSON.take JSON.dquote (JSON.skip_ws cs)) as [r |] eqn:Hq.
    { destruct (JSON.parse_string_body r []) as [[s r'] |]; discriminate. }
    destruct (JSON.take "[" (JSON.skip_ws cs)) as [r |] eqn:Hb.
    { apply take_length in Hb. pose proof (skip_ws_length r) as Hws'.
      destruct (JSON.take "]" (JSON.skip_ws r)); [discriminate |].
      apply IHe. lia. }
    destruct (JSON.take "{" (JSON.skip_ws cs)) as [r |] eqn:Ho.
    { apply take_length in Ho. pose proof (skip_ws_length r) as Hws'.
      destruct (JSON.take "}" (JSON.skip_ws r)); [discriminate |].
      apply IHm. lia. }
    apply of_option_not_exhausted.
  - intros cs acc Hfuel. cbn [JSON.parse_elements].
    destruct (JSON.parse_value f cs) as [v r | |] eqn:Hv.
    + apply parse_value_length in Hv. pose proof (skip_ws_length r) as Hws.
      destruct (JSON.take "," (JSON.skip_ws r)) as [r' |] eqn:Hcomma.
      { apply take_length in Hcomma. apply IHe. lia. }
      destruct (JSON.take "]" (JSON.skip_ws r)); discriminate.
    + discriminate.
    + exfalso. apply (IHv cs); [lia | exact Hv].
  - intros cs acc Hfuel. cbn [JSON.parse_members].
    pose proof (skip_ws_length cs) as Hws.
    destruct (JSON.take JSON.dquote (JSON.skip_ws cs)) as [r |] eqn:Hq; [| discriminate].
    apply take_length in Hq.
    destruct (JSON.parse_string_body r []) as [[k r1] |] eqn:Hk; [| discriminate].
    apply string_body_length in Hk. pose proof (skip_ws_length r1) as Hws1.
    destruct (JSON.take ":" (JSON.skip_ws r1)) as [r2 |] eqn:Hcolon; [| discriminate].
    apply take_length in Hcolon.
    destruct (JSON.parse_value f r2) as [v r3 | |] eqn:Hv.
    + apply parse_value_length in Hv. pose proof (skip_ws_length r3) as Hws3.
      destruct (JSON.take "," (JSON.skip_ws r3)) as [r4 |] eqn:Hcomma.
      { apply take_length in Hcomma. apply IHm. lia. }
      destruct (JSON.take "}" (JSON.skip_ws r3)); discriminate.
    + discriminate.
    + exfalso. apply (IHv r2); [lia | exact Hv].
Qed.

(** [JSON.parse] never runs out of fuel: its [SyntaxError] always
    reports text that is not JSON. *)
Lemma parse_fuel_enough text :
  JSON.parse_value (JSON.parse_fuel (chars text)) (chars text) <> JSON.Exhausted.
Proof.
  apply (proj1 (parse_fuel_suffices _)). unfold JSON.parse_fuel. lia.
Qed.

End JsonFacts.

Local Open Scope Z_scope.

(** ** Session store *)

Section StoreFacts.
Context {B : Type}.
Implicit Types (w : world B) (v user : value).

(** Whatever [setUser] is given, and whether or not its last line
    throws, memory and the slot are written first. *)
Lemma setUser_writes user w :
  snd (Store.setUser user w)
  = with_storage (<["currentUser" := default "undefined" (JSON.stringify user)]>
                    (localStorage w))
                 (with_user user w).
Proof.
  unfold Store.setUser, bind, Store.assign_user, setItem, lift, ret.
  cbn. destruct (get_prop user "name"); reflexivity.
Qed.

Lemma setUser_returns user w :
  fst (Store.setUser user w)
  = match get_prop user "name" with Ok _ => Ok tt | Throw e => Throw e end.
Proof.
  unfold Store.setUser, bind, Store.assign_user, setItem, lift, ret.
  cbn. destruct (get_prop user "name"); reflexivity.
Qed.

Lemma init_absent w :
  localStorage w !! "currentUser" = None -> Store.init w = (Ok tt, w).
Proof.
  intros Hslot. unfold Store.init, bind, getItem. rewrite Hslot. reflexivity.
Qed.

Lemma init_empty w :
  localStorage w !! "currentUser" = Some "" -> Store.init w = (Ok tt, w).
Proof.
  intros Hslot. unfold Store.init, bind, getItem. rewrite Hslot. reflexivity.
Qed.

Lemma truthy_nonempty s : s <> "" -> truthy (VStr s) = true.
Proof.
  intros Hs. cbn. destruct (String.eqb_spec s ""); [contradiction | reflexivity].
Qed.

(** A non-empty slot goes through [JSON.parse]; what happens next is
    decided by the parse and by reading [name] off its result. *)
Lemma init_present w s :
  localStorage w !! "currentUser" = Some s -> s <> "" ->
  Store.init w
  = match JSON.parse s with
    | Throw e => (Throw e, w)
    | Ok v => (match get_prop v "name" with
               | Ok _ => Ok tt
               | Throw e => Throw e
               end, with_user v w)
    end.
Proof.
  intros Hslot Hs. unfold Store.init, bind, getItem. rewrite Hslot.
  rewrite (truthy_nonempty s Hs). cbn [to_string lift].
  destruct (JSON.parse s) as [v | e]; [| reflexivity].
  unfold Store.assign_user, Store.getUser, ret. cbn.
  destruct (get_prop v "name"); reflexivity.
Qed.

End StoreFacts.

Section StoreClaims.
Context {B : Type}.
Implicit Types (w : world B).

(** C8. For every Principal [p] (an object), [setUser(p)] completes,
    [getUser()] right after it returns [p] itself, and the persisted
    slot holds exactly [JSON.stringify(p)], whatever it held before;
    no other key of the storage changes. *)
Theorem setUser_then_getUser (props : list (string * value)) w :
  let p := VObj props in
  let w1 := snd (Store.setUser p w) in
  fst (Store.setUser p w) = Ok tt
  /\ Store.getUser w1 = (Ok p, w1)
  /\ exists text,
       JSON.stringify p = Some text
       /\ localStorage w1 !! "currentUser" = Some text
       /\ localStorage w1 = <["currentUser" := text]> (localStorage w).
Proof.
  cbv zeta. rewrite setUser_writes, setUser_returns.
  split; [reflexivity |]. split; [reflexivity |].
  destruct (JSON.stringify (VObj props)) as [text |] eqn:Htext;
    [| discriminate Htext].
  exists text. split; [reflexivity |].
  cbn [localStorage with_storage default from_option id].
  split; [apply lookup_insert_eq | reflexivity].
Qed.

(** C9. From any state, [clearUser()] followed by [getUser()] returns
    [null]; the persisted slot is gone; and [init()] run on the
    cleared storage, in the same page or after a reload, completes and
    leaves [getUser()] returning [null]. *)
Theorem clearUser_then_absent w :
  let w1 := snd (Store.clearUser w) in
  fst (Store.clearUser w) = Ok tt
  /\ Store.getUser w1 = (Ok VNull, w1)
  /\ localStorage w1 !! "currentUser" = None
  /\ Store.init w1 = (Ok tt, w1)
  /\ Store.init (reload w1) = (Ok tt, reload w1)
  /\ fst (Store.getUser (snd (Store.init (reload w1)))) = Ok VNull.
Proof.
  cbv zeta.
  assert (Hslot : localStorage (snd (Store.clearUser w)) !! "currentUser" = None).
  { cbn. apply lookup_delete_eq. }
  assert (Hreload : Store.init (reload (snd (Store.clearUser w)))
                    = (Ok tt, reload (snd (Store.clearUser w)))).
  { apply init_absent. exact Hslot. }
  repeat split; try assumption.
  - apply init_absent. exact Hslot.
  - rewrite Hreload. reflexivity.
Qed.

(** C3, as amended. [init()] loads the persisted Session Record when
    the slot holds the JSON text of an object; it completes silently
    and changes nothing when the slot is absent or empty; on any other
    malformed content the [SyntaxError] of [JSON.parse] escapes
    [init()], the in-memory principal staying as it was. *)
Theorem init_loads_or_throws w :
  (localStorage w !! "currentUser" = None -> Store.init w = (Ok tt, w))
  /\ (localStorage w !! "currentUser" = Some "" -> Store.init w = (Ok tt, w))
  /\ (forall text props,
        localStorage w !! "currentUser" = Some text ->
        JSON.parse text = Ok (VObj props) ->
        Store.init w = (Ok tt, with_user (VObj props) w))
  /\ (forall text e,
        localStorage w !! "currentUser" = Some text -> text <> "" ->
        JSON.parse text = Throw e ->
        Store.init w = (Throw e, w) /\ err_name e = "SyntaxError").
Proof.
  split; [apply init_absent |].
  split; [apply init_empty |].
  split.
  - intros text props Hslot Hparse.
    assert (Hne : text <> "") by (intros ->; discriminate Hparse).
    rewrite (init_present w text Hslot Hne), Hparse. reflexivity.
  - intros text e Hslot Hne Hparse.
    rewrite (init_present w text Hslot Hne), Hparse. split; [reflexivity |].
    unfold JSON.parse in Hparse.
    destruct (JSON.parse_value _ _) as [v rest | |];
      [destruct (JSON.skip_ws rest) |..]; inversion Hparse; reflexivity.
Qed.

End StoreClaims.

(** ** Route guard *)

Section GuardClaims.
Context {B : Type} `{Router.EditView B}.
Implicit Types (w : world B).

Lemma admin_route_is_guarded path :
  In path Router.adminRoutes ->
  Router.includes Router.adminRoutes path = true
  /\ Router.includes Router.protectedRoutes path = true.
Proof.
  intros [<- | [<- | []]]; split; reflexivity.
Qed.

(** A value other than [null] counts as a signed-in principal. *)
Lemma not_null_true v : v <> VNull -> not_null v = true.
Proof. destruct v; intros Hv; try reflexivity. contradiction. Qed.

(** [isAdmin()] is falsy unless the role reads ['admin']. *)
Lemma isAdmin_falsy w :
  get_prop (state_user w) "role" <> Ok (VStr "admin") ->
  exists a, authService.isAdmin w = (Ok a, w) /\ truthy a = false.
Proof.
  intros Hrole.
  unfold authService.isAdmin, bind, Store.getUser, ret, lift.
  destruct (truthy (state_user w)) eqn:Htruthy.
  - destruct (get_prop (state_user w) "role") as [r | e] eqn:Hget.
    + exists (VBool (strict_eq_str r "admin")). split; [reflexivity |].
      destruct r; try reflexivity. cbn.
      destruct (String.eqb_spec s "admin") as [-> | _]; [| reflexivity].
      contradiction.
    + destruct (state_user w); discriminate.
  - exists (state_user w). split; [reflexivity | exact Htruthy].
Qed.

(** C1. For every path in the admin set, a navigation to it while no
    principal is present ends with [window.location.hash] set to
    ['#/login'], and so not to ['#/not-found']; nothing is rendered.
    The authentication check fires before the role check. *)
Theorem unauthenticated_admin_route_goes_to_login w :
  In (Router.path_of_hash (location_hash w)) Router.adminRoutes ->
  state_user w = VNull ->
  Router.handleRoute w = (Ok tt, with_hash "#/login" w)
  /\ location_hash (snd (Router.handleRoute w)) = "#/login"
  /\ location_hash (snd (Router.handleRoute w)) <> "#/not-found"
  /\ app (snd (Router.handleRoute w)) = app w.
Proof.
  intros Hpath Huser.
  destruct (admin_route_is_guarded _ Hpath) as [_ Hprotected].
  assert (Hrun : Router.handleRoute w = (Ok tt, with_hash "#/login" w)).
  { unfold Router.handleRoute, bind, get_hash. cbn zeta.
    rewrite Hprotected.
    unfold Router.and_also, Router.not_authenticated, authService.isAuthenticated,
      Store.getUser, bind, ret.
    rewrite Huser. reflexivity. }
  rewrite Hrun. repeat split. discriminate.
Qed.

(** C2. For every path in the admin set, a navigation to it while a
    principal is present whose role is not ['admin'] ends with
    [window.location.hash] set to ['#/not-found'], and the requested
    view is not rendered: [#app] keeps what it showed. *)
Theorem non_admin_on_admin_route_goes_to_not_found w :
  In (Router.path_of_hash (location_hash w)) Router.adminRoutes ->
  state_user w <> VNull ->
  get_prop (state_user w) "role" <> Ok (VStr "admin") ->
  Router.handleRoute w = (Ok tt, with_hash "#/not-found" w)
  /\ location_hash (snd (Router.handleRoute w)) = "#/not-found"
  /\ app (snd (Router.handleRoute w)) = app w.
Proof.
  intros Hpath Huser Hrole.
  destruct (admin_route_is_guarded _ Hpath) as [Hadmin Hprotected].
  destruct (isAdmin_falsy w Hrole) as (a & Hrun_admin & Hfalsy).
  assert (Hrun : Router.handleRoute w = (Ok tt, with_hash "#/not-found" w)).
  { unfold Router.handleRoute, bind, get_hash. cbn zeta.
    rewrite Hprotected, Hadmin.
    unfold Router.and_also, Router.not_authenticated, authService.isAuthenticated,
      Store.getUser, bind, ret.
    rewrite (not_null_true _ Huser). cbn [negb].
    unfold Router.not_admin, bind, ret. rewrite Hrun_admin, Hfalsy.
    reflexivity. }
  rewrite Hrun. repeat split.
Qed.

End GuardClaims.

(** ** API client *)

Section ApiClaims.
Context {B : Type} `{Backend B}.
Implicit Types (w : world B).

(** Each operation is one exchange, whose outcome decides the rest. *)
Lemma call_run op path data w :
  Spec.call op path data w
  = let req := Spec.request_of op path data in
    let w' := with_exchange req (snd (handle req (backend w))) w in
    match fst (handle req (backend w)) with
    | Rejects e => (Throw e, w')
    | Responds r =>
        if ok r then (Spec.resolved op r, w')
        else (Throw (Error (apiService.status_message (Spec.failure_words op) r)), w')
    end.
Proof.
  destruct op; cbn;
    unfold apiService.get, apiService.post, apiService.put, apiService.delete,
      try_catch, bind, fetch, throw, json, lift, ret;
    match goal with |- context [handle ?r ?b] => destruct (handle r b) as [[resp | e] b'] end;
    cbn; try reflexivity;
    destruct (ok resp); cbn; try reflexivity;
    destruct (JSON.parse (body resp)); reflexivity.
Qed.

Lemma get_run path w :
  apiService.get path w = Spec.call Spec.Read path VUndefined w.
Proof. reflexivity. Qed.

Lemma issued_one (r : request) b' w :
  Spec.issued w (with_exchange r b' w) = [r].
Proof. unfold Spec.issued. cbn. apply drop_app_length. Qed.

(** C5, as amended. For every operation and path, a non-success
    status or a transport failure makes the call throw after exactly
    one network attempt, the request for that operation at
    [API_URL + path].  On a non-success status the error is an [Error]
    whose message is the operation's words, the status and the status
    text; on a transport failure it is the platform's own error,
    rethrown as it came.  Neither is given the path. *)
Theorem api_failure_throws_after_one_attempt op path data w out b' :
  handle (Spec.request_of op path data) (backend w) = (out, b') ->
  match out with
  | Responds r => ok r = false
  | Rejects _ => True
  end ->
  let w' := snd (Spec.call op path data w) in
  fst (Spec.call op path data w)
  = Throw match out with
          | Responds r =>
              Error (apiService.status_message (Spec.failure_words op) r)
          | Rejects e => e
          end
  /\ Spec.issued w w' = [Spec.request_of op path data]
  /\ w' = with_exchange (Spec.request_of op path data) b' w.
Proof.
  intros Hhandle Hfailed. cbv zeta. rewrite call_run. cbv zeta.
  rewrite Hhandle. cbn [fst snd].
  destruct out as [r | e]; [rewrite Hfailed |]; cbn [fst snd];
    (split; [reflexivity |]; split; [apply issued_one | reflexivity]).
Qed.

End ApiClaims.

(** ** Auth gateway *)

Section AuthClaims.
Context {B : Type} `{Backend B}.
Implicit Types (w : world B).

Lemma login_on_no_match email password w w' :
  apiService.get ("/users?email=" ++ email ++ "&password=" ++ password) w
  = (Ok (VArr []), w') ->
  authService.login email password w
  = (Ok (authService.Failure "Credenciales inválidas"), w').
Proof.
  intros Hget. unfold authService.login, try_catch, bind at 1.
  rewrite Hget. reflexivity.
Qed.

Lemma login_on_api_error email password w w' e :
  apiService.get ("/users?email=" ++ email ++ "&password=" ++ password) w
  = (Throw e, w') ->
  authService.login email password w
  = (Ok (authService.Failure "Error al iniciar sesión. Por favor intenta de nuevo."), w').
Proof.
  intros Hget. unfold authService.login, try_catch, bind at 1.
  rewrite Hget. reflexivity.
Qed.

(** For every email/password pair for which the credential lookup
    answers with no record (an empty array), [login] resolves to a
    failure whose message is one fixed text, and neither
    [Store.state.user] nor [localStorage] changes: the only effect is
    the one lookup. *)
Lemma login_no_match_leaves_store email password w r b' :
  handle (Spec.login_request email password) (backend w) = (Responds r, b') ->
  ok r = true ->
  JSON.parse (body r) = Ok (VArr []) ->
  let w' := snd (authService.login email password w) in
  fst (authService.login email password w)
  = Ok (authService.Failure "Credenciales inválidas")
  /\ state_user w' = state_user w
  /\ localStorage w' = localStorage w
  /\ w' = with_exchange (Spec.login_request email password) b' w.
Proof.
  intros Hhandle Hok Hparse. cbv zeta.
  rewrite (login_on_no_match email password w
             (with_exchange (Spec.login_request email password) b' w)).
  - repeat split.
  - rewrite get_run, call_run. cbv zeta.
    change (Spec.request_of Spec.Read
              ("/users?email=" ++ email ++ "&password=" ++ password) VUndefined)
      with (Spec.login_request email password).
    rewrite Hhandle. cbn [fst snd]. rewrite Hok. cbn [Spec.resolved].
    rewrite Hparse. reflexivity.
Qed.

(** C7, as amended. [login] answers a lookup that found no record and
    a lookup that threw with a failure result in both cases, but with
    two different messages: ['Credenciales inválidas'] for no match,
    ['Error al iniciar sesión. Por favor intenta de nuevo.'] for a
    thrown API error. *)
Theorem login_failure_messages email password w w' :
  let lookup := apiService.get ("/users?email=" ++ email ++ "&password=" ++ password) in
  let no_match := "Credenciales inválidas" in
  let api_error := "Error al iniciar sesión. Por favor intenta de nuevo." in
  (lookup w = (Ok (VArr []), w') ->
   authService.login email password w = (Ok (authService.Failure no_match), w'))
  /\ (forall e, lookup w = (Throw e, w') ->
      authService.login email password w = (Ok (authService.Failure api_error), w'))
  /\ no_match <> api_error.
Proof.
  cbv zeta. split; [apply login_on_no_match |].
  split; [intros e; apply login_on_api_error | discriminate].
Qed.

End AuthClaims.

(** ** Registration *)




Section RegisterClaims.
Context {B : Type} `{Backend B}.
Implicit Types (w : world B).

Lemma issued_none w : Spec.issued w w = [].
Proof. unfold Spec.issued. apply drop_all. Qed.

Lemma issued_two (r1 r2 : request) b1 b2 w :
  Spec.issued w (with_exchange r2 b2 (with_exchange r1 b1 w)) = [r1; r2].
Proof.
  unfold Spec.issued. cbn. rewrite <- app_assoc. apply drop_app_length.
Qed.

Lemma setUser_sent user w : sent (snd (Store.setUser user w)) = sent w.
Proof. rewrite setUser_writes. reflexivity. Qed.

Lemma issued_after_setUser user w0 w :
  Spec.issued w0 (snd (Store.setUser user w)) = Spec.issued w0 w.
Proof. unfold Spec.issued. rewrite setUser_sent. reflexivity. Qed.

(** The requests [register] makes: none when the form cannot be read
    or its address has no text, the duplicate check alone when it
    fails or finds a record, the duplicate check and then the one
    creation request otherwise. *)
Lemma register_issued userData w :
  let requests := Spec.issued w (snd (authService.register userData w)) in
  let check := Spec.precheck_request (default VUndefined
                 (match get_prop userData "email" with Ok e => Some e | Throw _ => None end)) in
  let creation := Spec.request_of Spec.Create "/users"
                    (authService.new_user_data userData (Spec.role_of userData)) in
  (requests = []
   /\ forall email, get_prop userData "email" = Ok email -> printable email = false)
  \/ requests = [check] \/ requests = [check; creation].
Proof.
  cbv zeta. unfold Spec.role_of.
  cbv [authService.register try_catch bind lift ret].
  destruct (get_prop userData "email") as [email | e] eqn:Hemail;
    [| left; split; [apply issued_none | discriminate]].
  unfold ToString. destruct (printable email) eqn:Hprintable;
    [| left; split; [apply issued_none | congruence]].
  rewrite get_run, call_run. cbv zeta.
  change (Spec.request_of Spec.Read ("/users?email=" ++ to_string email) VUndefined)
    with (Spec.precheck_request email).
  set (w1 := with_exchange (Spec.precheck_request email)
               (snd (handle (Spec.precheck_request email) (backend w))) w).
  assert (Hone : Spec.issued w w1 = [Spec.precheck_request email])
    by apply issued_one.
  cbn [default from_option id].
  destruct (fst (handle (Spec.precheck_request email) (backend w))) as [r | e];
    [| right; left; exact Hone].
  destruct (ok r); [| right; left; exact Hone].
  cbn [Spec.resolved].
  destruct (JSON.parse (body r)) as [existing | e];
    [| right; left; exact Hone].
  destruct (get_prop existing "length") as [len | e];
    [| right; left; exact Hone].
  destruct (greater_than_zero len) as [[|] | e];
    [right; left; exact Hone | | right; left; exact Hone].
  destruct (get_prop userData "role") as [role | e];
    [| right; left; exact Hone].
  change (apiService.post "/users" (authService.new_user_data userData role))
    with (Spec.call Spec.Create "/users" (authService.new_user_data userData role)).
  rewrite call_run. cbv zeta.
  set (creation := Spec.request_of Spec.Create "/users"
                     (authService.new_user_data userData role)).
  set (w2 := with_exchange creation (snd (handle creation (backend w1))) w1).
  assert (Htwo : Spec.issued w w2 = [Spec.precheck_request email; creation])
    by apply issued_two.
  right; right.
  destruct (fst (handle creation (backend w1))) as [r2 | e]; [| exact Htwo].
  destruct (ok r2); [| exact Htwo].
  cbn [Spec.resolved].
  destruct (JSON.parse (body r2)) as [newUser | e]; [| exact Htwo].
  pose proof (issued_after_setUser newUser w w2) as Hset.
  destruct (Store.setUser newUser w2) as [[[] | e] w3]; cbn [snd] in Hset.
  - destruct (get_prop newUser "name"); cbn [snd]; congruence.
  - cbn [snd]. congruence.
Qed.

(** The duplicate check asks for the address exactly as the form gives
    it: [register] folds no case before the lookup. *)
Lemma register_checks_address_as_typed userData email w :
  get_prop userData "email" = Ok email ->
  printable email = true ->
  hd_error (Spec.issued w (snd (authService.register userData w)))
  = Some (Spec.precheck_request email).
Proof.
intros Hemail Hprintable. pose proof (register_issued userData w) as Hissued.
cbv zeta in Hissued. rewrite Hemail in Hissued. cbn [default from_option id] in Hissued.
destruct Hissued as [[_ Hnone] | [Hone | Htwo]].
- exfalso. specialize (Hnone email eq_refl). congruence.
- rewrite Hone. reflexivity.
- rewrite Htwo. reflexivity.
Qed.

(** After a duplicate check that found nothing, [register] asks for
    the creation of the record and for nothing else, whatever the
    backend then answers. *)
Lemma register_after_empty_lookup userData email w r b1 existing len :
  get_prop userData "email" = Ok email ->
  printable email = true ->
  handle (Spec.precheck_request email) (backend w) = (Responds r, b1) ->
  ok r = true ->
  JSON.parse (body r) = Ok existing ->
  get_prop existing "length" = Ok len ->
  greater_than_zero len = Ok false ->
  Spec.issued w (snd (authService.register userData w))
  = [Spec.precheck_request email;
     Spec.request_of Spec.Create "/users"
       (authService.new_user_data userData (Spec.role_of userData))].
Proof.
  intros Hemail Hprintable Hhandle Hok Hparse Hlength Hlen.
  assert (Hrole : get_prop userData "role" = Ok (Spec.role_of userData)).
  { unfold Spec.role_of. destruct userData; try reflexivity; discriminate Hemail. }
  cbv [authService.register try_catch bind lift ret]. rewrite Hemail.
  unfold ToString. rewrite Hprintable.
  rewrite get_run, call_run. cbv zeta.
  change (Spec.request_of Spec.Read ("/users?email=" ++ to_string email) VUndefined)
    with (Spec.precheck_request email).
  rewrite Hhandle. cbn [fst snd]. rewrite Hok. cbn [Spec.resolved]. rewrite Hparse.
  rewrite Hlength, Hlen, Hrole.
  change (apiService.post "/users"
            (authService.new_user_data userData (Spec.role_of userData)))
    with (Spec.call Spec.Create "/users"
            (authService.new_user_data userData (Spec.role_of userData))).
  rewrite call_run. cbv zeta.
  set (creation := Spec.request_of Spec.Create "/users"
                     (authService.new_user_data userData (Spec.role_of userData))).
  set (w1 := with_exchange (Spec.precheck_request email) b1 w).
  set (w2 := with_exchange creation (snd (handle creation (backend w1))) w1).
  assert (Htwo : Spec.issued w w2 = [Spec.precheck_request email; creation])
    by apply issued_two.
  destruct (fst (handle creation (backend w1))) as [r2 | e]; [| exact Htwo].
  destruct (ok r2); [| exact Htwo].
  cbn [Spec.resolved].
  destruct (JSON.parse (body r2)) as [newUser | e]; [| exact Htwo].
  pose proof (issued_after_setUser newUser w w2) as Hset.
  destruct (Store.setUser newUser w2) as [[[] | e] w3]; cbn [snd] in Hset.
  - destruct (get_prop newUser "name"); cbn [snd]; congruence.
  - cbn [snd]. congruence.
Qed.

(** Whenever the lookup of the address as typed comes back empty,
    [register] goes on to create the record: the only comparison of
    addresses is the one the backend makes. *)
Lemma register_creates_after_empty_lookup userData email w r b1 :
  get_prop userData "email" = Ok email ->
  printable email = true ->
  handle (Spec.precheck_request email) (backend w) = (Responds r, b1) ->
  ok r = true ->
  JSON.parse (body r) = Ok (VArr []) ->
  Spec.issued w (snd (authService.register userData w))
  = [Spec.precheck_request email;
     Spec.request_of Spec.Create "/users"
       (authService.new_user_data userData (Spec.role_of userData))].
Proof.
  intros Hemail Hprintable Hhandle Hok Hparse.
  apply (register_after_empty_lookup userData email w r b1 (VArr []) (VInt 0));
    auto.
Qed.


(** Every creation request [register] issues is the [POST /users] of
    the record with the defaulted role. *)
Lemma register_posts_that_record_only userData w :
  Forall (fun r => req_method r = "POST" ->
                   r = Spec.request_of Spec.Create "/users"
                         (authService.new_user_data userData (Spec.role_of userData)))
         (Spec.issued w (snd (authService.register userData w))).
Proof.
  destruct (register_issued userData w) as [[-> _] | [-> | ->]].
  - constructor.
  - constructor; [discriminate | constructor].
  - constructor; [discriminate |].
    constructor; [reflexivity | constructor].
Qed.


End RegisterClaims.

(** * Further properties *)

Import Terms.

Section StoreMore.
Context {B : Type}.
Implicit Types (w : world B) (user : value).

Lemma clearUser_run w :
  Store.clearUser w
  = (Ok tt, with_storage (delete "currentUser" (localStorage w)) (with_user VNull w)).
Proof. reflexivity. Qed.

(** X1. The store keeps no history: a second [setUser] leaves exactly what
    it would have left alone, [clearUser] after [setUser] leaves what
    [clearUser] alone leaves, and [setUser] after [clearUser] what
    [setUser] alone leaves. *)
Theorem store_last_write_wins user1 user2 w :
  snd (Store.setUser user2 (snd (Store.setUser user1 w))) = snd (Store.setUser user2 w)
  /\ snd (Store.clearUser (snd (Store.setUser user1 w))) = snd (Store.clearUser w)
  /\ snd (Store.setUser user2 (snd (Store.clearUser w))) = snd (Store.setUser user2 w).
Proof.
  rewrite !clearUser_run. cbn [snd]. rewrite !setUser_writes.
  unfold with_storage, with_user. cbn.
  rewrite insert_insert_eq, delete_insert_eq, insert_delete_eq. repeat split.
Qed.

Lemma init_storage w : localStorage (snd (Store.init w)) = localStorage w.
Proof.
  unfold Store.init, bind, getItem, lift, Store.assign_user, Store.getUser, ret.
  destruct (truthy _); [| reflexivity].
  destruct (JSON.parse _) as [v | e]; [| reflexivity].
  cbn. destruct (get_prop v "name"); reflexivity.
Qed.

(** X2. The store owns one storage key and nothing else: [init], [setUser]
    and [clearUser] leave the address, the rendered view, the network
    and every other key of [localStorage] alone, whether they return or
    throw; [init] writes no key at all. *)
Theorem store_touches_only_the_session user w :
  Terms.same_but_session w (snd (Store.init w))
  /\ localStorage (snd (Store.init w)) = localStorage w
  /\ Terms.same_but_session w (snd (Store.setUser user w))
  /\ Terms.same_but_session w (snd (Store.clearUser w)).
Proof.
  unfold Terms.same_but_session. split; [| split; [apply init_storage | split]].
  - pose proof (init_storage w) as Hsame.
    unfold Store.init, bind, getItem, lift, Store.assign_user, Store.getUser, ret in *.
    destruct (truthy _); [| repeat split].
    destruct (JSON.parse _) as [v | e]; [| repeat split].
    cbn in *. destruct (get_prop v "name"); repeat split.
  - rewrite setUser_writes. cbn. repeat split.
    intros key Hkey. apply lookup_insert_ne. congruence.
  - rewrite clearUser_run. cbn. repeat split.
    intros key Hkey. apply lookup_delete_ne. congruence.
Qed.

End StoreMore.
Section ApiMore.
Context {B : Type} `{Backend B}.
Implicit Types (w : world B).

(** X4. Every call of the API client is exactly one request, the one for
    its operation at [API_URL + path], whether it then returns or
    throws: nothing is retried and nothing is skipped. *)
Theorem api_call_is_one_request op path data w :
  Spec.issued w (snd (Spec.call op path data w)) = [Spec.request_of op path data].
Proof.
  rewrite call_run. cbv zeta.
  destruct (fst (handle _ _)) as [r | e]; [destruct (ok r) |]; apply issued_one.
Qed.

(** X5. On a success status, [delete] resolves to [true] without reading
    the body, so an empty body is fine; [get], [post] and [put] resolve
    to the parsed body and throw the [SyntaxError] of a body that is
    not JSON.  The store and the address are not touched. *)
Theorem api_success_resolves op path data w r b' :
  handle (Spec.request_of op path data) (backend w) = (Responds r, b') ->
  ok r = true ->
  Spec.call op path data w
  = (match op with
     | Spec.Remove => Ok (VBool true)
     | _ => JSON.parse (body r)
     end, with_exchange (Spec.request_of op path data) b' w).
Proof.
  intros Hhandle Hok. rewrite call_run. cbv zeta. rewrite Hhandle. cbn [fst snd].
  rewrite Hok. destruct op; reflexivity.
Qed.

End ApiMore.

Section AuthMore.
Context {B : Type} `{Backend B}.
Implicit Types (w : world B).

Lemma get_prop_after_name v k x :
  get_prop v "name" = Ok x -> exists y, get_prop v k = Ok y.
Proof.
  destruct v; try discriminate; intros _; cbn; eauto.
  - destruct (String.eqb k "length"); [eauto |]. destruct (index_of_key k); eauto.
  - destruct (String.eqb k "length"); [eauto |]. destruct (index_of_key k); eauto.
Qed.

Lemma readable_truthy_or_not v k x :
  get_prop v k = Ok x -> v <> VNull /\ v <> VUndefined.
Proof. destruct v; try discriminate; split; discriminate. Qed.

(** What [login] does once the lookup has settled. *)
Lemma login_run email password w :
  let lookup := apiService.get ("/users?email=" ++ email ++ "&password=" ++ password) w in
  let w1 := snd lookup in
  let failed := Ok (authService.Failure "Error al iniciar sesión. Por favor intenta de nuevo.") in
  authService.login email password w
  = match fst lookup with
    | Throw _ => (failed, w1)
    | Ok users =>
        match get_prop users "length" with
        | Throw _ => (failed, w1)
        | Ok len =>
            match greater_than_zero len with
            | Throw _ => (failed, w1)
            | Ok true =>
                match get_prop users "0" with
                | Throw _ => (failed, w1)
                | Ok user =>
                    (if Terms.loggable user then Ok (authService.Success user) else failed,
                     snd (Store.setUser user w1))
                end
            | Ok false => (Ok (authService.Failure "Credenciales inválidas"), w1)
            end
        end
    end.
Proof.
  cbv zeta. cbv [authService.login try_catch bind lift ret].
  destruct (apiService.get _ w) as [[users | e] w1]; cbn [fst snd]; [| reflexivity].
  destruct (get_prop users "length") as [len | e]; [| reflexivity].
  destruct (greater_than_zero len) as [[|] | e]; [| reflexivity ..].
  destruct (get_prop users "0") as [user | e]; [| reflexivity].
  pose proof (setUser_writes user w1) as Hw. pose proof (setUser_returns user w1) as Hr.
  destruct (Store.setUser user w1) as [r w2]. cbn [fst snd] in *. subst r.
  unfold Terms.loggable.
  destruct (get_prop user "name") as [x | e] eqn:Hname.
  - destruct (get_prop_after_name user "role" x Hname) as (y & ->).
    unfold ToString. destruct (printable y); reflexivity.
  - destruct user; try discriminate Hname; reflexivity.
Qed.


(** What [register] does, step by step. *)
Lemma register_run userData w :
  let failed :=
    Ok (authService.Failure "Error al registrar usuario. Por favor intenta de nuevo.") in
  authService.register userData w
  = match get_prop userData "email" with
    | Throw _ => (failed, w)
    | Ok email =>
        if printable email then
          let lookup := apiService.get ("/users?email=" ++ to_string email) w in
          let w1 := snd lookup in
          match fst lookup with
          | Throw _ => (failed, w1)
          | Ok existing =>
              match get_prop existing "length" with
              | Throw _ => (failed, w1)
              | Ok len =>
                  match greater_than_zero len with
                  | Throw _ => (failed, w1)
                  | Ok true => (Ok (authService.Failure "El email ya está registrado"), w1)
                  | Ok false =>
                      let creation :=
                        apiService.post "/users"
                          (authService.new_user_data userData (Spec.role_of userData)) w1 in
                      match fst creation with
                      | Throw _ => (failed, snd creation)
                      | Ok newUser =>
                          (match get_prop newUser "name" with
                           | Ok _ => Ok (authService.Success newUser)
                           | Throw _ => failed
                           end, snd (Store.setUser newUser (snd creation)))
                      end
                  end
              end
          end
        else (failed, w)
    end.
Proof.
  cbv zeta. cbv [authService.register try_catch bind lift ret].
  destruct (get_prop userData "email") as [email | e] eqn:Hemail; [| reflexivity].
  unfold ToString. destruct (printable email); [| reflexivity].
  destruct (apiService.get _ w) as [[existing | e] w1]; cbn [fst snd]; [| reflexivity].
  destruct (get_prop existing "length") as [len | e]; [| reflexivity].
  destruct (greater_than_zero len) as [[|] | e]; [reflexivity | | reflexivity].
  assert (Hrole : get_prop userData "role" = Ok (Spec.role_of userData)).
  { unfold Spec.role_of. destruct userData; try reflexivity; discriminate Hemail. }
  rewrite Hrole.
  destruct (apiService.post _ _ w1) as [[newUser | e] w2]; cbn [fst snd]; [| reflexivity].
  pose proof (setUser_writes newUser w2) as Hw.
  pose proof (setUser_returns newUser w2) as Hr.
  destruct (Store.setUser newUser w2) as [r w3]. cbn [fst snd] in *. subst r.
  destruct (get_prop newUser "name") as [x | e]; reflexivity.
Qed.



(** X6. [login], [register] and [logout] never throw: whatever the lookup
    or the server does, [login] and [register] resolve to a result
    object. *)
Theorem auth_calls_never_throw email password userData w :
  (exists result, fst (authService.login email password w) = Ok result)
  /\ (exists result, fst (authService.register userData w) = Ok result)
  /\ fst (authService.logout w) = Ok tt.
Proof.
  split; [| split; [| reflexivity]].
  - rewrite login_run. cbv zeta.
    destruct (fst (apiService.get _ w)) as [users | e]; [| eauto].
    destruct (get_prop users "length") as [len | e]; [| eauto].
    destruct (greater_than_zero len) as [[|] | e]; [| eauto ..].
    destruct (get_prop users "0") as [user | e]; [| eauto].
    destruct (Terms.loggable user); eauto.
  - rewrite register_run. cbv zeta.
    destruct (get_prop userData "email") as [addr | e]; [| eauto].
    destruct (printable addr); [| eauto].
    destruct (fst (apiService.get _ w)) as [existing | e]; [| eauto].
    destruct (get_prop existing "length") as [len | e]; [| eauto].
    destruct (greater_than_zero len) as [[|] | e]; [eauto | | eauto].
    destruct (fst (apiService.post _ _ _)) as [newUser | e]; [| eauto].
    destruct (get_prop newUser "name"); eauto.
Qed.

Lemma setUser_slot user w :
  localStorage (snd (Store.setUser user w)) !! "currentUser"
  = Some (default "undefined" (JSON.stringify user)).
Proof. rewrite setUser_writes. cbn. apply lookup_insert_eq. Qed.

(** X7. Whenever [login] reports success, the session store holds the very
    user it returns, the persisted slot holds that user's JSON text,
    [isAuthenticated()] is true from then on, and the user is the first
    record of the lookup's answer. *)
Theorem login_success_holds_session email password w user :
  fst (authService.login email password w) = Ok (authService.Success user) ->
  let w' := snd (authService.login email password w) in
  state_user w' = user
  /\ localStorage w' !! "currentUser" = JSON.stringify user
  /\ authService.isAuthenticated w' = (Ok true, w')
  /\ exists users,
       fst (apiService.get ("/users?email=" ++ email ++ "&password=" ++ password) w)
       = Ok users
       /\ get_prop users "0" = Ok user.
Proof.
  cbv zeta. rewrite login_run. cbv zeta.
  destruct (fst (apiService.get _ w)) as [users | e]; [| discriminate].
  destruct (get_prop users "length") as [len | e]; [| discriminate].
  destruct (greater_than_zero len) as [[|] | e]; [| discriminate ..].
  destruct (get_prop users "0") as [u | e] eqn:Hfirst; [| discriminate].
  destruct (Terms.loggable u) eqn:Hlog; [| discriminate].
  cbn [fst snd]. intros [= <-].
  assert (Hrole : exists x, get_prop u "role" = Ok x).
  { unfold Terms.loggable in Hlog. destruct (get_prop u "role"); [eauto | discriminate]. }
  destruct Hrole as (x & Hname).
  destruct (readable_truthy_or_not u "role" x Hname) as [Hnull Hundef].
  split; [rewrite setUser_writes; reflexivity |].
  split.
  { rewrite setUser_slot. destruct u as [| | [] | | | |]; try reflexivity; congruence. }
  split.
  { unfold authService.isAuthenticated, bind, Store.getUser, ret.
    rewrite setUser_writes. cbn. destruct u; try reflexivity; congruence. }
  exists users. split; [reflexivity | exact Hfirst].
Qed.


End AuthMore.

Section SidebarFacts.
Context {B : Type}.
Implicit Types (w : world B).

Lemma readable v k : v <> VNull -> v <> VUndefined -> exists y, get_prop v k = Ok y.
Proof.
  destruct v; try congruence; intros _ _; cbn; eauto.
  - destruct (String.eqb k "length"); [eauto |]. destruct (index_of_key k); eauto.
  - destruct (String.eqb k "length"); [eauto |]. destruct (index_of_key k); eauto.
Qed.

Lemma drawable_present user :
  Terms.drawable user = true -> user <> VNull /\ user <> VUndefined.
Proof. destruct user; try discriminate; split; discriminate. Qed.

(** Drawing the sidebar changes nothing, whether it returns or throws. *)
Lemma Sidebar_world w : snd (Sidebar.Sidebar w) = w.
Proof.
  cbv [Sidebar.Sidebar bind Store.getUser get_hash lift ret].
  destruct (get_prop (state_user w) "email") as [email | e]; [| reflexivity].
  destruct (ToString email); [| reflexivity].
  destruct (get_prop (state_user w) "name") as [name | e]; [| reflexivity].
  destruct (ToString name); [| reflexivity].
  destruct (get_prop (state_user w) "role"); reflexivity.
Qed.

(** The sidebar is drawn for every principal whose address and name
    can be printed. *)
Lemma Sidebar_run w :
  Terms.drawable (state_user w) = true ->
  exists email name role,
    get_prop (state_user w) "email" = Ok email
    /\ get_prop (state_user w) "name" = Ok name
    /\ get_prop (state_user w) "role" = Ok role
    /\ Sidebar.Sidebar w
       = (Ok (Sidebar.mkMarkup
                (to_string email) (to_string name)
                (if strict_eq_str role "admin" then "Administrador" else "Usuario")
                (let currentPath := Sidebar.currentPath_of (location_hash w) in
                 [("#/dashboard", Sidebar.isActive currentPath "/dashboard");
                  ("#/students", Sidebar.isActive currentPath "/students");
                  ("#/payments", Sidebar.isActive currentPath "/payments")]
                 ++ (if strict_eq_str role "admin"
                     then [("#/students/create",
                            Sidebar.isActive currentPath "/students/create")]
                     else [])
                 ++ [("#/settings", Sidebar.isActive currentPath "/settings")])%list), w).
Proof.
  intros Hdraw. destruct (drawable_present _ Hdraw) as [Hnull Hundef].
  destruct (readable (state_user w) "role" Hnull Hundef) as (role & Hrole).
  unfold Terms.drawable in Hdraw.
  destruct (get_prop (state_user w) "email") as [email | e] eqn:Hemail; [| discriminate].
  destruct (get_prop (state_user w) "name") as [name | e] eqn:Hname; [| discriminate].
  apply andb_prop in Hdraw as [Hp1 Hp2].
  exists email, name, role. repeat split; try assumption.
  cbv [Sidebar.Sidebar bind Store.getUser get_hash lift ret].
  rewrite Hemail, Hname, Hrole. unfold ToString. rewrite Hp1, Hp2. reflexivity.
Qed.

(** And for no other. *)
Lemma Sidebar_drawn_only w m :
  fst (Sidebar.Sidebar w) = Ok m -> Terms.drawable (state_user w) = true.
Proof.
  cbv [Sidebar.Sidebar bind Store.getUser get_hash lift ret]. unfold Terms.drawable, ToString.
  destruct (get_prop (state_user w) "email") as [email | e]; [| discriminate].
  destruct (printable email); [| discriminate].
  destruct (get_prop (state_user w) "name") as [name | e]; [| discriminate].
  destruct (printable name); [reflexivity | discriminate].
Qed.

End SidebarFacts.

Section GuardFacts.
Context {B : Type} `{Router.EditView B}.
Implicit Types (w : world B).

Lemma isAdmin_run w :
  exists a, authService.isAdmin w = (Ok a, w) /\ truthy a = Terms.admin_user (state_user w).
Proof.
  unfold authService.isAdmin, bind, Store.getUser, ret, lift, Terms.admin_user.
  destruct (truthy (state_user w)) eqn:Htruthy.
  - destruct (get_prop (state_user w) "role") as [r | e] eqn:Hget.
    + exists (VBool (strict_eq_str r "admin")). split; reflexivity.
    + destruct (state_user w); discriminate.
  - exists (state_user w). split; [reflexivity | exact Htruthy].
Qed.

Lemma includes_In l path : Router.includes l path = true <-> In path l.
Proof.
  unfold Router.includes. rewrite existsb_exists. split.
  - intros (x & Hin & Heq). apply String.eqb_eq in Heq. subst. exact Hin.
  - intros Hin. exists path. split; [exact Hin | apply String.eqb_refl].
Qed.

(** The whole decision of [handleRoute], in one equation. *)
Lemma handleRoute_run w :
  let path := Router.path_of_hash (location_hash w) in
  let user := state_user w in
  Router.handleRoute w
  = if Router.includes Router.protectedRoutes path && negb (not_null user)
    then (Ok tt, with_hash "#/login" w)
    else if Router.includes Router.adminRoutes path && negb (Terms.admin_user user)
    then (Ok tt, with_hash "#/not-found" w)
    else if (String.eqb path "/" || String.eqb path "/login") && not_null user
    then (Ok tt, with_hash "#/dashboard" w)
    else Router.render (Router.view_for path) w.
Proof.
  cbv zeta. destruct (isAdmin_run w) as (a & Hadmin & Ha).
  unfold Router.handleRoute, bind, get_hash. cbn zeta.
  set (path := Router.path_of_hash (location_hash w)).
  unfold Router.and_also, Router.not_authenticated, Router.not_admin,
    authService.isAuthenticated, Store.getUser, bind, ret.
  destruct (not_null (state_user w)) eqn:Hnn;
    destruct (Router.includes Router.protectedRoutes path);
    cbn [negb andb]; cbv beta iota; rewrite ?Hnn; cbn [negb andb];
    try reflexivity;
    destruct (Router.includes Router.adminRoutes path); cbn [negb andb];
    cbv beta iota; rewrite ?Hadmin, ?Ha;
    destruct (Terms.admin_user (state_user w)); cbn [negb andb];
    cbv beta iota; rewrite ?Hnn; try reflexivity;
    destruct (String.eqb path "/"); destruct (String.eqb path "/login");
    cbn [orb andb]; cbv beta iota; rewrite ?Hnn; reflexivity.
Qed.

(** A view other than the edit view is called without an error and
    without a change when it draws no sidebar, or when the sidebar can
    be drawn. *)
Lemma call_view_run w view :
  view <> EditStudentView ->
  Terms.drawable (state_user w) = true \/ In view [LoginView; RegisterView; NotFoundView] ->
  Router.call_view view w = (Ok tt, w).
Proof.
  intros Hedit Hdraw.
  destruct view; try reflexivity; try contradiction;
    (destruct Hdraw as [Hdraw | [Hin | [Hin | [Hin | []]]]]; try discriminate Hin);
    destruct (Sidebar_run w Hdraw) as (email & name & role & _ & _ & _ & Hside);
    destruct (isAdmin_run w) as (a & Hadmin & _);
    unfold Router.call_view, bind; rewrite ?Hadmin, Hside; reflexivity.
Qed.

Lemma render_view w view :
  view <> EditStudentView ->
  Terms.drawable (state_user w) = true \/ In view [LoginView; RegisterView; NotFoundView] ->
  Router.render (Router.View view) w = (Ok tt, with_app view w).
Proof.
  intros Hedit Hdraw. unfold Router.render, bind.
  rewrite (call_view_run w view Hedit Hdraw). reflexivity.
Qed.


(** No inherited member has a name that begins with a slash. *)
Lemma view_for_unknown path :
  Spec.is_prefix "/" path = true ->
  Router.routes !! path = None ->
  Router.view_for path = Router.View NotFoundView.
Proof.
  intros Hslash Hnone. unfold Router.view_for. rewrite Hnone.
  destruct path as [| c rest]; [discriminate Hslash |].
  cbn [Spec.is_prefix] in Hslash. apply andb_prop in Hslash as [Hc _].
  apply Ascii.eqb_eq in Hc. subst c. reflexivity.
Qed.

Lemma not_null_spec v : not_null v = true <-> v <> VNull.
Proof. destruct v; cbn; split; intros; congruence. Qed.

Lemma admin_user_spec v :
  Terms.admin_user v = true <-> get_prop v "role" = Ok (VStr "admin").
Proof.
  unfold Terms.admin_user. split.
  - intros Hadmin. apply andb_prop in Hadmin as [_ Hrole].
    destruct (get_prop v "role") as [r | e]; [| discriminate].
    destruct r; try discriminate. cbn in Hrole.
    apply String.eqb_eq in Hrole. subst. reflexivity.
  - intros Hrole. rewrite Hrole. cbn.
    destruct v as [| | b | m e | s | l | o]; try discriminate; reflexivity.
Qed.

Lemma protected_in_table path :
  In path Router.protectedRoutes -> Router.routes !! path <> None.
Proof. intros [<- | [<- | [<- | [<- | [<- | []]]]]]; vm_compute; discriminate. Qed.

Lemma admin_is_protected path :
  In path Router.adminRoutes -> In path Router.protectedRoutes.
Proof. intros [<- | [<- | []]]; cbn; tauto. Qed.

(** X13. Every protected route, not only the admin ones, sends a visitor
    without a session to ['#/login'] and renders nothing. *)
Theorem protected_route_without_session_goes_to_login w :
  In (Router.path_of_hash (location_hash w)) Router.protectedRoutes ->
  state_user w = VNull ->
  Router.handleRoute w = (Ok tt, with_hash "#/login" w).
Proof.
  intros Hpath Huser. rewrite handleRoute_run. cbv zeta.
  apply includes_In in Hpath. rewrite Hpath, Huser. reflexivity.
Qed.

(** X14. A signed-in visitor of ['/'], ['/login'] or the empty hash is sent
    to ['#/dashboard']; the login view is not rendered. *)
Theorem signed_in_on_login_goes_to_dashboard w :
  Router.path_of_hash (location_hash w) = "/"
  \/ Router.path_of_hash (location_hash w) = "/login" ->
  state_user w <> VNull ->
  Router.handleRoute w = (Ok tt, with_hash "#/dashboard" w).
Proof.
  intros Hpath Huser. rewrite handleRoute_run. cbv zeta.
  apply not_null_spec in Huser. rewrite Huser.
  destruct Hpath as [-> | ->]; cbn;
    destruct (Terms.admin_user (state_user w)); reflexivity.
Qed.

(** X15. [handleRoute] either redirects to one of three targets and
    renders nothing, or hands to [render] what [this.routes[path]]
    finds for the path (the view of the table, a member the table
    inherits, or the not-found view) and does nothing else; and it
    goes on to [render] for a protected path only when a principal is
    present, for an admin path only when that principal's role reads
    ['admin']. *)
Theorem handleRoute_renders_only_when_allowed w :
  let path := Router.path_of_hash (location_hash w) in
  (exists target, In target Terms.redirect_targets
                  /\ Router.handleRoute w = (Ok tt, with_hash target w))
  \/ (Router.handleRoute w = Router.render (Router.view_for path) w
      /\ (In path Router.protectedRoutes -> state_user w <> VNull)
      /\ (In path Router.adminRoutes ->
          get_prop (state_user w) "role" = Ok (VStr "admin"))).
Proof.
  cbv zeta. rewrite handleRoute_run. cbv zeta.
  set (path := Router.path_of_hash (location_hash w)).
  destruct (Router.includes Router.protectedRoutes path && negb (not_null (state_user w)))
    eqn:Hlogin.
  { left. exists "#/login". split; [cbn; tauto | reflexivity]. }
  destruct (Router.includes Router.adminRoutes path
            && negb (Terms.admin_user (state_user w))) eqn:Hforbidden.
  { left. exists "#/not-found". split; [cbn; tauto | reflexivity]. }
  destruct ((String.eqb path "/" || String.eqb path "/login") && not_null (state_user w)).
  { left. exists "#/dashboard". split; [cbn; tauto | reflexivity]. }
  right. split; [reflexivity |]. split.
  - intros Hpath. apply includes_In in Hpath. rewrite Hpath in Hlogin.
    apply not_null_spec. destruct (not_null (state_user w)); [reflexivity | discriminate].
  - intros Hpath. apply includes_In in Hpath. rewrite Hpath in Hforbidden.
    apply admin_user_spec.
    destruct (Terms.admin_user (state_user w)); [reflexivity | discriminate].
Qed.


(** X17. A path that begins with a slash and has no entry in the table
    renders the not-found view, with or without a session: no redirect,
    no error.  So does the sidebar's ['#/settings'] link. *)
Theorem unknown_path_renders_not_found w :
  let path := Router.path_of_hash (location_hash w) in
  Spec.is_prefix "/" path = true ->
  Router.routes !! path = None ->
  Router.handleRoute w = (Ok tt, with_app NotFoundView w).
Proof.
  cbv zeta. intros Hslash Hnone. rewrite handleRoute_run. cbv zeta.
  set (path := Router.path_of_hash (location_hash w)) in *.
  assert (Hprot : Router.includes Router.protectedRoutes path = false).
  { destruct (Router.includes Router.protectedRoutes path) eqn:Hin; [| reflexivity].
    apply includes_In, protected_in_table in Hin. contradiction. }
  assert (Hadm : Router.includes Router.adminRoutes path = false).
  { destruct (Router.includes Router.adminRoutes path) eqn:Hin; [| reflexivity].
    apply includes_In, admin_is_protected, protected_in_table in Hin. contradiction. }
  assert (Hroot : String.eqb path "/" = false).
  { apply String.eqb_neq. intros Heq. rewrite Heq in Hnone. discriminate Hnone. }
  assert (Hlogin : String.eqb path "/login" = false).
  { apply String.eqb_neq. intros Heq. rewrite Heq in Hnone. discriminate Hnone. }
  rewrite Hprot, Hadm, Hroot, Hlogin, (view_for_unknown path Hslash Hnone).
  reflexivity.
Qed.

(** X18. No redirect loop: either [handleRoute] makes no redirect and
    goes on to [render], or the hash really changes, nothing is
    rendered, and the run that change triggers redirects no further:
    it goes on to [render] with the login view, the not-found view or
    the dashboard.  The first two are then shown; the dashboard is
    shown when the sidebar can be drawn for the principal. *)
Theorem redirect_settles_in_one_step w :
  let w1 := snd (Router.handleRoute w) in
  Router.handleRoute w
  = Router.render (Router.view_for (Router.path_of_hash (location_hash w))) w
  \/ (location_hash w1 <> location_hash w
      /\ app w1 = app w
      /\ exists view, In view [LoginView; NotFoundView; DashboardView]
                      /\ Router.handleRoute w1 = Router.render (Router.View view) w1
                      /\ (Terms.drawable (state_user w) = true \/ view <> DashboardView ->
                          Router.handleRoute w1 = (Ok tt, with_app view w1))).
Proof.
  cbv zeta. rewrite handleRoute_run. cbv zeta.
  set (path := Router.path_of_hash (location_hash w)).
  destruct (Router.includes Router.protectedRoutes path && negb (not_null (state_user w)))
    eqn:Hlogin.
  { right. apply andb_prop in Hlogin as [Hprot Hnull]. cbn [snd].
    split; [| split; [reflexivity |]].
    - cbn. intros Heq. subst path. rewrite <- Heq in Hprot. discriminate Hprot.
    - exists LoginView. split; [cbn; tauto |].
      assert (Hnext : Router.handleRoute (with_hash "#/login" w)
                      = Router.render (Router.View LoginView) (with_hash "#/login" w)).
      { rewrite handleRoute_run. cbv zeta. cbn [location_hash state_user with_hash].
        destruct (not_null (state_user w)); [discriminate Hnull | reflexivity]. }
      split; [exact Hnext | intros _; rewrite Hnext; reflexivity]. }
  destruct (Router.includes Router.adminRoutes path
            && negb (Terms.admin_user (state_user w))) eqn:Hforbidden.
  { right. apply andb_prop in Hforbidden as [Hadm _]. cbn [snd].
    split; [| split; [reflexivity |]].
    - cbn. intros Heq. subst path. rewrite <- Heq in Hadm. discriminate Hadm.
    - exists NotFoundView. split; [cbn; tauto |].
      assert (Hnext : Router.handleRoute (with_hash "#/not-found" w)
                      = Router.render (Router.View NotFoundView)
                                      (with_hash "#/not-found" w)).
      { rewrite handleRoute_run. reflexivity. }
      split; [exact Hnext | intros _; rewrite Hnext; reflexivity]. }
  destruct ((String.eqb path "/" || String.eqb path "/login") && not_null (state_user w))
    eqn:Hdash.
  { right. apply andb_prop in Hdash as [Hpage Huser]. cbn [snd].
    split; [| split; [reflexivity |]].
    - cbn. intros Heq. subst path. rewrite <- Heq in Hpage. discriminate Hpage.
    - exists DashboardView. split; [cbn; tauto |].
      assert (Hnext : Router.handleRoute (with_hash "#/dashboard" w)
                      = Router.render (Router.View DashboardView)
                                      (with_hash "#/dashboard" w)).
      { rewrite handleRoute_run. cbv zeta. cbn [location_hash state_user with_hash].
        rewrite Huser.
        change (Router.path_of_hash "#/dashboard") with "/dashboard".
        destruct (Terms.admin_user (state_user w)); reflexivity. }
      split; [exact Hnext |].
      intros [Hdraw | Hother]; [| congruence].
      rewrite Hnext. apply render_view; [discriminate | left; exact Hdraw]. }
  left. reflexivity.
Qed.
End GuardFacts.

Section SessionFlow.
Context {B : Type} `{Backend B}.
Implicit Types (w : world B).

Lemma call_world op path data w :
  snd (Spec.call op path data w)
  = with_exchange (Spec.request_of op path data)
                  (snd (handle (Spec.request_of op path data) (backend w))) w.
Proof.
  rewrite call_run. cbv zeta.
  destruct (fst (handle _ _)) as [r | e]; [destruct (ok r) |]; reflexivity.
Qed.

(** X9. For a form whose address can be printed into the lookup's path
    (a text, a number, anything but an object that has no text), a
    lookup that finds any record stops [register]: it resolves to the
    failure ['El email ya está registrado'], sends no creation request
    and leaves the session store as it was. *)
Theorem register_refuses_known_address userData email w r b' first others :
  get_prop userData "email" = Ok email ->
  printable email = true ->
  handle (Spec.precheck_request email) (backend w) = (Responds r, b') ->
  ok r = true ->
  JSON.parse (body r) = Ok (VArr (first :: others)) ->
  authService.register userData w
  = (Ok (authService.Failure "El email ya está registrado"),
     with_exchange (Spec.precheck_request email) b' w).
Proof.
  intros Hemail Hprintable Hhandle Hok Hparse. rewrite register_run. cbv zeta.
  rewrite Hemail, Hprintable.
  rewrite get_run, call_run. cbv zeta.
  change (Spec.request_of Spec.Read ("/users?email=" ++ to_string email) VUndefined)
    with (Spec.precheck_request email).
  rewrite Hhandle. cbn [fst snd]. rewrite Hok. cbn [Spec.resolved fst snd].
  rewrite Hparse. reflexivity.
Qed.

(** X10. Whenever [register] reports success, the new user is signed in at
    once: the session store holds the user it returns and the slot that
    user's JSON text; and the two requests it made are the duplicate
    check and the creation of the form with its role defaulted. *)
Theorem register_success_holds_session userData w user :
  fst (authService.register userData w) = Ok (authService.Success user) ->
  let w' := snd (authService.register userData w) in
  state_user w' = user
  /\ localStorage w' !! "currentUser" = JSON.stringify user
  /\ authService.isAuthenticated w' = (Ok true, w')
  /\ exists email,
       get_prop userData "email" = Ok email
       /\ Spec.issued w w'
          = [Spec.precheck_request email;
             Spec.request_of Spec.Create "/users"
               (authService.new_user_data userData (Spec.role_of userData))].
Proof.
  cbv zeta. rewrite register_run. cbv zeta.
  destruct (get_prop userData "email") as [email | e]; [| discriminate].
  destruct (printable email); [| discriminate].
  destruct (fst (apiService.get _ w)) as [existing | e]; [| discriminate].
  destruct (get_prop existing "length") as [len | e]; [| discriminate].
  destruct (greater_than_zero len) as [[|] | e]; [discriminate | | discriminate].
  destruct (fst (apiService.post _ _ _)) as [newUser | e]; [| discriminate].
  destruct (get_prop newUser "name") as [x | e] eqn:Hname; [| discriminate].
  cbn [fst snd]. intros [= <-].
  destruct (readable_truthy_or_not newUser "name" x Hname) as [Hnull Hundef].
  split; [rewrite setUser_writes; reflexivity |].
  split.
  { rewrite setUser_slot. destruct newUser as [| | [] | | | |]; try reflexivity; congruence. }
  split.
  { unfold authService.isAuthenticated, bind, Store.getUser, ret.
    rewrite setUser_writes. cbn. destruct newUser; try reflexivity; congruence. }
  exists email. split; [reflexivity |].
  rewrite issued_after_setUser.
  change (apiService.post "/users"
            (authService.new_user_data userData (Spec.role_of userData)))
    with (Spec.call Spec.Create "/users"
            (authService.new_user_data userData (Spec.role_of userData))).
  rewrite get_run, !call_world. apply issued_two.
Qed.

End SessionFlow.

Section RoleChecks.
Context {B : Type} `{Router.EditView B}.
Implicit Types (w : world B).

(** X11. [isAdmin()] and [isAuthenticated()] read the store and change
    nothing; an admin is always authenticated, and with no principal
    both are falsy. *)
Theorem admin_is_authenticated w :
  exists admin,
    authService.isAdmin w = (Ok admin, w)
    /\ authService.isAuthenticated w = (Ok (not_null (state_user w)), w)
    /\ (truthy admin = true -> not_null (state_user w) = true)
    /\ (state_user w = VNull -> truthy admin = false).
Proof.
  destruct (isAdmin_run w) as (a & Hrun & Ha). exists a.
  split; [exact Hrun |]. split; [reflexivity |]. rewrite Ha. split.
  - unfold Terms.admin_user. destruct (state_user w); try discriminate; reflexivity.
  - intros ->. reflexivity.
Qed.

(** X12. [logout()] from any page and any session: the principal and the
    slot are gone, the address is ['#/login'], and the route change
    that follows renders the login view; a later reload finds no
    session either. *)
Theorem logout_lands_on_login w :
  let w1 := snd (authService.logout w) in
  authService.logout w = (Ok tt, w1)
  /\ state_user w1 = VNull
  /\ localStorage w1 !! "currentUser" = None
  /\ location_hash w1 = "#/login"
  /\ Router.handleRoute w1 = (Ok tt, with_app LoginView w1)
  /\ Store.init (reload w1) = (Ok tt, reload w1).
Proof.
  cbv zeta.
  assert (Hslot : localStorage (snd (authService.logout w)) !! "currentUser" = None)
    by (cbn; apply lookup_delete_eq).
  split; [reflexivity |]. split; [reflexivity |]. split; [exact Hslot |].
  split; [reflexivity |]. split.
  - rewrite handleRoute_run. reflexivity.
  - apply init_absent. exact Hslot.
Qed.

End RoleChecks.

Section Chars.
Local Open Scope list_scope.

Lemma chars_app a b : chars (a ++ b)%string = chars a ++ chars b.
Proof.
  unfold chars. induction a as [| c a IH]; [reflexivity |].
  change (list_ascii_of_string (String c a ++ b)%string)
    with (c :: list_ascii_of_string (a ++ b)%string).
  rewrite IH. reflexivity.
Qed.

Lemma chars_str cs : chars (str cs) = cs.
Proof. apply list_ascii_of_string_of_list_ascii. Qed.

Lemma str_chars s : str (chars s) = s.
Proof. apply string_of_list_ascii_of_string. Qed.

Lemma str_app a b : str (a ++ b) = (str a ++ str b)%string.
Proof. rewrite <- (str_chars (str a ++ str b)), chars_app, !chars_str. reflexivity. Qed.

(** An escape [\u00XX] of a code unit that is no high surrogate reads
    back as that one character, whatever follows. *)
Lemma plain_unicode_escape a b c d hi rest acc :
  JSON.hex4 a b c d = Some hi ->
  JSON.is_high_surrogate hi = false ->
  JSON.parse_string_body (JSON.backslash :: "u"%char :: a :: b :: c :: d :: rest) acc
  = JSON.parse_string_body rest (rev (JSON.utf8_encode hi) ++ acc).
Proof.
  intros Hhex Hhigh. cbn [JSON.parse_string_body].
  change (Ascii.eqb JSON.backslash JSON.dquote) with false.
  change (Ascii.eqb JSON.backslash JSON.backslash) with true.
  change (JSON.simple_escape "u") with (@None ascii).
  change (Ascii.eqb "u" "u") with true. cbv iota. rewrite Hhex.
  destruct rest as [| b1 [| u1 [| a1 [| b2 [| c1 [| d1 rest2]]]]]]; try reflexivity.
  destruct (JSON.low_surrogate_escape b1 u1 a1 b2 c1 d1); [| reflexivity].
  rewrite Hhigh. reflexivity.
Qed.

(** What [quote] writes for one character, the parser reads back as
    that character. *)
Lemma quote_char_parses c rest acc :
  JSON.parse_string_body (JSON.quote_char c ++ rest) acc
  = JSON.parse_string_body rest (c :: acc).
Proof.
  destruct c as [b0 b1 b2 b3 b4 b5 b6 b7].
  destruct b0, b1, b2, b3, b4, b5, b6, b7;
    first [ reflexivity
          | match goal with
            | |- context [JSON.quote_char ?c] =>
                let t := eval vm_compute in (JSON.quote_char c) in
                match t with
                | [_; _; _; _; ?x; ?y] =>
                    let h := eval vm_compute in (JSON.hex4 "0" "0" x y) in
                    match h with
                    | Some ?hi =>
                        exact (plain_unicode_escape "0" "0" x y hi rest acc eq_refl eq_refl)
                    end
                end
            end ].
Qed.


Lemma quoted_parses cs rest acc :
  JSON.parse_string_body (flat_map JSON.quote_char cs ++ JSON.dquote :: rest) acc
  = Some (str (rev acc ++ cs), rest).
Proof.
  revert acc. induction cs as [| c cs IH]; intros acc.
  - cbn. rewrite app_nil_r. reflexivity.
  - cbn [flat_map]. rewrite <- app_assoc, quote_char_parses, IH.
    cbn [rev]. rewrite <- app_assoc. reflexivity.
Qed.

Lemma chars_quote s :
  chars (JSON.quote s) = JSON.dquote :: flat_map JSON.quote_char (chars s) ++ [JSON.dquote].
Proof. unfold JSON.quote. apply chars_str. Qed.

(** A quoted string, read from just after its opening quote. *)
Lemma quote_parses s :
  exists body,
    chars (JSON.quote s) = JSON.dquote :: body
    /\ forall rest, JSON.parse_string_body (body ++ rest) [] = Some (s, rest).
Proof.
  exists (flat_map JSON.quote_char (chars s) ++ [JSON.dquote]).
  split; [apply chars_quote |]. intros rest'.
  rewrite <- app_assoc. change ([JSON.dquote] ++ rest') with (JSON.dquote :: rest').
  rewrite quoted_parses. change (rev [] ++ chars s) with (chars s).
  rewrite str_chars. reflexivity.
Qed.

Lemma chars_join_cons sep s t l :
  chars (join sep (s :: t :: l)) = chars s ++ chars sep ++ chars (join sep (t :: l)).
Proof.
  change (join sep (s :: t :: l)) with (s ++ sep ++ join sep (t :: l))%string.
  rewrite !chars_app. reflexivity.
Qed.

End Chars.

Section Digits.
Local Open Scope list_scope.

Lemma digits_acc d : forall acc,
  fold_left shift (chars (NilEmpty.string_of_uint d)) (Z.pos acc)
  = Z.pos (Pos.of_uint_acc d acc).
Proof.
  induction d as [| d IH | d IH | d IH | d IH | d IH | d IH | d IH | d IH | d IH | d IH];
    intros acc; [reflexivity | ..];
    cbn [NilEmpty.string_of_uint chars list_ascii_of_string fold_left Pos.of_uint_acc];
    fold (chars (NilEmpty.string_of_uint d)); rewrite <- IH; f_equal;
    unfold shift, digit_val; cbn [nat_of_ascii]; vm_compute (Z.of_nat _); lia.
Qed.

Lemma digits_val_uint d :
  digits_val (chars (NilEmpty.string_of_uint d)) = Z.of_N (Pos.of_uint d).
Proof.
  unfold digits_val. fold shift.
  induction d as [| d IH | d IH | d IH | d IH | d IH | d IH | d IH | d IH | d IH | d IH];
    [reflexivity | exact IH | ..];
    cbn [NilEmpty.string_of_uint chars list_ascii_of_string fold_left Pos.of_uint];
    fold (chars (NilEmpty.string_of_uint d)); apply (digits_acc d).
Qed.

Lemma uint_digits d : forallb is_digit (chars (NilEmpty.string_of_uint d)) = true.
Proof. induction d; [reflexivity | exact IHd ..]. Qed.

Lemma digits_of_uint n :
  digits_of n = NilEmpty.string_of_uint (N.to_uint (Z.to_N n))
  /\ Decimal.unorm (N.to_uint (Z.to_N n)) = N.to_uint (Z.to_N n).
Proof.
  split.
  - unfold digits_of, NilZero.string_of_uint.
    destruct (N.to_uint (Z.to_N n)) eqn:Hd; try reflexivity.
    destruct (Z.to_N n) as [| p]; [discriminate Hd |].
    destruct (DecimalPos.Unsigned.to_uint_nonnil p Hd).
  - rewrite <- DecimalN.Unsigned.to_of, DecimalN.Unsigned.of_to. reflexivity.
Qed.

(** The decimal digits of a natural number spell that number. *)
Lemma digits_of_val n : 0 <= n -> digits_val (chars (digits_of n)) = n.
Proof.
  intros Hn. rewrite (proj1 (digits_of_uint n)), digits_val_uint.
  change (Pos.of_uint (N.to_uint (Z.to_N n))) with (N.of_uint (N.to_uint (Z.to_N n))).
  rewrite DecimalN.Unsigned.of_to. apply Z2N.id, Hn.
Qed.

Lemma digits_of_digits n : forallb is_digit (chars (digits_of n)) = true.
Proof. rewrite (proj1 (digits_of_uint n)). apply uint_digits. Qed.

(** They start with no zero, unless they are the one digit of zero. *)
Lemma digits_of_head n :
  exists d more,
    chars (digits_of n) = d :: more
    /\ (Ascii.eqb d "0" && negb (is_nil more) = false)
    /\ (Ascii.eqb d "0" = true -> n <= 0).
Proof.
  destruct (digits_of_uint n) as [-> Hnorm].
  pose proof (DecimalN.Unsigned.of_to (Z.to_N n)) as Hof.
  pose proof (DecimalFacts.nzhead_nonzero (N.to_uint (Z.to_N n))) as Hnz.
  unfold Decimal.unorm in Hnorm.
  destruct (N.to_uint (Z.to_N n)) as [| u | u | u | u | u | u | u | u | u | u];
    [discriminate Hnorm | | eexists _, _; repeat split; discriminate ..].
  cbn [Decimal.nzhead] in Hnorm, Hnz.
  destruct (Decimal.nzhead u) eqn:Hh; try discriminate Hnorm;
    [| destruct (Hnz _ eq_refl)].
  injection Hnorm as <-. exists "0"%char, []. repeat split.
  intros _. cbn in Hof. lia.
Qed.

Lemma digit_range c : is_digit c = true -> 0 <= digit_val c <= 9.
Proof.
  unfold is_digit, digit_val. intros Hc. apply andb_prop in Hc as [Hlo Hhi].
  apply Nat.leb_le in Hlo, Hhi. lia.
Qed.

Lemma digit_positive c : is_digit c = true -> Ascii.eqb c "0" = false -> 1 <= digit_val c.
Proof.
  intros Hc Hz. pose proof (digit_range c Hc) as Hr.
  destruct (Z.eq_dec (digit_val c) 0) as [H0 |]; [| lia].
  apply Ascii.eqb_neq in Hz. destruct Hz.
  rewrite <- (ascii_nat_embedding c). unfold digit_val in H0.
  replace (nat_of_ascii c) with 48%nat by lia. reflexivity.
Qed.

Lemma shift_grows cs : forallb is_digit cs = true ->
  forall acc, 0 <= acc -> acc * 10 ^ Z.of_nat (length cs) <= fold_left shift cs acc.
Proof.
  induction cs as [| c cs IH]; intros Hcs acc Hacc.
  - cbn. lia.
  - cbn [forallb] in Hcs. apply andb_prop in Hcs as [Hc Hcs].
    pose proof (digit_range c Hc) as Hr.
    cbn [fold_left length]. rewrite Nat2Z.inj_succ, Z.pow_succ_r by lia.
    specialize (IH Hcs (shift acc c)). unfold shift in IH |- *.
    assert (0 <= 10 ^ Z.of_nat (length cs)) by (apply Z.pow_nonneg; lia).
    nia.
Qed.

(** A natural number below [10^21] has at most 21 digits. *)
Lemma digits_of_length n :
  0 <= n < 10 ^ 21 -> (length (chars (digits_of n)) <= 21)%nat.
Proof.
  intros Hn. destruct (digits_of_head n) as (d & more & Hc & Hlead & _).
  pose proof (digits_of_val n (proj1 Hn)) as Hval.
  pose proof (digits_of_digits n) as Hdig. rewrite Hc in Hval, Hdig |- *.
  cbn [forallb] in Hdig. apply andb_prop in Hdig as [Hd Hmore].
  destruct (Ascii.eqb d "0") eqn:Hz.
  - destruct more; [cbn; lia | discriminate Hlead].
  - pose proof (digit_positive d Hd Hz) as Hpos.
    unfold digits_val in Hval. fold shift in Hval. cbn [fold_left] in Hval.
    pose proof (shift_grows more Hmore (shift 0 d)) as Hgrow.
    rewrite Hval in Hgrow. unfold shift in Hgrow.
    assert (Hlt : 10 ^ Z.of_nat (length more) < 10 ^ 21).
    { assert (0 < 10 ^ Z.of_nat (length more)) by (apply Z.pow_pos_nonneg; lia).
      destruct Hn as [_ Hn]. revert Hn Hgrow H Hpos.
      generalize (10 ^ Z.of_nat (length more)) (10 ^ 21) (digit_val d). intros. nia. }
    apply Z.pow_lt_mono_r_iff in Hlt; [| lia | lia]. cbn [length]. lia.
Qed.

Lemma strip_spec l : forall e rd e',
  strip_trailing_zeros_rev l e = (rd, e') ->
  exists z, l = repeat "0"%char z ++ rd /\ e' = e + Z.of_nat z.
Proof.
  induction l as [| c l IH]; intros e rd e' Hs.
  - injection Hs as <- <-. exists 0%nat. split; [reflexivity | lia].
  - destruct (Ascii.eqb_spec c "0") as [-> | Hne].
    + cbn [strip_trailing_zeros_rev] in Hs. apply IH in Hs as (z & -> & ->).
      exists (S z). split; [reflexivity | lia].
    + assert (Hstop : strip_trailing_zeros_rev (c :: l) e = (c :: l, e)).
      { destruct c as [[] [] [] [] [] [] [] []]; try reflexivity. destruct Hne. reflexivity. }
      rewrite Hstop in Hs. injection Hs as <- <-. exists 0%nat. split; [reflexivity | lia].
Qed.

Lemma rev_zeros z : rev (repeat "0"%char z) = repeat "0"%char z.
Proof.
  induction z as [| z IH]; [reflexivity |].
  cbn [repeat rev]. rewrite IH. symmetry. apply repeat_cons.
Qed.

(** An integer of at most 21 digits prints as its sign and digits. *)
Lemma number_to_string_int m :
  m <> 0 -> Z.abs m < 10 ^ 21 ->
  number_to_string m 0 = ((if (m <? 0)%Z then "-" else "") ++ digits_of (Z.abs m))%string.
Proof.
  intros Hm Hlt. unfold number_to_string. rewrite (proj2 (Z.eqb_neq m 0) Hm).
  pose proof (digits_of_length (Z.abs m) ltac:(lia)) as Hlen.
  destruct (strip_trailing_zeros_rev (rev (chars (digits_of (Z.abs m)))) 0)
    as [rd e'] eqn:Hs.
  apply strip_spec in Hs as (z & Hrev & ->).
  apply (f_equal (@rev ascii)) in Hrev.
  rewrite rev_involutive, rev_app_distr, rev_zeros in Hrev.
  rewrite Hrev, length_app, repeat_length in Hlen.
  cbv zeta.
  replace (Z.of_nat (length (rev rd)) <=? Z.of_nat (length (rev rd)) + (0 + Z.of_nat z))
    with true by (symmetry; apply Z.leb_le; lia).
  replace (Z.of_nat (length (rev rd)) + (0 + Z.of_nat z) <=? 21)
    with true by (symmetry; apply Z.leb_le; lia).
  cbn [andb]. f_equal. unfold zeros.
  replace (Z.to_nat (Z.of_nat (length (rev rd)) + (0 + Z.of_nat z)
                     - Z.of_nat (length (rev rd)))) with z by lia.
  rewrite <- str_app, <- Hrev. apply str_chars.
Qed.

Lemma span_digits ds rest :
  forallb is_digit ds = true -> ends_value rest = true ->
  span is_digit (ds ++ rest) = (ds, rest).
Proof.
  intros Hds Hrest. induction ds as [| d ds IH].
  - destruct rest as [| c rest]; [reflexivity |]. rewrite app_nil_l. cbn [span].
    cbn [ends_value] in Hrest.
    destruct (Ascii.eqb_spec c ",") as [-> |]; [reflexivity |].
    destruct (Ascii.eqb_spec c "]") as [-> |]; [reflexivity |].
    destruct (Ascii.eqb_spec c "}") as [-> |]; [reflexivity | discriminate Hrest].
  - cbn [forallb] in Hds. apply andb_prop in Hds as [Hd Hds].
    rewrite <- app_comm_cons. cbn [span]. rewrite Hd, (IH Hds). reflexivity.
Qed.

Lemma after_value rest :
  ends_value rest = true ->
  JSON.take "." rest = None /\ JSON.take "e" rest = None /\ JSON.take "E" rest = None.
Proof.
  intros Hrest. destruct rest as [| c rest]; [repeat split |].
  cbn [ends_value] in Hrest.
  destruct (Ascii.eqb_spec c ",") as [-> |]; [repeat split |].
  destruct (Ascii.eqb_spec c "]") as [-> |]; [repeat split |].
  destruct (Ascii.eqb_spec c "}") as [-> |]; [repeat split | discriminate Hrest].
Qed.

Lemma parse_unsigned_digits neg n rest :
  0 <= n -> ends_value rest = true ->
  JSON.parse_unsigned neg (chars (digits_of n) ++ rest)
  = Some (VNum (if neg then - n else n) 0, rest).
Proof.
  intros Hn Hrest. unfold JSON.parse_unsigned.
  rewrite (span_digits _ rest (digits_of_digits n) Hrest).
  pose proof (digits_of_val n Hn) as Hval.
  destruct (digits_of_head n) as (d & more & Hc & Hlead & _).
  rewrite Hc in Hval |- *. rewrite Hlead.
  destruct (after_value rest Hrest) as (Hdot & He & HE).
  unfold JSON.parse_fraction, JSON.parse_exponent. rewrite Hdot, He, HE.
  cbn [JSON.either]. rewrite app_nil_r, Hval. reflexivity.
Qed.

(** A digit or a minus sign opens a number and nothing else. *)
Lemma parse_value_numeric f c cs :
  is_digit c || Ascii.eqb c "-" = true ->
  JSON.parse_value (S f) (c :: cs) = JSON.of_option (JSON.parse_number (c :: cs))
  /\ JSON.skip_ws (c :: cs) = c :: cs
  /\ JSON.take "]" (c :: cs) = None
  /\ JSON.take "," (c :: cs) = None.
Proof.
  intros Hc. destruct c as [[] [] [] [] [] [] [] []];
    vm_compute in Hc; try discriminate Hc; repeat split; reflexivity.
Qed.

Lemma number_head m :
  Z.abs m < 10 ^ 21 ->
  exists c cs, chars (number_to_string m 0) = c :: cs
               /\ is_digit c || Ascii.eqb c "-" = true.
Proof.
  intros Hlt. destruct (Z.eq_dec m 0) as [-> | Hm].
  { exists "0"%char, []. split; reflexivity. }
  rewrite (number_to_string_int m Hm Hlt), chars_app.
  destruct (m <? 0).
  - exists "-"%char, (chars (digits_of (Z.abs m))). split; reflexivity.
  - pose proof (digits_of_digits (Z.abs m)) as Hdig.
    destruct (digits_of_head (Z.abs m)) as (d & more & Hc & _).
    rewrite Hc in Hdig |- *. cbn [forallb] in Hdig. apply andb_prop in Hdig as [Hd _].
    exists d, more. split; [reflexivity |]. rewrite Hd. reflexivity.
Qed.

(** The text of an integer of at most 21 digits reads back as it. *)
Lemma parse_number_int m rest :
  Z.abs m < 10 ^ 21 -> ends_value rest = true ->
  JSON.parse_number (chars (number_to_string m 0) ++ rest) = Some (VNum m 0, rest).
Proof.
  intros Hlt Hrest. destruct (Z.eq_dec m 0) as [-> | Hm].
  { apply (parse_unsigned_digits false 0 rest); [lia | exact Hrest]. }
  rewrite (number_to_string_int m Hm Hlt), chars_app. unfold JSON.parse_number.
  destruct (m <? 0) eqn:Hneg.
  - change ((chars "-" ++ chars (digits_of (Z.abs m))) ++ rest)
      with ("-"%char :: chars (digits_of (Z.abs m)) ++ rest).
    cbn [JSON.take]. change (Ascii.eqb "-" "-") with true. cbv iota.
    rewrite parse_unsigned_digits by (lia || exact Hrest).
    apply Z.ltb_lt in Hneg. repeat f_equal. lia.
  - change (chars "" ++ chars (digits_of (Z.abs m))) with (chars (digits_of (Z.abs m))).
    pose proof (digits_of_digits (Z.abs m)) as Hdig.
    destruct (digits_of_head (Z.abs m)) as (d & more & Hc & _).
    assert (Hminus : JSON.take "-" (chars (digits_of (Z.abs m)) ++ rest) = None).
    { rewrite Hc in Hdig |- *. cbn [forallb] in Hdig. apply andb_prop in Hdig as [Hd _].
      rewrite <- app_comm_cons. cbn [JSON.take]. destruct (Ascii.eqb_spec d "-") as [-> |]; [discriminate Hd | reflexivity]. }
    rewrite Hminus, parse_unsigned_digits by (lia || exact Hrest).
    apply Z.ltb_ge in Hneg. repeat f_equal. lia.
Qed.

Lemma parse_value_int f m rest :
  Z.abs m < 10 ^ 21 -> ends_value rest = true ->
  JSON.parse_value (S f) (chars (number_to_string m 0) ++ rest)
  = JSON.Parsed (VNum m 0) rest.
Proof.
  intros Hlt Hrest. pose proof (parse_number_int m rest Hlt Hrest) as Hnum.
  destruct (number_head m Hlt) as (c & cs & Hc & Hhead). rewrite Hc in Hnum |- *.
  rewrite <- app_comm_cons in Hnum |- *.
  rewrite (proj1 (parse_value_numeric f c (cs ++ rest) Hhead)), Hnum. reflexivity.
Qed.

End Digits.

Section RoundTrip.
Local Open Scope list_scope.

Lemma stringify_defined v : v <> VUndefined -> exists t, JSON.stringify v = Some t.
Proof. destruct v as [| | [] | | | |]; intros Hv; try contradiction; cbn; eauto. Qed.

Lemma plain_defined v : plain v = true -> v <> VUndefined.
Proof. destruct v; discriminate. Qed.

Lemma chars_join_texts l :
  chars (join "," (map (fun x => default "null" (JSON.stringify x)) l)) = elements_text l.
Proof.
  induction l as [| x [| y l] IH]; [reflexivity | reflexivity |].
  change (map _ (x :: y :: l))
    with (default "null" (JSON.stringify x)
          :: map (fun x => default "null" (JSON.stringify x)) (y :: l)).
  cbn [map] in IH |- *. rewrite chars_join_cons. cbn [map] in IH. rewrite IH. reflexivity.
Qed.

Lemma text_array l : text (VArr l) = "["%char :: elements_text l ++ ["]"%char].
Proof.
  unfold text. cbn [JSON.stringify default from_option id].
  rewrite !chars_app, chars_join_texts. reflexivity.
Qed.

Lemma members_items o :
  forallb (fun kv => plain (snd kv)) o = true ->
  flat_map (fun kv => match JSON.stringify (snd kv) with
                      | Some t => [(JSON.quote (fst kv) ++ ":" ++ t)%string]
                      | None => []
                      end) o
  = map (fun kv => (JSON.quote (fst kv) ++ ":" ++ default "null" (JSON.stringify (snd kv)))%string) o.
Proof.
  induction o as [| [k x] o IH]; [reflexivity |]. cbn [forallb flat_map map fst snd].
  intros Hall. apply andb_prop in Hall as [Hx Ho].
  destruct (stringify_defined x (plain_defined x Hx)) as (t & ->).
  rewrite (IH Ho). reflexivity.
Qed.

Lemma chars_join_members o :
  chars (join "," (map (fun kv => (JSON.quote (fst kv) ++ ":"
                                   ++ default "null" (JSON.stringify (snd kv)))%string) o))
  = members_text o.
Proof.
  assert (Hone : forall kv,
            chars (JSON.quote (fst kv) ++ ":" ++ default "null" (JSON.stringify (snd kv)))%string
            = member_text kv).
  { intros kv. rewrite !chars_app. reflexivity. }
  induction o as [| kv [| kv' o] IH]; [reflexivity | apply Hone |].
  cbn [map] in IH |- *. rewrite chars_join_cons, Hone. cbn [map] in IH. rewrite IH.
  reflexivity.
Qed.

Lemma text_object o :
  forallb (fun kv => plain (snd kv)) o = true ->
  text (VObj o) = "{"%char :: members_text o ++ ["}"%char].
Proof.
  intros Hall. unfold text. cbn [JSON.stringify default from_option id].
  rewrite (members_items o Hall), !chars_app, chars_join_members. reflexivity.
Qed.



Lemma insert_prop_last k v acc :
  index_of_key k = None -> insert_prop k v acc = acc ++ [(k, v)].
Proof.
  intros Hk. induction acc as [| [k' v'] acc IH]; [reflexivity |].
  cbn [insert_prop]. rewrite Hk, IH. reflexivity.
Qed.

Lemma assoc_absent k (acc : list (string * value)) :
  existsb (String.eqb k) (map fst acc) = false -> assoc k acc = None.
Proof.
  induction acc as [| [k' v'] acc IH]; cbn; [reflexivity |].
  destruct (String.eqb k k'); [discriminate | exact IH].
Qed.

Lemma distinct_app_absent l1 k l2 :
  distinct (l1 ++ k :: l2) = true -> existsb (String.eqb k) l1 = false.
Proof.
  induction l1 as [| a l1 IH]; cbn; [reflexivity |].
  intros Hd. apply andb_prop in Hd as [Ha Hd]. rewrite (IH Hd), orb_false_r.
  apply negb_true_iff in Ha. rewrite existsb_app in Ha. apply orb_false_elim in Ha as [_ Ha].
  cbn in Ha. apply orb_false_elim in Ha as [Ha _]. rewrite String.eqb_sym. exact Ha.
Qed.

(** Members with record keys land in the object in the order written. *)
Lemma fold_obj_set o : forall acc,
  record_keys (map fst (acc ++ o)) = true -> fold_left step o acc = acc ++ o.
Proof.
  induction o as [| [k v] o IH]; intros acc Hkeys; cbn [fold_left].
  - rewrite app_nil_r. reflexivity.
  - assert (Hstep : step acc (k, v) = acc ++ [(k, v)]).
    { unfold step, obj_set. cbn [fst snd]. unfold record_keys in Hkeys.
      apply andb_prop in Hkeys as [Hidx Hd]. rewrite map_app in Hidx, Hd.
      cbn [map fst] in Hidx, Hd.
      rewrite (assoc_absent k acc (distinct_app_absent _ _ _ Hd)).
      apply insert_prop_last. rewrite forallb_app in Hidx.
      apply andb_prop in Hidx as [_ Hidx]. cbn in Hidx.
      destruct (index_of_key k); [discriminate | reflexivity]. }
    rewrite Hstep, IH; rewrite <- app_assoc; [reflexivity | exact Hkeys].
Qed.

(** The first character of a value's text starts no white space and
    closes no bracket. *)
Lemma plain_int m e : plain (VNum m e) = true -> e = 0 /\ Z.abs m < 10 ^ 21.
Proof.
  cbn [plain]. intros Hv. apply andb_prop in Hv as [He Hm].
  apply Z.eqb_eq in He. apply Z.ltb_lt in Hm. split; assumption.
Qed.

Lemma text_head v rest :
  plain v = true ->
  JSON.skip_ws (text v ++ rest) = text v ++ rest
  /\ JSON.take "]" (text v ++ rest) = None
  /\ JSON.take "," (text v ++ rest) = None.
Proof.
  intros Hv. destruct v as [| | [] | m e | s | l | o]; try discriminate Hv;
    try (repeat split; reflexivity).
  destruct (plain_int m e Hv) as [-> Hm].
  change (text (VNum m 0)) with (chars (number_to_string m 0)).
  destruct (number_head m Hm) as (c & cs & -> & Hc). rewrite <- app_comm_cons.
  apply (parse_value_numeric 0 c (cs ++ rest) Hc).
Qed.

Lemma member_head kv rest :
  exists body,
    member_text kv ++ rest = JSON.dquote :: body ++ ":"%char :: text (snd kv) ++ rest
    /\ forall rest', JSON.parse_string_body (body ++ rest') [] = Some (fst kv, rest').
Proof.
  destruct (quote_parses (fst kv)) as (body & Hq & Hp). exists body.
  split; [| exact Hp]. unfold member_text. rewrite Hq.
  cbn [app]. rewrite <- !app_assoc. reflexivity.
Qed.




Lemma take_head c rest : JSON.take c (c :: rest) = Some rest.
Proof. cbn. rewrite Ascii.eqb_refl. reflexivity. Qed.

Lemma parse_value_string f cs :
  JSON.parse_value (S f) (JSON.dquote :: cs)
  = match JSON.parse_string_body cs [] with
    | Some (s, r) => JSON.Parsed (VStr s) r
    | None => JSON.Malformed
    end.
Proof. reflexivity. Qed.

Lemma parse_value_array f cs :
  JSON.parse_value (S f) ("["%char :: cs)
  = match JSON.take "]" (JSON.skip_ws cs) with
    | Some r => JSON.Parsed (VArr []) r
    | None => JSON.parse_elements f (JSON.skip_ws cs) []
    end.
Proof. reflexivity. Qed.

Lemma parse_value_object f cs :
  JSON.parse_value (S f) ("{"%char :: cs)
  = match JSON.take "}" (JSON.skip_ws cs) with
    | Some r => JSON.Parsed (VObj []) r
    | None => JSON.parse_members f (JSON.skip_ws cs) []
    end.
Proof. reflexivity. Qed.

Lemma elements_text_cons x l rest :
  elements_text (x :: l) ++ rest
  = text x ++ match l with
              | [] => rest
              | _ => ","%char :: elements_text l ++ rest
              end.
Proof.
  destruct l as [| y l]; [reflexivity |].
  change (elements_text (x :: y :: l)) with (text x ++ ","%char :: elements_text (y :: l)).
  rewrite <- app_assoc. reflexivity.
Qed.

Lemma members_text_cons kv o rest :
  members_text (kv :: o) ++ rest
  = member_text kv ++ match o with
                      | [] => rest
                      | _ => ","%char :: members_text o ++ rest
                      end.
Proof.
  destruct o as [| kv' o]; [reflexivity |].
  change (members_text (kv :: kv' :: o))
    with (member_text kv ++ ","%char :: members_text (kv' :: o)).
  rewrite <- app_assoc. reflexivity.
Qed.

Lemma members_head kv o rest :
  JSON.skip_ws (members_text (kv :: o) ++ rest) = members_text (kv :: o) ++ rest
  /\ JSON.take "}" (members_text (kv :: o) ++ rest) = None.
Proof.
  rewrite members_text_cons.
  destruct (member_head kv (match o with
                            | [] => rest
                            | _ :: _ => ","%char :: members_text o ++ rest
                            end)) as (body & -> & _).
  split; reflexivity.
Qed.

Lemma parse_elements_step f cs acc :
  JSON.parse_elements (S f) cs acc
  = match JSON.parse_value f cs with
    | JSON.Parsed v r =>
        match JSON.take "," (JSON.skip_ws r), JSON.take "]" (JSON.skip_ws r) with
        | Some r', _ => JSON.parse_elements f r' (v :: acc)
        | None, Some r' => JSON.Parsed (VArr (rev (v :: acc))) r'
        | None, None => JSON.Malformed
        end
    | other => other
    end.
Proof. reflexivity. Qed.

Lemma parse_members_step f body k tail acc :
  (forall rest, JSON.parse_string_body (body ++ rest) [] = Some (k, rest)) ->
  JSON.parse_members (S f) (JSON.dquote :: body ++ ":"%char :: tail) acc
  = match JSON.parse_value f tail with
    | JSON.Parsed v r =>
        match JSON.take "," (JSON.skip_ws r), JSON.take "}" (JSON.skip_ws r) with
        | Some r', _ => JSON.parse_members f r' (obj_set k v acc)
        | None, Some r' => JSON.Parsed (VObj (obj_set k v acc)) r'
        | None, None => JSON.Malformed
        end
    | other => other
    end.
Proof.
  intros Hbody. cbn [JSON.parse_members].
  change (JSON.skip_ws (JSON.dquote :: body ++ ":"%char :: tail))
    with (JSON.dquote :: body ++ ":"%char :: tail).
  rewrite take_head, Hbody.
  change (JSON.skip_ws (":"%char :: tail)) with (":"%char :: tail).
  rewrite take_head. reflexivity.
Qed.

(** Given enough fuel, the parser reads the text of a plain value back
    as that value and stops right after it. *)
Lemma parse_text fuel :
  (forall v rest,
      plain v = true -> ends_value rest = true -> (weight v <= fuel)%nat ->
      JSON.parse_value fuel (text v ++ rest) = JSON.Parsed v rest)
  /\ (forall x l acc rest,
        forallb plain (x :: l) = true -> (elements_weight (x :: l) <= fuel)%nat ->
        JSON.parse_elements fuel (elements_text (x :: l) ++ "]"%char :: rest) acc
        = JSON.Parsed (VArr (rev acc ++ x :: l)) rest)
  /\ (forall kv o acc rest,
        forallb (fun kv => plain (snd kv)) (kv :: o) = true ->
        (members_weight (kv :: o) <= fuel)%nat ->
        JSON.parse_members fuel (members_text (kv :: o) ++ "}"%char :: rest) acc
        = JSON.Parsed (VObj (fold_left step (kv :: o) acc)) rest).
Proof.
  induction fuel as [| f (IHv & IHe & IHm)].
  { split; [| split].
    - intros v rest _ _ Hw. destruct v; cbn in Hw; lia.
    - intros x l acc rest _ Hw. cbn in Hw. lia.
    - intros kv o acc rest _ Hw. cbn in Hw. lia. }
  split; [| split].
  - intros v rest Hv Hrest Hw.
    destruct v as [| | [] | m e | s | l | o]; try discriminate Hv; try reflexivity.
    + destruct (plain_int m e Hv) as [-> Hm]. apply parse_value_int; assumption.
    + destruct (quote_parses s) as (body & Hq & Hp).
      unfold text. cbn [JSON.stringify default from_option id]. rewrite Hq.
      change ((JSON.dquote :: body) ++ rest) with (JSON.dquote :: (body ++ rest)).
      rewrite parse_value_string, Hp. reflexivity.
    + rewrite text_array. destruct l as [| x l]; [reflexivity |].
      change (("["%char :: elements_text (x :: l) ++ ["]"%char]) ++ rest)
        with ("["%char :: ((elements_text (x :: l) ++ ["]"%char]) ++ rest)).
      rewrite <- app_assoc. change (["]"%char] ++ rest) with ("]"%char :: rest).
      rewrite parse_value_array.
      cbn [plain] in Hv. pose proof Hv as Hall. cbn [forallb] in Hv.
      apply andb_prop in Hv as [Hx _].
      rewrite (elements_text_cons x l).
      destruct (text_head x (match l with
                             | [] => "]"%char :: rest
                             | _ :: _ => ","%char :: elements_text l ++ "]"%char :: rest
                             end) Hx) as (-> & -> & _).
      rewrite <- elements_text_cons.
      rewrite (IHe x l [] rest Hall); [reflexivity |].
      cbn [weight] in Hw. unfold elements_weight. lia.
    + cbn [plain] in Hv. apply andb_prop in Hv as [Hall Hkeys].
      rewrite (text_object o Hall). destruct o as [| kv o]; [reflexivity |].
      change (("{"%char :: members_text (kv :: o) ++ ["}"%char]) ++ rest)
        with ("{"%char :: ((members_text (kv :: o) ++ ["}"%char]) ++ rest)).
      rewrite <- app_assoc. change (["}"%char] ++ rest) with ("}"%char :: rest).
      rewrite parse_value_object.
      destruct (members_head kv o ("}"%char :: rest)) as (-> & ->).
      rewrite (IHm kv o [] rest Hall).
      * rewrite (fold_obj_set (kv :: o) [] Hkeys). reflexivity.
      * cbn [weight] in Hw. unfold members_weight. lia.
  - intros x l acc rest Hall Hw.
    cbn [forallb] in Hall. apply andb_prop in Hall as [Hx Hl].
    unfold elements_weight in Hw. cbn [fold_right] in Hw.
    fold (elements_weight l) in Hw.
    rewrite parse_elements_step, elements_text_cons.
    rewrite (IHv x _ Hx) by (lia || (destruct l; reflexivity)).
    destruct l as [| y l].
    + reflexivity.
    + change (JSON.skip_ws (","%char :: ?r)) with (","%char :: r).
      rewrite take_head, (IHe y l (x :: acc) rest Hl) by lia.
      cbn [rev]. rewrite <- app_assoc. reflexivity.
  - intros kv o acc rest Hall Hw.
    cbn [forallb] in Hall. apply andb_prop in Hall as [Hx Ho].
    unfold members_weight in Hw. cbn [fold_right] in Hw.
    fold (members_weight o) in Hw.
    rewrite members_text_cons.
    destruct (member_head kv (match o with
                              | [] => "}"%char :: rest
                              | _ :: _ => ","%char :: members_text o ++ "}"%char :: rest
                              end)) as (body & -> & Hbody).
    rewrite (parse_members_step f body (fst kv) _ acc Hbody).
    rewrite (IHv (snd kv) _ Hx) by (lia || (destruct o; reflexivity)).
    destruct o as [| kv' o].
    + reflexivity.
    + change (JSON.skip_ws (","%char :: ?r)) with (","%char :: r).
      change (obj_set (fst kv) (snd kv) acc) with (step acc kv).
      rewrite take_head, (IHm kv' o (step acc kv) rest Ho) by lia.
      reflexivity.
Qed.

(** The text of a plain value is at least as long as the fuel its
    parse needs. *)
Lemma weight_text : forall v, plain v = true -> (weight v <= length (text v))%nat.
Proof.
  fix IH 1. intros v Hv.
  destruct v as [| | [] | m e | s | l | o]; try discriminate Hv; try (cbn; lia).
  - destruct (plain_int m e Hv) as [-> Hm].
    change (text (VNum m 0)) with (chars (number_to_string m 0)).
    destruct (number_head m Hm) as (c & cs & -> & _). cbn. lia.
  - rewrite text_array. cbn [weight length plain] in Hv |- *. rewrite length_app.
    fold (elements_weight l).
    enough (elements_weight l <= length (elements_text l) + 1)%nat by (cbn [length]; lia).
    induction l as [| x l IHl]; [cbn; lia |].
    cbn [forallb] in Hv. apply andb_prop in Hv as [Hx Hl].
    specialize (IHl Hl). specialize (IH x Hx).
    unfold elements_weight in IHl |- *. cbn [fold_right].
    destruct l as [| y l]; [cbn; lia |].
    change (elements_text (x :: y :: l)) with (text x ++ ","%char :: elements_text (y :: l)).
    rewrite length_app. cbn [length] in IHl |- *. lia.
  - cbn [plain] in Hv. apply andb_prop in Hv as [Hall _].
    rewrite (text_object o Hall). cbn [weight length]. rewrite length_app.
    fold (members_weight o).
    enough (members_weight o <= length (members_text o) + 1)%nat by (cbn [length]; lia).
    induction o as [| kv o IHo]; [cbn; lia |].
    cbn [forallb] in Hall. apply andb_prop in Hall as [Hx Ho].
    specialize (IHo Ho). specialize (IH (snd kv) Hx).
    assert (Hone : (length (text (snd kv)) < length (member_text kv))%nat).
    { unfold member_text. rewrite length_app. cbn [length]. lia. }
    unfold members_weight in IHo |- *. cbn [fold_right].
    destruct o as [| kv' o];
      [change (members_text [kv]) with (member_text kv); cbn [fold_right]; lia |].
    change (members_text (kv :: kv' :: o))
      with (member_text kv ++ ","%char :: members_text (kv' :: o)).
    rewrite length_app. cbn [length] in IHo |- *. lia.
Qed.

(** [JSON.parse] undoes [JSON.stringify] on plain values. *)
Lemma parse_stringify v t :
  plain v = true -> JSON.stringify v = Some t -> JSON.parse t = Ok v.
Proof.
  intros Hv Ht. unfold JSON.parse.
  assert (Htext : chars t = text v) by (unfold text; rewrite Ht; reflexivity).
  cbv zeta. rewrite Htext. rewrite <- (app_nil_r (text v)) at 2.
  rewrite (proj1 (parse_text _) v [] Hv eq_refl); [reflexivity |].
  pose proof (weight_text v Hv). unfold JSON.parse_fuel. lia.
Qed.

End RoundTrip.

(** ** A session outlives a reload *)

Section Persistence.
Context {B : Type}.
Implicit Types (w : world B) (user : value).

Lemma stringify_plain user :
  plain user = true ->
  exists t, JSON.stringify user = Some t /\ t <> "" /\ JSON.parse t = Ok user.
Proof.
  intros Hplain.
  destruct (stringify_defined user (plain_defined user Hplain)) as (t & Ht).
  exists t. split; [exact Ht |]. split; [| exact (parse_stringify user t Hplain Ht)].
  intros ->. pose proof (weight_text user Hplain) as Hw.
  unfold text in Hw. rewrite Ht in Hw. destruct user; cbn in Hw; lia.
Qed.

(** A slot that holds the text of a plain value gives [init] that
    value back. *)
Lemma init_restores user w :
  plain user = true ->
  localStorage w !! "currentUser" = JSON.stringify user ->
  Store.init w
  = (match get_prop user "name" with Ok _ => Ok tt | Throw e => Throw e end,
     with_user user w).
Proof.
  intros Hplain Hslot. destruct (stringify_plain user Hplain) as (t & Ht & Hne & Hparse).
  rewrite Ht in Hslot. rewrite (init_present w t Hslot Hne), Hparse. reflexivity.
Qed.

Lemma setUser_slot_plain user w :
  plain user = true ->
  localStorage (snd (Store.setUser user w)) !! "currentUser" = JSON.stringify user.
Proof.
  intros Hplain. destruct (stringify_plain user Hplain) as (t & Ht & _).
  rewrite setUser_writes, Ht. cbn. apply lookup_insert_eq.
Qed.

(** X3. What [setUser] persisted, [init] restores after the page is loaded
    anew: the principal in memory is the one that was stored, and
    [init] completes exactly as [setUser] did (both end with reading
    [user.name], which throws on [null] alone). *)
Theorem session_survives_reload user w :
  plain user = true ->
  let w1 := reload (snd (Store.setUser user w)) in
  Store.init w1 = (fst (Store.setUser user w), with_user user w1)
  /\ localStorage (snd (Store.init w1)) !! "currentUser" = JSON.stringify user.
Proof.
  intros Hplain w1.
  assert (Hslot : localStorage w1 !! "currentUser" = JSON.stringify user)
    by apply (setUser_slot_plain user w Hplain).
  rewrite (init_restores user w1 Hplain Hslot), setUser_returns. cbn [snd].
  split; [reflexivity | exact Hslot].
Qed.

End Persistence.

(** ** From the forms to the pages *)

Section PageFlow.
Context {B : Type} `{Backend B} `{Router.EditView B}.
Implicit Types (w : world B) (user : value).

Lemma plain_present user : plain user = true -> user <> VUndefined.
Proof. destruct user; discriminate. Qed.

(** The last statement of the script changes nothing the router
    reads, whether the sidebar could be drawn or not. *)
Lemma sidebar_into_app_world w : snd (App.sidebar_into_app w) = w.
Proof.
  unfold App.sidebar_into_app, bind, Store.getUser.
  destruct (truthy (state_user w)); [| reflexivity].
  pose proof (Sidebar_world w) as Hworld.
  destruct (Sidebar.Sidebar w) as [[m | e] w']; cbn [snd] in Hworld; subst w'; reflexivity.
Qed.

(** The script of the page, run on a slot that holds the text of a
    principal. *)
Lemma main_restores user w :
  plain user = true -> user <> VNull ->
  localStorage w !! "currentUser" = JSON.stringify user ->
  snd (App.main w) = with_user user w.
Proof.
  intros Hplain Hnull Hslot. pose proof (plain_present user Hplain) as Hundef.
  unfold App.main, bind. rewrite (init_restores user w Hplain Hslot).
  destruct (readable user "name" Hnull Hundef) as (name & ->).
  apply sidebar_into_app_world.
Qed.

Lemma open_restored user w :
  plain user = true -> user <> VNull ->
  localStorage w !! "currentUser" = JSON.stringify user ->
  App.open_page w = Router.handleRoute (with_user user w).
Proof.
  intros Hplain Hnull Hslot. pose proof (plain_present user Hplain) as Hundef.
  unfold App.open_page. rewrite (init_restores user w Hplain Hslot).
  destruct (readable user "name" Hnull Hundef) as (name & ->).
  rewrite sidebar_into_app_world. reflexivity.
Qed.

(** X22. The page after a reload routes exactly as the page on which the
    stored principal is signed in: the script restores the principal
    that [setUser] persisted, whether or not its last statement can
    draw the sidebar for that principal, and the [load] event finds
    the principal in place. *)
Theorem reload_keeps_the_visitor_signed_in user w :
  plain user = true -> user <> VNull ->
  let w1 := reload (snd (Store.setUser user w)) in
  App.open_page w1 = Router.handleRoute (with_user user w1)
  /\ snd (App.main w1) = with_user user w1.
Proof.
  intros Hplain Hnull w1.
  pose proof (setUser_slot_plain user w Hplain) as Hslot.
  split.
  - exact (open_restored user w1 Hplain Hnull Hslot).
  - exact (main_restores user w1 Hplain Hnull Hslot).
Qed.

(** X23. A slot whose text is not JSON stops the page before the router is
    set up: the script throws out of [Store.init], no route is handled,
    nothing is rendered and the address stays, whatever it is. *)
Theorem malformed_slot_blocks_the_page w text e :
  localStorage w !! "currentUser" = Some text ->
  text <> "" ->
  JSON.parse text = Throw e ->
  App.open_page w = (Throw e, w)
  /\ App.open_page (reload w) = (Throw e, reload w)
  /\ app (reload w) = None.
Proof.
  intros Hslot Hne Hparse.
  assert (Hopen : forall w', localStorage w' !! "currentUser" = Some text ->
                             App.open_page w' = (Throw e, w')).
  { intros w' Hslot'. unfold App.open_page.
    rewrite (init_present w' text Hslot' Hne), Hparse. reflexivity. }
  split; [exact (Hopen w Hslot) |]. split; [exact (Hopen (reload w) Hslot) | reflexivity].
Qed.

Lemma handleLogin_run email password w :
  Views.handleLogin email password w
  = match fst (authService.login email password w) with
    | Ok (authService.Success _) =>
        (Ok None, reload (with_hash "#/dashboard" (snd (authService.login email password w))))
    | Ok (authService.Failure message) =>
        (Ok (Some message), snd (authService.login email password w))
    | Throw e => (Throw e, snd (authService.login email password w))
    end.
Proof.
  unfold Views.handleLogin, bind.
  destruct (authService.login email password w) as [[[user | message] | e] w'];
    reflexivity.
Qed.

Lemma handleRegister_run name email password role w :
  let userData := VObj [("name", VStr name); ("email", VStr email);
                        ("password", VStr password); ("role", VStr role)] in
  Views.handleRegister name email password role w
  = match fst (authService.register userData w) with
    | Ok (authService.Success _) =>
        (Ok None, reload (with_hash "#/dashboard" (snd (authService.register userData w))))
    | Ok (authService.Failure message) =>
        (Ok (Some message), snd (authService.register userData w))
    | Throw e => (Throw e, snd (authService.register userData w))
    end.
Proof.
  cbv zeta. unfold Views.handleRegister, bind.
  destruct (authService.register _ w) as [[[user | message] | e] w'];
    reflexivity.
Qed.

(** Where a successful [login] or [register] leaves the tab. *)
Lemma login_success_world email password w user :
  fst (authService.login email password w) = Ok (authService.Success user) ->
  user <> VNull /\ user <> VUndefined
  /\ exists w0, snd (authService.login email password w) = snd (Store.setUser user w0).
Proof.
  rewrite login_run. cbv zeta.
  destruct (fst (apiService.get _ w)) as [users | e]; [| discriminate].
  destruct (get_prop users "length") as [len | e]; [| discriminate].
  destruct (greater_than_zero len) as [[|] | e]; [| discriminate ..].
  destruct (get_prop users "0") as [u | e]; [| discriminate].
  destruct (Terms.loggable u) eqn:Hlog; [| discriminate].
  cbn [fst snd]. intros [= <-].
  assert (Hrole : exists x, get_prop u "role" = Ok x).
  { unfold Terms.loggable in Hlog. destruct (get_prop u "role"); [eauto | discriminate]. }
  destruct Hrole as (x & Hname).
  destruct (readable_truthy_or_not u "role" x Hname) as [Hnull Hundef].
  split; [exact Hnull |]. split; [exact Hundef |]. eauto.
Qed.

Lemma register_success_world userData w user :
  fst (authService.register userData w) = Ok (authService.Success user) ->
  user <> VNull /\ user <> VUndefined
  /\ exists w0, snd (authService.register userData w) = snd (Store.setUser user w0).
Proof.
  rewrite register_run. cbv zeta.
  destruct (get_prop userData "email") as [addr | e]; [| discriminate].
  destruct (printable addr); [| discriminate].
  destruct (fst (apiService.get _ w)) as [existing | e]; [| discriminate].
  destruct (get_prop existing "length") as [len | e]; [| discriminate].
  destruct (greater_than_zero len) as [[|] | e]; [discriminate | | discriminate].
  destruct (fst (apiService.post _ _ _)) as [newUser | e]; [| discriminate].
  destruct (get_prop newUser "name") as [x | e] eqn:Hname; [| discriminate].
  cbn [fst snd]. intros [= <-].
  destruct (readable_truthy_or_not newUser "name" x Hname) as [Hnull Hundef].
  split; [exact Hnull |]. split; [exact Hundef |]. eauto.
Qed.

(** A page loaded anew at ['#/dashboard'] over the slot of a principal
    for whom the sidebar can be drawn shows the dashboard to that
    principal. *)
Lemma dashboard_after_reload user w0 :
  plain user = true -> Terms.drawable user = true ->
  let w1 := reload (with_hash "#/dashboard" (snd (Store.setUser user w0))) in
  location_hash w1 = "#/dashboard"
  /\ App.open_page w1 = (Ok tt, with_app DashboardView (with_user user w1)).
Proof.
  intros Hplain Hdraw w1. split; [reflexivity |].
  destruct (drawable_present user Hdraw) as [Hnull _].
  assert (Hslot : localStorage w1 !! "currentUser" = JSON.stringify user)
    by apply (setUser_slot_plain user w0 Hplain).
  rewrite (open_restored user w1 Hplain Hnull Hslot), handleRoute_run. cbv zeta.
  change (Router.path_of_hash (location_hash (with_user user w1))) with "/dashboard".
  change (state_user (with_user user w1)) with user.
  rewrite (proj2 (not_null_spec user) Hnull).
  change (Router.view_for "/dashboard") with (Router.View DashboardView).
  cbn [negb andb orb Router.includes existsb String.eqb Ascii.eqb Bool.eqb
       Router.protectedRoutes Router.adminRoutes].
  apply render_view; [discriminate | left; exact Hdraw].
Qed.

(** X24. The sign-in form, from the click to the page: when [login]
    succeeds with a plain record whose address and name can be printed
    in the sidebar, [handleLogin] raises no alert, and the page it
    reloads comes up at ['#/dashboard'] showing the dashboard, with
    the user of the answer as the principal. *)
Theorem login_form_opens_dashboard email password w user :
  fst (authService.login email password w) = Ok (authService.Success user) ->
  plain user = true ->
  Terms.drawable user = true ->
  let w1 := snd (Views.handleLogin email password w) in
  fst (Views.handleLogin email password w) = Ok None
  /\ location_hash w1 = "#/dashboard"
  /\ App.open_page w1 = (Ok tt, with_app DashboardView (with_user user w1)).
Proof.
  intros Hlogin Hplain Hdraw. cbv zeta. rewrite handleLogin_run, Hlogin. cbn [fst snd].
  destruct (login_success_world email password w user Hlogin) as (Hnull & _ & w0 & ->).
  split; [reflexivity |]. exact (dashboard_after_reload user w0 Hplain Hdraw).
Qed.

(** X25. The sign-up form likewise: when [register] succeeds with a plain
    record whose address and name can be printed in the sidebar,
    [handleRegister] raises no alert and the reloaded page shows the
    dashboard to the new user. *)
Theorem register_form_opens_dashboard name email password role w user :
  let userData := VObj [("name", VStr name); ("email", VStr email);
                        ("password", VStr password); ("role", VStr role)] in
  fst (authService.register userData w) = Ok (authService.Success user) ->
  plain user = true ->
  Terms.drawable user = true ->
  let w1 := snd (Views.handleRegister name email password role w) in
  fst (Views.handleRegister name email password role w) = Ok None
  /\ location_hash w1 = "#/dashboard"
  /\ App.open_page w1 = (Ok tt, with_app DashboardView (with_user user w1)).
Proof.
  intros userData Hregister Hplain Hdraw. cbv zeta.
  rewrite handleRegister_run. cbv zeta. fold userData. rewrite Hregister. cbn [fst snd].
  destruct (register_success_world userData w user Hregister) as (Hnull & _ & w0 & ->).
  split; [reflexivity |]. exact (dashboard_after_reload user w0 Hplain Hdraw).
Qed.

End PageFlow.
(** ** The menu and the address *)

Section Menu.
Context {B : Type} `{Router.EditView B}.
Implicit Types (w : world B).

Lemma before_query_app s q :
  Router.before_query (s ++ "?" ++ q) = Router.before_query s.
Proof.
  induction s as [| c s IH]; [reflexivity |].
  change (String c s ++ "?" ++ q)%string with (String c (s ++ "?" ++ q)).
  cbn [Router.before_query]. rewrite IH. reflexivity.
Qed.

Lemma path_of_hash_query p q :
  p <> "" -> Router.path_of_hash ("#" ++ p ++ "?" ++ q) = Router.path_of_hash ("#" ++ p).
Proof.
  intros Hp. unfold Router.path_of_hash.
  change (Router.slice1 ("#" ++ p ++ "?" ++ q)) with (p ++ "?" ++ q)%string.
  change (Router.slice1 ("#" ++ p)) with p.
  destruct p as [| c p]; [congruence |]. cbn [String.eqb negb].
  change (String c p ++ "?" ++ q)%string with (String c (p ++ "?" ++ q)).
  cbn [String.eqb negb]. apply (before_query_app (String c p) q).
Qed.

(** What the address reads after an assignment. *)
Lemma escaped_app a b :
  Terms.escaped (a ++ b) = (Terms.escaped a ++ Terms.escaped b)%string.
Proof.
  unfold Terms.escaped. rewrite chars_app, List.filter_app, flat_map_app. apply str_app.
Qed.

Lemma set_hash_number_sign s w :
  set_hash ("#" ++ s) w = (Ok tt, with_hash (hash_of_fragment (Terms.escaped s)) w).
Proof. reflexivity. Qed.

Lemma hash_of_fragment_some c rest :
  hash_of_fragment (String c rest) = ("#" ++ String c rest)%string.
Proof. reflexivity. Qed.

(** X19. A query string after the path changes nothing in what the guard
    decides: provided the path leaves something in the address (it is
    not made of tabs and newlines only, which the address drops),
    [navigate] to the path with a query is routed as [navigate] to the
    path alone: both are redirected to the same target, or both go on
    to [render] with what the table has for the same path. *)
Theorem query_string_does_not_change_the_route p q w :
  let w1 := snd (Router.navigate p w) in
  let w2 := snd (Router.navigate (p ++ "?" ++ q) w) in
  location_hash w1 <> "" ->
  Router.path_of_hash (location_hash w2) = Router.path_of_hash (location_hash w1)
  /\ ((exists target,
         In target Terms.redirect_targets
         /\ Router.handleRoute w1 = (Ok tt, with_hash target w1)
         /\ Router.handleRoute w2 = (Ok tt, with_hash target w2))
      \/ (Router.handleRoute w1
          = Router.render (Router.view_for (Router.path_of_hash (location_hash w1))) w1
          /\ Router.handleRoute w2
             = Router.render (Router.view_for (Router.path_of_hash (location_hash w1))) w2)).
Proof.
  intros w1 w2 Hhash.
  assert (H1 : location_hash w1 = hash_of_fragment (Terms.escaped p)).
  { unfold w1, Router.navigate. rewrite set_hash_number_sign. reflexivity. }
  assert (H2 : location_hash w2
               = hash_of_fragment (Terms.escaped p ++ "?" ++ Terms.escaped q)).
  { unfold w2, Router.navigate. rewrite set_hash_number_sign, escaped_app. reflexivity. }
  assert (Hpath : Router.path_of_hash (location_hash w2)
                  = Router.path_of_hash (location_hash w1)).
  { rewrite H1, H2. rewrite H1 in Hhash.
    destruct (Terms.escaped p) as [| c rest] eqn:Hp; [contradiction Hhash; reflexivity |].
    change (String c rest ++ "?" ++ Terms.escaped q)%string
      with (String c (rest ++ "?" ++ Terms.escaped q)).
    rewrite !hash_of_fragment_some.
    apply (path_of_hash_query (String c rest) (Terms.escaped q)). discriminate. }
  split; [exact Hpath |].
  rewrite (handleRoute_run w1), (handleRoute_run w2). cbv zeta. rewrite Hpath.
  change (state_user w2) with (state_user w).
  change (state_user w1) with (state_user w).
  set (path := Router.path_of_hash (location_hash w1)).
  destruct (Router.includes Router.protectedRoutes path && negb (not_null (state_user w))).
  { left. exists "#/login". split; [cbn; tauto | split; reflexivity]. }
  destruct (Router.includes Router.adminRoutes path
            && negb (admin_user (state_user w))).
  { left. exists "#/not-found". split; [cbn; tauto | split; reflexivity]. }
  destruct ((String.eqb path "/" || String.eqb path "/login") && not_null (state_user w)).
  { left. exists "#/dashboard". split; [cbn; tauto | split; reflexivity]. }
  right. split; reflexivity.
Qed.



Lemma admin_role_truthy v role :
  get_prop v "role" = Ok role -> strict_eq_str role "admin" = true -> truthy v = true.
Proof.
  intros Hrole Hlabel.
  destruct v as [| | b | m e | s | l | o]; try discriminate Hrole; try reflexivity;
    vm_compute in Hrole; injection Hrole as <-; discriminate Hlabel.
Qed.

(** X21. Whenever the sidebar is drawn, every link it offers is one the
    guard lets its principal follow: taking it renders a view and
    redirects nowhere.  The link to the page that creates students is
    offered exactly to the principals whose role reads ['admin'], the
    ones the guard admits there. *)
Theorem sidebar_links_pass_the_guard w m :
  fst (Sidebar.Sidebar w) = Ok m ->
  Sidebar.Sidebar w = (Ok m, w)
  /\ (forall link active,
        In (link, active) (Sidebar.links m) ->
        exists view,
          Router.handleRoute (with_hash link w)
          = (Ok tt, with_app view (with_hash link w)))
  /\ ((exists active, In ("#/students/create", active) (Sidebar.links m))
      <-> get_prop (state_user w) "role" = Ok (VStr "admin")).
Proof.
  intros Hdrawn. pose proof (Sidebar_drawn_only w m Hdrawn) as Hdraw.
  destruct (drawable_present _ Hdraw) as [Hnull Hundef].
  destruct (Sidebar_run w Hdraw) as (email & name & role & _ & _ & Hrole & Hrun).
  rewrite Hrun in Hdrawn. cbn [fst] in Hdrawn. injection Hdrawn as <-.
  split; [exact Hrun |]. cbn [Sidebar.links]. cbv zeta.
  assert (Hadmin : admin_user (state_user w) = strict_eq_str role "admin").
  { unfold admin_user. rewrite Hrole.
    destruct (strict_eq_str role "admin") eqn:Hlabel; [| apply andb_false_r].
    rewrite (admin_role_truthy (state_user w) role Hrole Hlabel). reflexivity. }
  split.
  - intros link active Hin.
    assert (Hrender : forall path view,
               link = ("#" ++ path)%string ->
               Router.path_of_hash ("#" ++ path) = path ->
               (Router.includes Router.adminRoutes path = true ->
                admin_user (state_user w) = true) ->
               String.eqb path "/" || String.eqb path "/login" = false ->
               Router.view_for path = Router.View view ->
               view <> EditStudentView ->
               Router.handleRoute (with_hash link w)
               = (Ok tt, with_app view (with_hash link w))).
    { intros path view -> Hpath Hguard Hhome Hview Hedit.
      rewrite handleRoute_run. cbv zeta.
      change (location_hash (with_hash ("#" ++ path) w)) with ("#" ++ path)%string.
      change (state_user (with_hash ("#" ++ path) w)) with (state_user w).
      rewrite Hpath, (proj2 (not_null_spec _) Hnull), Hhome, Hview.
      rewrite andb_false_r. cbn [negb andb].
      assert (Hshown : Router.render (Router.View view) (with_hash ("#" ++ path) w)
                       = (Ok tt, with_app view (with_hash ("#" ++ path) w)))
        by (apply render_view; [exact Hedit | left; exact Hdraw]).
      destruct (Router.includes Router.adminRoutes path); [| exact Hshown].
      rewrite (Hguard eq_refl). exact Hshown. }
    destruct (strict_eq_str role "admin") eqn:Hrole_admin; cbn in Hin;
      repeat (destruct Hin as [[= <- <-] | Hin]);
      try contradiction;
      eexists;
      (eapply Hrender;
       [reflexivity | reflexivity | | reflexivity | reflexivity | discriminate]);
      try discriminate; intros _; exact Hadmin.
  - rewrite <- admin_user_spec, Hadmin.
    destruct (strict_eq_str role "admin"); cbn; split.
    + reflexivity.
    + intros _. eexists. right. right. right. left. reflexivity.
    + intros (active & Hin). repeat (destruct Hin as [[= ] | Hin]). contradiction.
    + discriminate.
Qed.

End Menu.
(** ** Creating a student *)

Section Students.
Context {B : Type} `{Backend B}.
Variable lower : string -> string.
Implicit Types (w : world B) (formData : string -> value).

(** What [handleCreateStudent] does, lookup by lookup. *)
Lemma handleCreateStudent_run formData w :
  let studentData := Views.student_data formData in
  let failed := Ok "Error creating student" in
  let students := apiService.get "/students" w in
  let users := apiService.get "/users" (snd students) in
  let creation := apiService.post "/students" studentData (snd users) in
  Views.handleCreateStudent lower formData w
  = match fst students with
    | Throw _ => (failed, snd students)
    | Ok existingStudents =>
        match Views.some existingStudents (Views.same_email lower studentData) with
        | Throw _ => (failed, snd students)
        | Ok true => (Ok student_taken, snd students)
        | Ok false =>
            match fst users with
            | Throw _ => (failed, snd users)
            | Ok existingUsers =>
                match Views.some existingUsers (Views.same_email lower studentData) with
                | Throw _ => (failed, snd users)
                | Ok true => (Ok user_taken, snd users)
                | Ok false =>
                    match fst creation with
                    | Throw _ => (failed, snd creation)
                    | Ok _ => (Ok "Student created successfully!",
                               with_hash "#/students" (snd creation))
                    end
                end
            end
        end
    end.
Proof.
  cbv zeta.
  cbv [Views.handleCreateStudent try_catch bind lift ret set_hash
         apiService.getStudents apiService.createStudent].
  destruct (apiService.get "/students" w) as [[existingStudents | e] w1]; cbn [fst snd];
    [| reflexivity].
  destruct (Views.some existingStudents _) as [[] | e]; [reflexivity | | reflexivity].
  destruct (apiService.get "/users" w1) as [[existingUsers | e] w2]; cbn [fst snd];
    [| reflexivity].
  destruct (Views.some existingUsers _) as [[] | e]; [reflexivity | | reflexivity].
  destruct (apiService.post "/students" _ w2) as [[created | e] w3]; reflexivity.
Qed.

Lemma same_email_text formData typed record theirs :
  formData "email" = VStr typed ->
  get_prop record "email" = Ok (VStr theirs) ->
  Views.same_email lower (Views.student_data formData) record
  = Ok (String.eqb (lower theirs) (lower typed)).
Proof.
  intros Htyped Htheirs. unfold Views.same_email, Views.and_then.
  rewrite Htheirs. cbn [Views.to_lower_case].
  change (get_prop (Views.student_data formData) "email") with (Ok (formData "email")).
  rewrite Htyped. reflexivity.
Qed.

Lemma same_email_false formData typed record :
  formData "email" = VStr typed ->
  Views.same_email lower (Views.student_data formData) record = Ok false ->
  unlike lower typed record.
Proof.
  intros Htyped. unfold Views.same_email, Views.and_then, unlike.
  destruct (get_prop record "email") as [theirs | e]; [| discriminate].
  destruct theirs as [| | b | m e | theirs | l | o]; try discriminate.
  cbn [Views.to_lower_case].
  change (get_prop (Views.student_data formData) "email") with (Ok (formData "email")).
  rewrite Htyped. cbn [Views.to_lower_case]. intros [= Hneq].
  exists theirs. split; [reflexivity |]. apply String.eqb_neq, Hneq.
Qed.

Lemma unlike_same_email formData typed record :
  formData "email" = VStr typed ->
  unlike lower typed record ->
  Views.same_email lower (Views.student_data formData) record = Ok false.
Proof.
  intros Htyped (theirs & Htheirs & Hneq).
  rewrite (same_email_text formData typed record theirs Htyped Htheirs).
  f_equal. apply String.eqb_neq, Hneq.
Qed.

Lemma some_false formData typed receiver :
  formData "email" = VStr typed ->
  Views.some receiver (Views.same_email lower (Views.student_data formData)) = Ok false ->
  exists records, receiver = VArr records /\ Forall (unlike lower typed) records.
Proof.
  intros Htyped. destruct receiver as [| | b | m e | s | records | o]; try discriminate.
  cbn [Views.some]. intros Hsome. exists records. split; [reflexivity |].
  induction records as [| r records IH]; [constructor |].
  cbn [Views.some_of] in Hsome. unfold Views.and_then in Hsome.
  destruct (Views.same_email _ _ r) as [[] | e] eqn:Hr; try discriminate.
  constructor; [exact (same_email_false formData typed r Htyped Hr) | exact (IH Hsome)].
Qed.

Lemma some_clean formData typed records :
  formData "email" = VStr typed ->
  Forall (unlike lower typed) records ->
  Views.some (VArr records) (Views.same_email lower (Views.student_data formData))
  = Ok false.
Proof.
  intros Htyped Hall. cbn [Views.some].
  induction Hall as [| r records Hr _ IH]; [reflexivity |].
  cbn [Views.some_of]. rewrite (unlike_same_email formData typed r Htyped Hr). exact IH.
Qed.

Lemma some_found formData typed before record after theirs :
  formData "email" = VStr typed ->
  Forall (unlike lower typed) before ->
  get_prop record "email" = Ok (VStr theirs) ->
  lower theirs = lower typed ->
  Views.some (VArr (before ++ record :: after))
             (Views.same_email lower (Views.student_data formData))
  = Ok true.
Proof.
  intros Htyped Hbefore Htheirs Hsame. cbn [Views.some].
  induction Hbefore as [| r before Hr _ IH].
  - rewrite app_nil_l. cbn [Views.some_of].
    rewrite (same_email_text formData typed record theirs Htyped Htheirs), Hsame.
    rewrite String.eqb_refl. reflexivity.
  - rewrite <- app_comm_cons. cbn [Views.some_of].
    rewrite (unlike_same_email formData typed r Htyped Hr). exact IH.
Qed.

Lemma get_world path w :
  exists b', snd (apiService.get path w)
             = with_exchange (Spec.request_of Spec.Read path VUndefined) b' w.
Proof.
  rewrite get_run, call_run. cbv zeta.
  destruct (fst (handle _ _)) as [r | e]; [destruct (ok r) |]; eauto.
Qed.

Lemma post_world path data w :
  exists b', snd (apiService.post path data w)
             = with_exchange (Spec.request_of Spec.Create path data) b' w.
Proof.
  change (apiService.post path data) with (Spec.call Spec.Create path data).
  rewrite call_run. cbv zeta.
  destruct (fst (handle _ _)) as [r | e]; [destruct (ok r) |]; eauto.
Qed.

Lemma issued_three (r1 r2 r3 : request) b1 b2 b3 w :
  Spec.issued w (with_exchange r3 b3 (with_exchange r2 b2 (with_exchange r1 b1 w)))
  = [r1; r2; r3].
Proof.
  unfold Spec.issued. cbn. rewrite <- !app_assoc. apply drop_app_length.
Qed.

(** X26. [handleCreateStudent] never throws, and it sends the new record
    only after both lookups came back as lists in which no record has
    the typed address, letter case set aside: the requests it makes
    are the lookup of the students alone, that and the lookup of the
    users, or both followed by the one creation. *)
Theorem student_is_created_only_with_an_unused_address formData typed w :
  formData "email" = VStr typed ->
  let w' := snd (Views.handleCreateStudent lower formData w) in
  (exists message, fst (Views.handleCreateStudent lower formData w) = Ok message)
  /\ (Spec.issued w w' = [students_lookup]
      \/ Spec.issued w w' = [students_lookup; users_lookup]
      \/ (Spec.issued w w'
          = [students_lookup; users_lookup;
             student_creation (Views.student_data formData)]
          /\ exists students users,
               fst (apiService.get "/students" w) = Ok (VArr students)
               /\ fst (apiService.get "/users" (snd (apiService.get "/students" w)))
                  = Ok (VArr users)
               /\ Forall (unlike lower typed) (students ++ users))).
Proof.
  intros Htyped. cbv zeta. rewrite handleCreateStudent_run. cbv zeta.
  destruct (get_world "/students" w) as (b1 & Hw1).
  destruct (get_world "/users" (snd (apiService.get "/students" w))) as (b2 & Hw2).
  destruct (post_world "/students" (Views.student_data formData)
              (snd (apiService.get "/users" (snd (apiService.get "/students" w)))))
    as (b3 & Hw3).
  assert (H1 : Spec.issued w (snd (apiService.get "/students" w)) = [students_lookup])
    by (rewrite Hw1; apply issued_one).
  assert (H2 : Spec.issued w (snd (apiService.get "/users" (snd (apiService.get "/students" w))))
               = [students_lookup; users_lookup])
    by (rewrite Hw2, Hw1; apply issued_two).
  destruct (fst (apiService.get "/students" w)) as [existingStudents | e];
    [| split; [eauto | left; exact H1]].
  destruct (Views.some existingStudents _) as [[] | e] eqn:Hstudents;
    [split; [eauto | left; exact H1] | | split; [eauto | left; exact H1]].
  destruct (fst (apiService.get "/users" _)) as [existingUsers | e];
    [| split; [eauto | right; left; exact H2]].
  destruct (Views.some existingUsers _) as [[] | e] eqn:Husers;
    [split; [eauto | right; left; exact H2] | | split; [eauto | right; left; exact H2]].
  destruct (some_false formData typed existingStudents Htyped Hstudents)
    as (students & -> & Hclean1).
  destruct (some_false formData typed existingUsers Htyped Husers)
    as (users & -> & Hclean2).
  assert (H3 : forall h,
             Spec.issued w (with_hash h (snd (apiService.post "/students"
                                                (Views.student_data formData)
                                                (snd (apiService.get "/users"
                                                        (snd (apiService.get "/students" w)))))))
             = [students_lookup; users_lookup;
                student_creation (Views.student_data formData)]).
  { intros h. rewrite Hw3, Hw2, Hw1. apply (issued_three _ _ _ b1 b2 b3 w). }
  assert (Hall : Forall (unlike lower typed) (students ++ users))
    by (apply Forall_app; split; assumption).
  destruct (fst (apiService.post _ _ _)) as [created | e]; cbn [fst snd].
  - split; [eauto |]. right. right. split; [apply H3 | eauto].
  - split; [eauto |]. right. right. split; [| eauto].
    rewrite Hw3, Hw2, Hw1. apply (issued_three _ _ _ b1 b2 b3 w).
Qed.

(** X27. An address that a student already has, in whatever letter case,
    is refused after the first lookup: the alert says it is taken, and
    neither the users are looked up nor anything is sent to be
    created. *)
Theorem student_address_in_use_is_refused formData typed w before record after theirs :
  formData "email" = VStr typed ->
  fst (apiService.get "/students" w) = Ok (VArr (before ++ record :: after)) ->
  Forall (unlike lower typed) before ->
  get_prop record "email" = Ok (VStr theirs) ->
  lower theirs = lower typed ->
  Views.handleCreateStudent lower formData w
  = (Ok student_taken, snd (apiService.get "/students" w))
  /\ Spec.issued w (snd (Views.handleCreateStudent lower formData w)) = [students_lookup].
Proof.
  intros Htyped Hstudents Hbefore Htheirs Hsame.
  rewrite handleCreateStudent_run. cbv zeta. rewrite Hstudents.
  rewrite (some_found formData typed before record after theirs Htyped Hbefore Htheirs Hsame).
  split; [reflexivity |]. cbn [snd].
  destruct (get_world "/students" w) as (b1 & ->). apply issued_one.
Qed.

(** X28. An address that belongs to a user is refused after the second
    lookup, and nothing is sent to be created. *)
Theorem user_address_is_refused_for_students
    formData typed w students before record after theirs :
  formData "email" = VStr typed ->
  fst (apiService.get "/students" w) = Ok (VArr students) ->
  Forall (unlike lower typed) students ->
  fst (apiService.get "/users" (snd (apiService.get "/students" w)))
  = Ok (VArr (before ++ record :: after)) ->
  Forall (unlike lower typed) before ->
  get_prop record "email" = Ok (VStr theirs) ->
  lower theirs = lower typed ->
  Views.handleCreateStudent lower formData w
  = (Ok user_taken, snd (apiService.get "/users" (snd (apiService.get "/students" w))))
  /\ Spec.issued w (snd (Views.handleCreateStudent lower formData w))
     = [students_lookup; users_lookup].
Proof.
  intros Htyped Hstudents Hclean Husers Hbefore Htheirs Hsame.
  rewrite handleCreateStudent_run. cbv zeta. rewrite Hstudents.
  rewrite (some_clean formData typed students Htyped Hclean), Husers.
  rewrite (some_found formData typed before record after theirs Htyped Hbefore Htheirs Hsame).
  split; [reflexivity |]. cbn [snd].
  destruct (get_world "/students" w) as (b1 & Hw1).
  destruct (get_world "/users" (snd (apiService.get "/students" w))) as (b2 & Hw2).
  rewrite Hw2, Hw1. apply issued_two.
Qed.

(** X29. With both lookups clean and the server accepting the record, the
    student is created, the alert says so and the address becomes
    ['#/students']. *)
Theorem student_with_a_new_address_is_created formData typed w students users created :
  formData "email" = VStr typed ->
  fst (apiService.get "/students" w) = Ok (VArr students) ->
  let w1 := snd (apiService.get "/students" w) in
  fst (apiService.get "/users" w1) = Ok (VArr users) ->
  let w2 := snd (apiService.get "/users" w1) in
  Forall (unlike lower typed) (students ++ users) ->
  fst (apiService.post "/students" (Views.student_data formData) w2) = Ok created ->
  let w3 := snd (apiService.post "/students" (Views.student_data formData) w2) in
  Views.handleCreateStudent lower formData w
  = (Ok "Student created successfully!", with_hash "#/students" w3).
Proof.
  intros Htyped Hstudents w1 Husers w2 Hclean Hpost w3.
  apply Forall_app in Hclean as [Hclean1 Hclean2].
  rewrite handleCreateStudent_run. cbv zeta. rewrite Hstudents.
  rewrite (some_clean formData typed students Htyped Hclean1). fold w1. rewrite Husers.
  rewrite (some_clean formData typed users Htyped Hclean2). fold w2. rewrite Hpost.
  reflexivity.
Qed.

End Students.

(** ** The claims on concrete worlds *)

Import Scenario JsonServer.

Lemma path_of_hash_admin path query :
  In path Router.adminRoutes ->
  Router.path_of_hash ("#" ++ path) = path
  /\ Router.path_of_hash ("#" ++ path ++ "?" ++ query) = path.
Proof. intros [<- | [<- | []]]; split; reflexivity. Qed.

(** C1 at work: ['#/students/edit?id=7'] in a tab where nobody is
    signed in. *)
Lemma unauthenticated_admin_route_witness :
  let w := tab "#/students/edit?id=7" (Running seeded) in
  In (Router.path_of_hash (location_hash w)) Router.adminRoutes
  /\ state_user w = VNull
  /\ Router.handleRoute w = (Ok tt, with_hash "#/login" w)
  /\ location_hash (snd (Router.handleRoute w)) = "#/login"
  /\ location_hash (snd (Router.handleRoute w)) <> "#/not-found"
  /\ app (snd (Router.handleRoute w)) = app w.
Proof.
  cbv zeta.
  assert (Hpath : In (Router.path_of_hash
                        (location_hash (tab "#/students/edit?id=7" (Running seeded))))
                     Router.adminRoutes)
    by (right; left; reflexivity).
  split; [exact Hpath |]. split; [reflexivity |].
  apply (unauthenticated_admin_route_goes_to_login
           (tab "#/students/edit?id=7" (Running seeded)) Hpath).
  reflexivity.
Defined.

(** C2 at work: ['#/students/create'] while the test user of role
    ['user'] is signed in. *)
Lemma non_admin_on_admin_route_witness :
  let w := signed_in user "#/students/create" in
  In (Router.path_of_hash (location_hash w)) Router.adminRoutes
  /\ state_user w <> VNull
  /\ get_prop (state_user w) "role" <> Ok (VStr "admin")
  /\ Router.handleRoute w = (Ok tt, with_hash "#/not-found" w)
  /\ location_hash (snd (Router.handleRoute w)) = "#/not-found"
  /\ app (snd (Router.handleRoute w)) = app w.
Proof.
  cbv zeta.
  assert (Hpath : In (Router.path_of_hash
                        (location_hash (signed_in user "#/students/create")))
                     Router.adminRoutes)
    by (left; reflexivity).
  assert (Huser : state_user (signed_in user "#/students/create") <> VNull)
    by discriminate.
  assert (Hrole : get_prop (state_user (signed_in user "#/students/create")) "role"
                  <> Ok (VStr "admin"))
    by discriminate.
  split; [exact Hpath |]. split; [exact Huser |]. split; [exact Hrole |].
  exact (non_admin_on_admin_route_goes_to_not_found
           (signed_in user "#/students/create") Hpath Huser Hrole).
Defined.

(** The claim C3 fails on the code: with the text ['[object Object]']
    in the slot, the [SyntaxError] of [JSON.parse] escapes [init()],
    while an absent slot makes [init()] complete. *)
Lemma init_malformed_slot_escapes :
  Store.init (tab_with_slot "[object Object]")
  = (Throw (SyntaxError "Unexpected token in JSON"), tab_with_slot "[object Object]")
  /\ Store.init (tab "#/" Stopped) = (Ok tt, tab "#/" Stopped).
Proof. split; vm_compute; reflexivity. Qed.

(** C3 as amended, at work: an absent slot, the slot [setUser(admin)]
    wrote, and the malformed slot above. *)
Lemma init_loads_or_throws_witness :
  let saved := default "" (JSON.stringify admin) in
  Store.init (tab "#/" Stopped) = (Ok tt, tab "#/" Stopped)
  /\ Store.init (tab_with_slot saved) = (Ok tt, with_user admin (tab_with_slot saved))
  /\ Store.init (tab_with_slot "[object Object]")
     = (Throw (SyntaxError "Unexpected token in JSON"), tab_with_slot "[object Object]").
Proof.
  cbv zeta. split; [| split].
  - apply (proj1 (init_loads_or_throws (tab "#/" Stopped))). reflexivity.
  - apply (proj1 (proj2 (proj2 (init_loads_or_throws
                                  (tab_with_slot (default "" (JSON.stringify admin)))))))
      with (text := default "" (JSON.stringify admin));
      vm_compute; reflexivity.
  - apply (proj2 (proj2 (proj2 (init_loads_or_throws (tab_with_slot "[object Object]")))))
      with (text := "[object Object]");
      [vm_compute; reflexivity | discriminate | vm_compute; reflexivity].
Defined.

(** The claim C5 fails on the code: the error thrown for a 404 on
    [GET /students], and the one thrown when the server is down during
    [DELETE /students/5], do not contain the path; the second names no
    operation either. *)
Lemma api_error_omits_path :
  let w := tab "#/students" (Running seeded) in
  let down := tab "#/students" Stopped in
  fst (apiService.get "/students" w) = Throw (Error "Error fetching data: 404 Not Found")
  /\ Spec.contains "/students" "Error fetching data: 404 Not Found" = false
  /\ fst (apiService.delete "/students/5" down) = Throw (TypeError "Failed to fetch")
  /\ Spec.contains "/students/5" "Failed to fetch" = false
  /\ Spec.contains "DELETE" "Failed to fetch" = false
  /\ Spec.contains "delet" "Failed to fetch" = false.
Proof. cbv zeta. repeat split; vm_compute; reflexivity. Qed.

(** C5 as amended, at work on the same two failures. *)
Lemma api_failure_witness :
  let w := tab "#/students" (Running seeded) in
  let down := tab "#/students" Stopped in
  (fst (apiService.get "/students" w) = Throw (Error "Error fetching data: 404 Not Found")
   /\ Spec.issued w (snd (apiService.get "/students" w))
      = [mkRequest "GET" "http://localhost:3000/students" [] None])
  /\ (fst (apiService.delete "/students/5" down) = Throw (TypeError "Failed to fetch")
      /\ Spec.issued down (snd (apiService.delete "/students/5" down))
         = [mkRequest "DELETE" "http://localhost:3000/students/5" [] None]).
Proof.
  cbv zeta. split.
  - pose proof (api_failure_throws_after_one_attempt
                  Spec.Read "/students" VUndefined (tab "#/students" (Running seeded))
                  (Responds not_found) (Running seeded) eq_refl eq_refl) as Hfail.
    cbv zeta in Hfail. destruct Hfail as (Hthrow & Hissued & _).
    split; [exact Hthrow | exact Hissued].
  - pose proof (api_failure_throws_after_one_attempt
                  Spec.Remove "/students/5" VUndefined (tab "#/students" Stopped)
                  (Rejects (TypeError "Failed to fetch")) Stopped eq_refl I) as Hfail.
    cbv zeta in Hfail. destruct Hfail as (Hthrow & Hissued & _).
    split; [exact Hthrow | exact Hissued].
Defined.

(** The seeded admin address with a wrong password. *)
Lemma login_wrong_password_witness :
  let w := tab "#/login" (Running seeded) in
  let w' := snd (authService.login "admin@crudops.com" "admin124" w) in
  fst (authService.login "admin@crudops.com" "admin124" w)
  = Ok (authService.Failure "Credenciales inválidas")
  /\ state_user w' = VNull
  /\ localStorage w' = ∅
  /\ w' = with_exchange (Spec.login_request "admin@crudops.com" "admin124")
                        (Running seeded) w.
Proof.
  cbv zeta.
  exact (login_no_match_leaves_store
           "admin@crudops.com" "admin124" (tab "#/login" (Running seeded))
           (mkResponse 200 "OK" "[]") (Running seeded) eq_refl eq_refl eq_refl).
Defined.

(** C6 fails on the code.  [login] pastes the two texts into the path
    of the lookup as they are, with no encoding, so a pair that is the
    pair of no record can still make the lookup answer with a record,
    and [login] then signs that record in.  On the seeded server no
    record has the address ['admin@crudops.com#'], and none has the
    password ['wrong'] or ['x&password=admin123'].  Yet with the
    address ['admin@crudops.com#'] and the password ['wrong'] the
    number sign turns the rest of the path, the password with it, into
    a fragment that is never sent; and with the password
    ['x&password=admin123'] the lookup carries the real password as a
    second value of the same key.  Both attempts resolve to success,
    and the store and the slot hold the admin. *)
Theorem login_signs_in_unmatched_pair :
  let w := tab "#/login" (Running seeded) in
  let w1 := snd (authService.login "admin@crudops.com#" "wrong" w) in
  let w2 := snd (authService.login "admin@crudops.com" "x&password=admin123" w) in
  existsb (Spec.matches "admin@crudops.com#" "wrong") (users_of (backend w)) = false
  /\ existsb (Spec.matches "admin@crudops.com" "x&password=admin123")
             (users_of (backend w)) = false
  /\ state_user w = VNull
  /\ fst (authService.login "admin@crudops.com#" "wrong" w)
     = Ok (authService.Success admin)
  /\ state_user w1 = admin
  /\ localStorage w1 !! "currentUser" = JSON.stringify admin
  /\ fst (authService.login "admin@crudops.com" "x&password=admin123" w)
     = Ok (authService.Success admin)
  /\ state_user w2 = admin
  /\ localStorage w2 !! "currentUser" = JSON.stringify admin.
Proof. cbv zeta. repeat split; vm_compute; reflexivity. Qed.

(** The claim C7 fails on the code: the same sign-in attempt gets one
    message when no record matches and another when the server is
    down. *)
Lemma login_messages_differ :
  fst (authService.login "admin@crudops.com" "admin124" (tab "#/login" (Running seeded)))
  = Ok (authService.Failure "Credenciales inválidas")
  /\ fst (authService.login "admin@crudops.com" "admin124" (tab "#/login" Stopped))
     = Ok (authService.Failure "Error al iniciar sesión. Por favor intenta de nuevo.")
  /\ "Credenciales inválidas" <> "Error al iniciar sesión. Por favor intenta de nuevo.".
Proof. split; [| split]; [vm_compute; reflexivity .. | discriminate]. Qed.

(** C7 as amended, at work on the same two attempts. *)
Lemma login_failure_messages_witness :
  let running := tab "#/login" (Running seeded) in
  let down := tab "#/login" Stopped in
  let request := Spec.login_request "admin@crudops.com" "admin124" in
  authService.login "admin@crudops.com" "admin124" running
  = (Ok (authService.Failure "Credenciales inválidas"),
     with_exchange request (Running seeded) running)
  /\ authService.login "admin@crudops.com" "admin124" down
     = (Ok (authService.Failure "Error al iniciar sesión. Por favor intenta de nuevo."),
        with_exchange request Stopped down).
Proof.
  cbv zeta. split.
  - apply (proj1 (login_failure_messages "admin@crudops.com" "admin124"
                    (tab "#/login" (Running seeded)) _)).
    vm_compute. reflexivity.
  - apply (proj1 (proj2 (login_failure_messages "admin@crudops.com" "admin124"
                           (tab "#/login" Stopped) _))
             (TypeError "Failed to fetch")).
    vm_compute. reflexivity.
Defined.

(** C4 fails on the code.  Against the mock backend, whose filter
    compares the address exactly, [register] accepts ['Ana@Test.com']
    after ['ana@test.com']: both calls succeed and the [users]
    collection ends with two records whose addresses differ only in
    letter case.  The same address typed the same way is refused. *)
Lemma register_accepts_case_variant :
  let w0 := tab "#/register" (Running empty_users) in
  let w1 := snd (authService.register ana_form w0) in
  let w2 := snd (authService.logout w1) in
  let w3 := snd (authService.register ana_form_upper w2) in
  Spec.lower "Ana@Test.com" = Spec.lower "ana@test.com"
  /\ fst (authService.register ana_form w0) = Ok (authService.Success ana_record)
  /\ fst (authService.register ana_form_upper w2) = Ok (authService.Success ana_record_upper)
  /\ users_of (backend w3) = [ana_record; ana_record_upper]
  /\ fst (authService.register ana_form w2)
     = Ok (authService.Failure "El email ya está registrado")
  /\ users_of (backend (snd (authService.register ana_form w2))) = [ana_record].
Proof. cbv zeta. repeat split; vm_compute; reflexivity. Qed.

(** C10 at work: a form without [role] is created, and signed in,
    with role ['user']. *)
Example register_without_role :
  let w0 := tab "#/register" (Running seeded) in
  let w1 := snd (authService.register form_without_role w0) in
  get_prop (state_user w1) "role" = Ok (VStr "user")
  /\ map (fun r => get_prop r "role") (users_of (backend w1))
     = [Ok (VStr "admin"); Ok (VStr "user"); Ok (VStr "user")].
Proof. cbv zeta. split; vm_compute; reflexivity. Qed.


(** The sign-in scenario of the documentation: the seeded admin signs
    in, and the store and the slot hold that record. *)
Example login_seeded_admin :
  let w := tab "#/login" (Running seeded) in
  let w' := snd (authService.login "admin@crudops.com" "admin123" w) in
  fst (authService.login "admin@crudops.com" "admin123" w) = Ok (authService.Success admin)
  /\ state_user w' = admin
  /\ localStorage w' !! "currentUser" = JSON.stringify admin
  /\ Store.init (reload w') = (Ok tt, with_user admin (reload w')).
Proof. cbv zeta. repeat split; vm_compute; reflexivity. Qed.

(** The guard lets the admin through to the edit view and sends a
    signed-in visitor of ['#/login'] to the dashboard. *)
Example admin_reaches_edit_view :
  let w := signed_in admin "#/students/edit?id=7" in
  Router.handleRoute w = (Ok tt, with_app EditStudentView w)
  /\ Router.handleRoute (signed_in user "#/login")
     = (Ok tt, with_hash "#/dashboard" (signed_in user "#/login"))
  /\ Router.handleRoute (signed_in user "#/nowhere")
     = (Ok tt, with_app NotFoundView (signed_in user "#/nowhere")).
Proof. cbv zeta. repeat split; vm_compute; reflexivity. Qed.

(** ** The further properties on concrete worlds *)

(** The seeded server answers a filtered read of the users. *)
Lemma api_success_resolves_witness :
  let w := tab "#/login" (Running seeded) in
  fst (Spec.call Spec.Read "/users?role=admin" VUndefined w) = Ok (VArr [admin]).
Proof.
  cbv zeta.
  pose proof (api_success_resolves
                Spec.Read "/users?role=admin" VUndefined (tab "#/login" (Running seeded))
                (mkResponse 200 "OK" (default "" (JSON.stringify (VArr [admin]))))
                (Running seeded) eq_refl eq_refl) as Hcall.
  rewrite Hcall. vm_compute. reflexivity.
Defined.

(** The seeded admin signs in. *)
Lemma login_success_holds_session_witness :
  let w := tab "#/login" (Running seeded) in
  let w' := snd (authService.login "admin@crudops.com" "admin123" w) in
  state_user w' = admin
  /\ localStorage w' !! "currentUser" = JSON.stringify admin
  /\ authService.isAuthenticated w' = (Ok true, w').
Proof.
  cbv zeta.
  assert (Hok : fst (authService.login "admin@crudops.com" "admin123"
                        (tab "#/login" (Running seeded)))
                = Ok (authService.Success admin)) by (vm_compute; reflexivity).
  pose proof (login_success_holds_session
                "admin@crudops.com" "admin123" (tab "#/login" (Running seeded)) admin Hok)
    as Hlogin.
  cbv zeta in Hlogin. destruct Hlogin as (Huser & Hslot & Hauth & _).
  split; [exact Huser | split; [exact Hslot | exact Hauth]].
Defined.


(** The exception at work: the lookup finds the record whose role has
    no text, [Store.setUser] installs it, the log line throws, and
    [login] answers with the failure of its [catch] while the record
    is the signed-in user. *)
Example login_fails_after_signing_in :
  let w := tab "#/login" (Running odd_users) in
  let w' := snd (authService.login "odd@crudops.com" "odd123" w) in
  fst (authService.login "odd@crudops.com" "odd123" w)
  = Ok (authService.Failure "Error al iniciar sesión. Por favor intenta de nuevo.")
  /\ state_user w' = odd
  /\ authService.isAuthenticated w' = (Ok true, w').
Proof. cbv zeta. repeat split; vm_compute; reflexivity. Qed.

(** Nobody signed in, the dashboard asked for. *)
Lemma protected_route_without_session_witness :
  let w := tab "#/dashboard" (Running seeded) in
  Router.handleRoute w = (Ok tt, with_hash "#/login" w).
Proof.
  cbv zeta.
  apply (protected_route_without_session_goes_to_login (tab "#/dashboard" (Running seeded))).
  - vm_compute. left. reflexivity.
  - reflexivity.
Defined.

(** A signed-in user opens the sign-in page. *)
Lemma signed_in_on_login_witness :
  let w := signed_in user "#/login" in
  Router.handleRoute w = (Ok tt, with_hash "#/dashboard" w).
Proof.
  cbv zeta. apply (signed_in_on_login_goes_to_dashboard (signed_in user "#/login")).
  - right. vm_compute. reflexivity.
  - discriminate.
Defined.

(** The seeded user asks for the page that creates students and is
    sent to the not-found page. *)
Lemma handleRoute_renders_only_when_allowed_witness :
  let w := signed_in user "#/students/create" in
  Router.handleRoute w = (Ok tt, with_hash "#/not-found" w).
Proof.
  cbv zeta.
  destruct (handleRoute_renders_only_when_allowed (signed_in user "#/students/create"))
    as [(target & _ & Hredirect) | (_ & _ & Hadmin)].
  - pose proof Hredirect as Htarget. vm_compute in Htarget. injection Htarget as Htarget.
    rewrite Hredirect, <- Htarget. reflexivity.
  - assert (Hin : In (Router.path_of_hash (location_hash (signed_in user "#/students/create")))
                     Router.adminRoutes) by (vm_compute; left; reflexivity).
    specialize (Hadmin Hin). vm_compute in Hadmin. discriminate Hadmin.
Defined.

(** That redirect is followed by the not-found view. *)
Lemma redirect_settles_in_one_step_witness :
  let w := signed_in user "#/students/create" in
  let w1 := snd (Router.handleRoute w) in
  location_hash w1 = "#/not-found"
  /\ Router.handleRoute w1 = (Ok tt, with_app NotFoundView w1).
Proof.
  cbv zeta.
  destruct (redirect_settles_in_one_step (signed_in user "#/students/create"))
    as [Hrender | (_ & _ & view & _ & _ & Hsettled)].
  - vm_compute in Hrender. discriminate Hrender.
  - split; [reflexivity |].
    specialize (Hsettled (or_introl eq_refl)).
    pose proof Hsettled as Hview. vm_compute in Hview. injection Hview as Hview.
    rewrite Hsettled, <- Hview. reflexivity.
Defined.


(** The [Settings] link of the sidebar has no route. *)
Lemma unknown_path_renders_not_found_witness :
  let w := signed_in user "#/settings" in
  Router.handleRoute w = (Ok tt, with_app NotFoundView w).
Proof.
  cbv zeta. apply (unknown_path_renders_not_found (signed_in user "#/settings")).
  - vm_compute. reflexivity.
  - vm_compute. reflexivity.
Defined.

(** Signing up with the address of a seeded user. *)
Lemma register_refuses_known_address_witness :
  let w := tab "#/register" (Running seeded) in
  authService.register user w
  = (Ok (authService.Failure "El email ya está registrado"),
     with_exchange (Spec.precheck_request (VStr "user@crudops.com")) (Running seeded) w).
Proof.
  cbv zeta.
  assert (Hfound : JSON.parse (default "" (JSON.stringify (VArr [user]))) = Ok (VArr [user]))
    by (vm_compute; reflexivity).
  exact (register_refuses_known_address
           user (VStr "user@crudops.com") (tab "#/register" (Running seeded))
           (mkResponse 200 "OK" (default "" (JSON.stringify (VArr [user]))))
           (Running seeded) user [] eq_refl eq_refl eq_refl eq_refl Hfound).
Defined.

(** Signing up with a new address on an empty collection. *)
Lemma register_success_holds_session_witness :
  let w := tab "#/register" (Running empty_users) in
  let w' := snd (authService.register ana_form w) in
  state_user w' = ana_record
  /\ localStorage w' !! "currentUser" = JSON.stringify ana_record
  /\ authService.isAuthenticated w' = (Ok true, w').
Proof.
  cbv zeta.
  assert (Hok : fst (authService.register ana_form (tab "#/register" (Running empty_users)))
                = Ok (authService.Success ana_record)) by (vm_compute; reflexivity).
  pose proof (register_success_holds_session
                ana_form (tab "#/register" (Running empty_users)) ana_record Hok)
    as Hregister.
  cbv zeta in Hregister. destruct Hregister as (Huser & Hslot & Hauth & _).
  split; [exact Huser | split; [exact Hslot | exact Hauth]].
Defined.

(** The record of a signed-up user, with its integer id, comes back
    after a reload. *)
Lemma session_survives_reload_witness :
  let w1 := reload (snd (Store.setUser ana_record (tab "#/register" (Running empty_users)))) in
  Store.init w1 = (Ok tt, with_user ana_record w1).
Proof.
  cbv zeta.
  assert (Hplain : plain ana_record = true) by (vm_compute; reflexivity).
  pose proof (session_survives_reload
                ana_record (tab "#/register" (Running empty_users)) Hplain) as Hreload.
  cbv zeta in Hreload. destruct Hreload as [Hinit _]. exact Hinit.
Defined.

(** The admin reloads the list of students. *)
Lemma reload_keeps_the_visitor_signed_in_witness :
  let w1 := reload (snd (Store.setUser admin (tab "#/students" (Running seeded)))) in
  App.open_page w1 = (Ok tt, with_app StudentsListView (with_user admin w1)).
Proof.
  cbv zeta.
  assert (Hplain : plain admin = true) by (vm_compute; reflexivity).
  assert (Hnull : admin <> VNull) by discriminate.
  pose proof (reload_keeps_the_visitor_signed_in
                admin (tab "#/students" (Running seeded)) Hplain Hnull) as Hreload.
  cbv zeta in Hreload. destruct Hreload as [Hopen _]. rewrite Hopen.
  vm_compute. reflexivity.
Defined.

(** A slot that holds the text of [String({})]. *)
Lemma malformed_slot_blocks_the_page_witness :
  let w := tab_with_slot "[object Object]" in
  App.open_page w = (Throw (SyntaxError "Unexpected token in JSON"), w).
Proof.
  cbv zeta.
  assert (Hparse : JSON.parse "[object Object]"
                   = Throw (SyntaxError "Unexpected token in JSON"))
    by (vm_compute; reflexivity).
  assert (Hne : "[object Object]" <> "") by discriminate.
  exact (proj1 (malformed_slot_blocks_the_page
                  (tab_with_slot "[object Object]") "[object Object]"
                  (SyntaxError "Unexpected token in JSON") eq_refl Hne Hparse)).
Defined.

(** The seeded admin fills in the sign-in form. *)
Lemma login_form_opens_dashboard_witness :
  let w := tab "#/login" (Running seeded) in
  let w1 := snd (Views.handleLogin "admin@crudops.com" "admin123" w) in
  fst (Views.handleLogin "admin@crudops.com" "admin123" w) = Ok None
  /\ location_hash w1 = "#/dashboard"
  /\ App.open_page w1 = (Ok tt, with_app DashboardView (with_user admin w1)).
Proof.
  cbv zeta.
  assert (Hok : fst (authService.login "admin@crudops.com" "admin123"
                        (tab "#/login" (Running seeded)))
                = Ok (authService.Success admin)) by (vm_compute; reflexivity).
  assert (Hplain : plain admin = true) by (vm_compute; reflexivity).
  assert (Hdraw : drawable admin = true) by (vm_compute; reflexivity).
  exact (login_form_opens_dashboard
           "admin@crudops.com" "admin123" (tab "#/login" (Running seeded)) admin
           Hok Hplain Hdraw).
Defined.

(** A new user fills in the sign-up form. *)
Lemma register_form_opens_dashboard_witness :
  let w := tab "#/register" (Running empty_users) in
  let w1 := snd (Views.handleRegister "Ana" "ana@test.com" "secret1" "user" w) in
  fst (Views.handleRegister "Ana" "ana@test.com" "secret1" "user" w) = Ok None
  /\ location_hash w1 = "#/dashboard"
  /\ App.open_page w1 = (Ok tt, with_app DashboardView (with_user ana_record w1)).
Proof.
  cbv zeta.
  assert (Hok : fst (authService.register ana_form (tab "#/register" (Running empty_users)))
                = Ok (authService.Success ana_record)) by (vm_compute; reflexivity).
  assert (Hplain : plain ana_record = true) by (vm_compute; reflexivity).
  assert (Hdraw : drawable ana_record = true) by (vm_compute; reflexivity).
  exact (register_form_opens_dashboard
           "Ana" "ana@test.com" "secret1" "user" (tab "#/register" (Running empty_users))
           ana_record Hok Hplain Hdraw).
Defined.

(** The address of the edit view with an id. *)
Lemma query_string_does_not_change_the_route_witness :
  let w := signed_in admin "#/students" in
  Router.path_of_hash (location_hash (snd (Router.navigate "/students/edit?id=7" w)))
  = Router.path_of_hash (location_hash (snd (Router.navigate "/students/edit" w))).
Proof.
  cbv zeta.
  assert (Hhash : location_hash (snd (Router.navigate "/students/edit"
                                        (signed_in admin "#/students"))) <> "")
    by discriminate.
  exact (proj1 (query_string_does_not_change_the_route
                  "/students/edit" "id=7" (signed_in admin "#/students") Hhash)).
Defined.

(** The sidebar drawn for the seeded user has no link to the page
    that creates students. *)
Lemma sidebar_links_pass_the_guard_witness :
  let w := signed_in user "#/dashboard" in
  exists m,
    Sidebar.Sidebar w = (Ok m, w)
    /\ map fst (Sidebar.links m) = ["#/dashboard"; "#/students"; "#/payments"; "#/settings"].
Proof.
  cbv zeta.
  destruct (fst (Sidebar.Sidebar (signed_in user "#/dashboard"))) as [m | e] eqn:Hdrawn;
    [| vm_compute in Hdrawn; discriminate Hdrawn].
  destruct (sidebar_links_pass_the_guard (signed_in user "#/dashboard") m Hdrawn)
    as (Hrun & _).
  exists m. split; [exact Hrun |].
  vm_compute in Hdrawn. injection Hdrawn as <-. reflexivity.
Defined.

(** A new address: both lookups are made and the record is sent. *)
Lemma student_is_created_only_with_an_unused_address_witness :
  let w := tab "#/students/create" (Running campus) in
  let form := student_form "Ana" "ana@test.com" in
  Spec.issued w (snd (Views.handleCreateStudent Spec.lower form w))
  = [students_lookup; users_lookup; student_creation (Views.student_data form)].
Proof.
  cbv zeta.
  pose proof (student_is_created_only_with_an_unused_address
                Spec.lower (student_form "Ana" "ana@test.com") "ana@test.com"
                (tab "#/students/create" (Running campus)) eq_refl) as Honly.
  cbv zeta in Honly. destruct Honly as [_ [Hone | [Htwo | [Hthree _]]]].
  - vm_compute in Hone. discriminate Hone.
  - vm_compute in Htwo. discriminate Htwo.
  - exact Hthree.
Defined.

(** The form asks for [Maria@Test.com]; a student has [maria@test.com]. *)
Lemma student_address_in_use_is_refused_witness :
  let w := tab "#/students/create" (Running campus) in
  let form := student_form "Maria" "Maria@Test.com" in
  fst (Views.handleCreateStudent Spec.lower form w) = Ok student_taken
  /\ Spec.issued w (snd (Views.handleCreateStudent Spec.lower form w)) = [students_lookup].
Proof.
  cbv zeta.
  assert (Hstudents : fst (apiService.get "/students" (tab "#/students/create" (Running campus)))
                      = Ok (VArr ([] ++ maria :: []))) by (vm_compute; reflexivity).
  assert (Hsame : Spec.lower "maria@test.com" = Spec.lower "Maria@Test.com")
    by (vm_compute; reflexivity).
  pose proof (student_address_in_use_is_refused
                Spec.lower (student_form "Maria" "Maria@Test.com") "Maria@Test.com"
                (tab "#/students/create" (Running campus)) [] maria [] "maria@test.com"
                eq_refl Hstudents (List.Forall_nil _) eq_refl Hsame) as [Hrefused Hissued].
  split; [rewrite Hrefused; reflexivity | exact Hissued].
Defined.

(** The form asks for the address of the seeded admin, in capitals. *)
Lemma user_address_is_refused_for_students_witness :
  let w := tab "#/students/create" (Running campus) in
  let form := student_form "Root" "ADMIN@CRUDOPS.COM" in
  fst (Views.handleCreateStudent Spec.lower form w) = Ok user_taken
  /\ Spec.issued w (snd (Views.handleCreateStudent Spec.lower form w))
     = [students_lookup; users_lookup].
Proof.
  cbv zeta.
  assert (Hstudents : fst (apiService.get "/students" (tab "#/students/create" (Running campus)))
                      = Ok (VArr [maria])) by (vm_compute; reflexivity).
  assert (Husers : fst (apiService.get "/users"
                          (snd (apiService.get "/students"
                                  (tab "#/students/create" (Running campus)))))
                   = Ok (VArr ([] ++ admin :: [user]))) by (vm_compute; reflexivity).
  assert (Hclean : Forall (unlike Spec.lower "ADMIN@CRUDOPS.COM") [maria]).
  { constructor; [| constructor]. exists "maria@test.com".
    split; [reflexivity | vm_compute; discriminate]. }
  assert (Hsame : Spec.lower "admin@crudops.com" = Spec.lower "ADMIN@CRUDOPS.COM")
    by (vm_compute; reflexivity).
  pose proof (user_address_is_refused_for_students
                Spec.lower (student_form "Root" "ADMIN@CRUDOPS.COM") "ADMIN@CRUDOPS.COM"
                (tab "#/students/create" (Running campus)) [maria] [] admin [user]
                "admin@crudops.com"
                eq_refl Hstudents Hclean Husers (List.Forall_nil _) eq_refl Hsame)
    as [Hrefused Hissued].
  split; [rewrite Hrefused; reflexivity | exact Hissued].
Defined.

(** A new address on the same server. *)
Lemma student_with_a_new_address_is_created_witness :
  let w := tab "#/students/create" (Running campus) in
  let form := student_form "Ana" "ana@test.com" in
  fst (Views.handleCreateStudent Spec.lower form w) = Ok "Student created successfully!"
  /\ location_hash (snd (Views.handleCreateStudent Spec.lower form w)) = "#/students".
Proof.
  cbv zeta.
  assert (Hstudents : fst (apiService.get "/students" (tab "#/students/create" (Running campus)))
                      = Ok (VArr [maria])) by (vm_compute; reflexivity).
  assert (Husers : fst (apiService.get "/users"
                          (snd (apiService.get "/students"
                                  (tab "#/students/create" (Running campus)))))
                   = Ok (VArr [admin; user])) by (vm_compute; reflexivity).
  assert (Hclean : Forall (unlike Spec.lower "ana@test.com") ([maria] ++ [admin; user])).
  { repeat constructor.
    - exists "maria@test.com". split; [reflexivity | vm_compute; discriminate].
    - exists "admin@crudops.com". split; [reflexivity | vm_compute; discriminate].
    - exists "user@crudops.com". split; [reflexivity | vm_compute; discriminate]. }
  destruct (fst (apiService.post "/students"
                   (Views.student_data (student_form "Ana" "ana@test.com"))
                   (snd (apiService.get "/users"
                           (snd (apiService.get "/students"
                                   (tab "#/students/create" (Running campus))))))))
    as [created | e] eqn:Hpost; [| vm_compute in Hpost; discriminate Hpost].
  pose proof (student_with_a_new_address_is_created
                Spec.lower (student_form "Ana" "ana@test.com") "ana@test.com"
                (tab "#/students/create" (Running campus)) [maria] [admin; user] created
                eq_refl Hstudents Husers Hclean Hpost) as Hcreated.
  cbv zeta in Hcreated. rewrite Hcreated. split; reflexivity.
Defined.
